(** * FactCheckr: evidence aggregation, conflict analysis and cache-first handlers

    A shallow embedding of [src/index.ts] (the worker of the FactCheckr MCP
    server) and of the tables of [src/db/schema.ts].

    Conventions of the embedding.
    - JavaScript strings are [string]s; [toLowerCase] folds the ASCII
      letters, the folding of other letters is not modelled. The words the
      conflict analyzer searches for hold neither [k] nor [i], the only
      ASCII letters another character can fold to, so its searches are not
      affected by this; a statement that depends on a keyword holding [k]
      or [i] being absent is restricted to ASCII text.
    - JavaScript numbers are exact rationals extended with [NaN] and the two
      infinities ([number]); rounding of binary64 arithmetic is not modelled.
      The confidence literals every adapter writes are finite, so an evidence
      record carries a [Q]. Statements are kept to facts that rounding does
      not change.
    - A function that may throw returns a [result]; a function with
      effects is a computation in [M], which threads the store and the
      history of what was done to the outside world; [try]/[catch] is
      [try_catchM].
    - The outside world ([World]) answers every fetch and every model call,
      and its answer may depend on the whole history.
    - A tool call is one computation in [M]: it runs from its lookup to its
      answer with no other call in between. Two calls that interleave at
      the [await] of the lookup are modelled apart ([lookups_first]).
    - A [TypeError] of the runtime is an [Error]; the text of its message is
      not modelled.
    - The runtime's [JSON.parse], [Number] on strings,
      [Array.prototype.toString] and the regular-expression and text
      functions are parameters of the development ([Runtime], [TextOps]).
    - Parsed JSON is dynamically typed ([value]); where the code casts a
      payload to a declared type without a check, the value is kept
      ([EvidenceAtRuntime]) and the operations that throw on a value of the
      wrong type throw. *)

From Stdlib Require Import List String Ascii Bool Arith NArith ZArith Lia Lqa QArith
  DecimalString.
Import ListNotations.
Open Scope string_scope.

(** ** Strings *)

Module JsString.

Definition lower_ascii (c : ascii) : ascii :=
  let n := nat_of_ascii c in
  if (65 <=? n)%nat && (n <=? 90)%nat then ascii_of_nat (n + 32) else c.

Fixpoint toLowerCase (s : string) : string :=
  match s with
  | EmptyString => EmptyString
  | String c t => String (lower_ascii c) (toLowerCase t)
  end.

(** [s.includes(sub)] *)
Fixpoint includes (s sub : string) : bool :=
  prefix sub s ||
  match s with
  | EmptyString => false
  | String _ t => includes t sub
  end.

(** [xs.join(sep)] *)
Definition join (sep : string) (xs : list string) : string :=
  String.concat sep xs.

(** The double quote character, as a one-character string. *)
Definition dq : string := String (ascii_of_nat 34) EmptyString.

End JsString.
Import JsString.

(** ** Evidence records *)

(** [interface ExternalFactCheckResult] *)
Record ExternalFactCheckResult : Type := mkEvidence {
  source : string;
  verdict : option string;   (* [verdict?: string] *)
  summary : string;
  url : string;
  confidence : Q
}.

(** Truthiness of the optional [verdict]: present and not the empty string. *)
Definition verdict_truthy (r : ExternalFactCheckResult) : bool :=
  match verdict r with
  | Some v => negb (String.eqb v EmptyString)
  | None => false
  end.

Definition verdict_text (r : ExternalFactCheckResult) : string :=
  match verdict r with
  | Some v => v
  | None => EmptyString
  end.

(** ** Conflict analyzer *)

Record ConflictAnalysis : Type := mkConflict {
  hasConflicts : bool;
  conflictSummary : string
}.

Definition conflicting_verdicts_text : string :=
  "Sources provide conflicting verdicts (some say true, others say false)".

(** The test of the inner loop body, on two case-folded summaries, in the
    order the loop reads them ([summary1] is the earlier record). *)
Definition opposite_statements (summary1 summary2 : string) : bool :=
  (includes summary1 "won" && includes summary2 "lost") ||
  (includes summary1 "true" && includes summary2 "false") ||
  (includes summary1 "yes" && includes summary2 "no").

Definition pair_label (r1 r2 : ExternalFactCheckResult) : string :=
  source r1 ++ " vs " ++ source r2.

(** The inner loop [for (j = i + 1; ...)], for a fixed earlier record. *)
Fixpoint conflicts_with (r1 : ExternalFactCheckResult)
    (later : list ExternalFactCheckResult) : list string :=
  match later with
  | [] => []
  | r2 :: rest =>
      (if opposite_statements (toLowerCase (summary r1)) (toLowerCase (summary r2))
       then [pair_label r1 r2] else [])
      ++ conflicts_with r1 rest
  end.

(** The outer loop [for (i = 0; ...)]. *)
Fixpoint collect_conflicts (results : list ExternalFactCheckResult) : list string :=
  match results with
  | [] => []
  | r1 :: later => conflicts_with r1 later ++ collect_conflicts later
  end.

Definition analyzeSourceConflicts (results : list ExternalFactCheckResult)
  : ConflictAnalysis :=
  if (List.length results <? 2)%nat then mkConflict false EmptyString
  else
    let verdicts :=
      map (fun r => toLowerCase (verdict_text r)) (filter verdict_truthy results) in
    let hasTrue := existsb (fun v => includes v "true") verdicts in
    let hasFalse := existsb (fun v => includes v "false") verdicts in
    if hasTrue && hasFalse then mkConflict true conflicting_verdicts_text
    else
      let conflicts := collect_conflicts results in
      mkConflict (0 <? List.length conflicts)%nat
        (if (0 <? List.length conflicts)%nat
         then "Conflicting information between: " ++ join ", " conflicts
         else EmptyString).

(** ** JavaScript numbers and values *)

Inductive number : Type :=
| NaN
| NegInf
| Fin (q : Q)
| PosInf.

Module JsMath.

(** [Math.max(a, b)] *)
Definition max (a b : number) : number :=
  match a, b with
  | NaN, _ | _, NaN => NaN
  | PosInf, _ | _, PosInf => PosInf
  | NegInf, x | x, NegInf => x
  | Fin x, Fin y => if Qle_bool x y then Fin y else Fin x
  end.

(** [Math.min(a, b)] *)
Definition min (a b : number) : number :=
  match a, b with
  | NaN, _ | _, NaN => NaN
  | NegInf, _ | _, NegInf => NegInf
  | PosInf, x | x, PosInf => x
  | Fin x, Fin y => if Qle_bool x y then Fin x else Fin y
  end.

(** [a * k] for a finite factor [k]. *)
Definition scale (a : number) (k : Q) : number :=
  match a with
  | NaN => NaN
  | Fin x => Fin (x * k)
  | PosInf =>
      match Qcompare k 0 with Gt => PosInf | Lt => NegInf | Eq => NaN end
  | NegInf =>
      match Qcompare k 0 with Gt => NegInf | Lt => PosInf | Eq => NaN end
  end.

(** [a + b] *)
Definition add (a b : number) : number :=
  match a, b with
  | NaN, _ | _, NaN => NaN
  | PosInf, NegInf | NegInf, PosInf => NaN
  | PosInf, _ | _, PosInf => PosInf
  | NegInf, _ | _, NegInf => NegInf
  | Fin x, Fin y => Fin (x + y)
  end.

(** [a / n] for a length [n]. *)
Definition div_length (a : number) (n : nat) : number :=
  match n with
  | O =>
      match a with
      | NaN => NaN
      | PosInf => PosInf
      | NegInf => NegInf
      | Fin x =>
          match Qcompare x 0 with Gt => PosInf | Lt => NegInf | Eq => NaN end
      end
  | S _ =>
      match a with
      | Fin x => Fin (x / inject_Z (Z.of_nat n))
      | other => other
      end
  end.

(** [n > k] for a finite [k] (false on [NaN]). *)
Definition gtb (n : number) (k : Q) : bool :=
  match n with
  | NaN | NegInf => false
  | PosInf => true
  | Fin x => negb (Qle_bool x k)
  end.

(** [n >= k] for a finite [k] (false on [NaN]). *)
Definition geb (n : number) (k : Q) : bool :=
  match n with
  | NaN | NegInf => false
  | PosInf => true
  | Fin x => Qle_bool k x
  end.

End JsMath.

(** A number in the closed interval from 0 to 1. *)
Definition in_unit_interval (n : number) : Prop :=
  match n with
  | Fin q => 0 <= q /\ q <= 1
  | _ => False
  end.

(** What [JSON.parse] returns, and [undefined] for a missing property. *)
#[local] Set Warnings "-register-all".
Inductive value : Type :=
| VUndefined
| VNull
| VBool (b : bool)
| VNum (n : number)
| VStr (s : string)
| VArr (items : list value)
| VObj (fields : list (string * value)).

(** What a [catch] clause receives: an [Error] object with its message, or
    something that is not an [Error]. *)
Inductive thrown : Type :=
| ErrorObj (message : string)
| NonError.

Inductive result (A : Type) : Type :=
| Ok (a : A)
| Throw (e : thrown).
Arguments Ok {A} a.
Arguments Throw {A} e.

Definition bind {A B : Type} (m : result A) (k : A -> result B) : result B :=
  match m with
  | Ok a => k a
  | Throw e => Throw e
  end.

Declare Scope result_scope.
Delimit Scope result_scope with result.
Notation "x <- m ;; k" := (bind m (fun x => k))
  (at level 61, m at next level, right associativity) : result_scope.

Definition TypeError : thrown := ErrorObj "TypeError".

Fixpoint lookup_field (fields : list (string * value)) (key : string) : option value :=
  match fields with
  | [] => None
  | (k, v) :: rest => if String.eqb k key then Some v else lookup_field rest key
  end.

(** An index written as a property key, and back. *)
Definition key_of_index (i : nat) : string :=
  NilEmpty.string_of_uint (Nat.to_uint i).

Definition index_of_key (key : string) : option nat :=
  match NilEmpty.uint_of_string key with
  | Some u =>
      if String.eqb (key_of_index (Nat.of_uint u)) key
      then Some (Nat.of_uint u) else None
  | None => None
  end.

(** [v.key] for one of the keys the code reads from parsed JSON. Reading a
    property of [null] or [undefined] throws; a value without the property
    gives [undefined]. *)
Definition get_prop (v : value) (key : string) : result value :=
  match v with
  | VUndefined | VNull => Throw TypeError
  | VObj fields =>
      match lookup_field fields key with
      | Some x => Ok x
      | None => Ok VUndefined
      end
  | VArr items =>
      if String.eqb key "length"
      then Ok (VNum (Fin (inject_Z (Z.of_nat (List.length items)))))
      else
        match index_of_key key with
        | Some i => Ok (nth i items VUndefined)
        | None => Ok VUndefined
        end
  | VStr s =>
      if String.eqb key "length"
      then Ok (VNum (Fin (inject_Z (Z.of_nat (String.length s)))))
      else Ok VUndefined
  | _ => Ok VUndefined
  end.

(** [v?.key]: [undefined] when [v] is [null] or [undefined]. *)
Definition opt_prop (v : value) (key : string) : result value :=
  match v with
  | VUndefined | VNull => Ok VUndefined
  | _ => get_prop v key
  end.

(** [v[i]] for an index [i]. *)
Definition get_index (v : value) (i : nat) : result value :=
  match v with
  | VUndefined | VNull => Throw TypeError
  | VArr items => Ok (nth i items VUndefined)
  | VStr s =>
      match String.get i s with
      | Some c => Ok (VStr (String c EmptyString))
      | None => Ok VUndefined
      end
  | VObj fields =>
      match lookup_field fields (key_of_index i) with
      | Some x => Ok x
      | None => Ok VUndefined
      end
  | _ => Ok VUndefined
  end.

(** [v?.[i]] *)
Definition opt_index (v : value) (i : nat) : result value :=
  match v with
  | VUndefined | VNull => Ok VUndefined
  | _ => get_index v i
  end.

Definition truthy (v : value) : bool :=
  match v with
  | VUndefined | VNull => false
  | VBool b => b
  | VNum NaN => false
  | VNum (Fin q) => negb (Qeq_bool q 0)
  | VNum _ => true
  | VStr s => negb (String.eqb s EmptyString)
  | VArr _ | VObj _ => true
  end.

(** [a || b] *)
Definition js_or (a b : value) : value := if truthy a then a else b.

(** The functions of the JavaScript runtime the code relies on. *)
Record Runtime : Type := mkRuntime {
  JSON_parse : string -> result value;           (* throws on malformed text *)
  StringToNumber : string -> number;             (* [Number(s)] *)
  ArrayToString : list value -> result string    (* [Array.prototype.toString] *)
}.

(** The coercion arithmetic applies to its operands. An array is converted
    through its text, which throws when an element cannot be converted. An
    object made by [JSON.parse] has no callable [valueOf] or [toString] of
    its own: an own [toString] hides the inherited one and the coercion
    throws, otherwise the inherited one gives a fixed text. *)
Definition ToNumber (rt : Runtime) (v : value) : result number :=
  match v with
  | VUndefined => Ok NaN
  | VNull => Ok (Fin 0)
  | VBool b => Ok (Fin (if b then 1 else 0))
  | VNum n => Ok n
  | VStr s => Ok (StringToNumber rt s)
  | VArr items =>
      match ArrayToString rt items with
      | Ok s => Ok (StringToNumber rt s)
      | Throw e => Throw e
      end
  | VObj fields =>
      match lookup_field fields "toString" with
      | Some _ => Throw TypeError
      | None => Ok (StringToNumber rt "[object Object]")
      end
  end.

(** ** Verdict synthesizer: the part of [verifyClaim] after the prompt *)

(** [interface FactCheckResult]. The fields read from the parsed model
    output are unchecked casts, so they hold whatever value was parsed. *)
Record FactCheckResult : Type := mkVerdict {
  fc_status : value;
  fc_confidence : number;
  fc_sources : list value;
  fc_reasoning : value
}.

(** [allSources.includes(u)] for a string [u]. *)
Definition includes_url (allSources : list value) (u : string) : bool :=
  existsb (fun v => match v with VStr s => String.eqb s u | _ => false end)
          allSources.

(** [externalResults.forEach(result => { if (!allSources.includes(result.url))
    allSources.push(result.url) })] *)
Fixpoint push_evidence_urls (allSources : list value)
    (externalResults : list ExternalFactCheckResult) : list value :=
  match externalResults with
  | [] => allSources
  | r :: rest =>
      push_evidence_urls
        (if includes_url allSources (url r) then allSources
         else allSources ++ [VStr (url r)])
        rest
  end.

Definition avgExternalConfidence (externalResults : list ExternalFactCheckResult) : Q :=
  fold_left (fun sum r => sum + confidence r) externalResults 0
  / inject_Z (Z.of_nat (List.length externalResults)).

Definition specialized_keywords : list string :=
  ["Liquipedia"; "ESPN"; "TheSportsDB"; "PubMed"; "WHO"; "SEC EDGAR"; "arXiv"].

Definition hasSpecializedSource (externalResults : list ExternalFactCheckResult) : bool :=
  existsb (fun r => existsb (fun kw => includes (source r) kw) specialized_keywords)
          externalResults.

Definition snopesResult (externalResults : list ExternalFactCheckResult)
  : option ExternalFactCheckResult :=
  find (fun r => String.eqb (source r) "Snopes" && verdict_truthy r) externalResults.

Definition nonempty {A : Type} (xs : list A) : bool := (0 <? List.length xs)%nat.

(** The four adjustments and the final clamp, on the coerced confidence. *)
Definition adjustConfidence (reported : number)
    (externalResults : list ExternalFactCheckResult) (conflicts : bool) : number :=
  let adjustedConfidence := reported in
  let adjustedConfidence :=
    if nonempty externalResults
    then JsMath.max adjustedConfidence (Fin (avgExternalConfidence externalResults * 0.8))
    else adjustedConfidence in
  let adjustedConfidence :=
    if conflicts
    then JsMath.max (Fin 0.3) (JsMath.scale adjustedConfidence 0.7)
    else adjustedConfidence in
  let adjustedConfidence :=
    if hasSpecializedSource externalResults && negb conflicts
    then JsMath.max adjustedConfidence (Fin 0.85)
    else adjustedConfidence in
  let adjustedConfidence :=
    match snopesResult externalResults with
    | Some _ =>
        if negb conflicts then JsMath.max adjustedConfidence (Fin 0.9)
        else adjustedConfidence
    | None => adjustedConfidence
    end in
  JsMath.max (Fin 0) (JsMath.min (Fin 1) adjustedConfidence).

Section VerdictSynthesis.

Variable rt : Runtime.

Local Open Scope result_scope.

(** [parsed.confidence || 0], coerced as the arithmetic that follows
    coerces it. Every later use of [adjustedConfidence] is an arithmetic
    operation inside the same [try] block, so coercing once, where the
    variable is initialised, gives the same number and the same throw. *)
Definition reportedConfidence (parsed : value) : result number :=
  c <- get_prop parsed "confidence" ;;
  ToNumber rt (js_or c (VNum (Fin 0))).

(** The body of the inner [try], after [JSON.parse]. *)
Definition verdictFromParsed (parsed : value)
    (externalResults : list ExternalFactCheckResult)
    (conflictAnalysis : ConflictAnalysis) : result FactCheckResult :=
  parsedSources <- get_prop parsed "sources" ;;
  let allSources :=
    push_evidence_urls
      (match parsedSources with VArr items => items | _ => [] end)
      externalResults in
  reported <- reportedConfidence parsed ;;
  parsedStatus <- get_prop parsed "status" ;;
  parsedReasoning <- get_prop parsed "reasoning" ;;
  Ok (mkVerdict
        (js_or parsedStatus (VStr "unverified"))
        (adjustConfidence reported externalResults (hasConflicts conflictAnalysis))
        allSources
        (js_or parsedReasoning (VStr "No reasoning provided"))).

Definition evidenceUrls (externalResults : list ExternalFactCheckResult) : list value :=
  map (fun r => VStr (url r)) externalResults.

(** The inner [catch]: the model answered, but not with usable JSON. *)
Definition parseFallback (response : string)
    (externalResults : list ExternalFactCheckResult) : FactCheckResult :=
  mkVerdict (VStr "unverified")
    (if nonempty externalResults then Fin 0.6 else Fin 0.3)
    (evidenceUrls externalResults)
    (js_or (VStr response) (VStr "Unable to verify claim")).

(** The outer [catch]: the model call threw. *)
Definition callFailure (error : thrown)
    (externalResults : list ExternalFactCheckResult) : FactCheckResult :=
  mkVerdict (VStr "unverified")
    (if nonempty externalResults then Fin 0.4 else Fin 0)
    (evidenceUrls externalResults)
    (VStr ("Error during verification: " ++
           match error with
           | ErrorObj message => message
           | NonError => "Unknown error"
           end)).

(** The two nested [try] blocks that close [verifyClaim]; [model] is the
    outcome of [callCohere(prompt, apiKey)]. *)
Definition synthesize (externalResults : list ExternalFactCheckResult)
    (conflictAnalysis : ConflictAnalysis) (model : result string)
  : FactCheckResult :=
  match model with
  | Throw error => callFailure error externalResults
  | Ok response =>
      match (parsed <- JSON_parse rt response ;;
             verdictFromParsed parsed externalResults conflictAnalysis) with
      | Ok v => v
      | Throw _ => parseFallback response externalResults
      end
  end.

End VerdictSynthesis.

Definition ev (src : string) (v : option string) (sm u : string) (c : Q)
  : ExternalFactCheckResult := mkEvidence src v sm u c.


(** ** The outside world and the effects of the worker *)

(** [interface WebpageContent] *)
Record WebpageContent : Type := mkWebpageContent {
  wc_title : string;
  wc_content : string;
  wc_url : string
}.

(** The five topical flags [verifyClaim] computes from the claim. *)
Record ClaimType : Type := mkClaimType {
  isEsports : bool;
  isSports : bool;
  isMedical : bool;
  isFinancial : bool;
  isScientific : bool
}.

Inductive credibility : Type := High | Medium | Low | Unknown.

(** A prompt is a fixed template with holes; it is represented by the values
    that fill the holes. *)
Inductive prompt : Type :=
| VerifyPrompt (claim : string) (context : option string)
    (externalResults : list ExternalFactCheckResult)
    (conflictAnalysis : ConflictAnalysis) (claimType : ClaimType)
| ExtractPrompt (title content : string) (focus_areas : option (list string))
| PageSummaryPrompt (title : string) (claimsAnalyzed : nat)
    (overallCredibility : credibility) (avgConfidence : number)
| TrendingPrompt (recentChecks : list (string * value))
| DigestSummaryPrompt (targetDate : string)
    (factChecks analyses trueClaims falseClaims mixedOrUnverified : nat).

(** What a [fetch] resolves to: the [ok] flag and what [json()] and [text()]
    give when they are awaited. *)
Record Response : Type := mkResponse {
  ok : bool;
  statusText : string;
  json : result value;
  text : result string
}.

(** What the worker does to the outside world, in the order it does it. *)
Inductive event : Type :=
| Fetched (address : string)
| AskedModel (p : prompt)
| ReadClock
| Selected (table key : string)
| Inserted (table key : string).

(** The outside world. Every answer may depend on all that happened before,
    so two identical requests need not be answered alike. *)
Record World : Type := mkWorld {
  fetch_reply : list event -> string -> result Response;
  cohere_reply : list event -> prompt -> result string;
  timestamp : list event -> string;   (* [CURRENT_TIMESTAMP] *)
  today : list event -> string        (* [new Date().toISOString().split("T")[0]] *)
}.

(** *** Tables of [db/schema.ts] *)

Record FactCheckRow : Type := mkFactCheckRow {
  fc_id : nat;
  claimText : string;
  verificationStatus : value;
  confidenceScore : number;
  sourcesColumn : list value;
  reasoningColumn : value;
  createdAt : string;
  updatedAt : string
}.

(** One element of [factCheckResults]: [{ claim, ...result }]. *)
Record ClaimResult : Type := mkClaimResult {
  cr_claim : string;
  cr_result : FactCheckResult
}.

Record WebpageAnalysisRow : Type := mkWebpageAnalysisRow {
  wa_id : nat;
  wa_url : string;
  wa_title : string;
  wa_summary : string;
  claimsExtracted : list value;
  overallCredibility : credibility;
  factCheckResults : list ClaimResult;
  analyzedAt : string
}.

Record DailyDigestRow : Type := mkDailyDigestRow {
  dd_id : nat;
  digestDate : string;
  trendingClaims : value;
  dd_summary : string;
  generatedAt : string
}.

Record Database : Type := mkDatabase {
  factChecks : list FactCheckRow;
  webpageAnalyses : list WebpageAnalysisRow;
  dailyDigests : list DailyDigestRow
}.

Record State : Type := mkState {
  db : Database;
  history : list event
}.

(** *** Computations: state, and a result that may be a throw *)

Definition M (A : Type) : Type := State -> result A * State.

Definition ret {A : Type} (a : A) : M A := fun s => (Ok a, s).

Definition throw {A : Type} (e : thrown) : M A := fun s => (Throw e, s).

Definition bindM {A B : Type} (m : M A) (k : A -> M B) : M B :=
  fun s =>
    match m s with
    | (Ok a, s') => k a s'
    | (Throw e, s') => (Throw e, s')
    end.

(** [try { body } catch (e) { handler }]; what [body] did before it threw
    stays done. *)
Definition try_catchM {A : Type} (body : M A) (handler : thrown -> M A) : M A :=
  fun s =>
    match body s with
    | (Ok a, s') => (Ok a, s')
    | (Throw e, s') => handler e s'
    end.

(** A step without effect that may throw. *)
Definition lift {A : Type} (r : result A) : M A := fun s => (r, s).

Definition log (e : event) (s : State) : State :=
  mkState (db s) (history s ++ [e]).

Declare Scope M_scope.
Delimit Scope M_scope with M.
Notation "x <- m ;; k" := (bindM m (fun x => k))
  (at level 61, m at next level, right associativity) : M_scope.
Notation "m ;;; k" := (bindM m (fun _ => k))
  (at level 61, right associativity) : M_scope.

(** A computation that leaves the store as it found it. *)
Definition preserves_db {A : Type} (m : M A) : Prop :=
  forall s, db (snd (m s)) = db s.

(** ** Source adapters *)

(** The regular expressions whose first capture group the adapters read. *)
Inductive pattern : Type :=
| CdataTitle          (* /<title><!\[CDATA\[(.*?)\]\]><\/title>/ *)
| CdataDescription    (* /<description><!\[CDATA\[(.*?)\]\]><\/description>/ *)
| PlainTitle          (* /<title>(.*?)<\/title>/ *)
| PlainDescription    (* /<description>(.*?)<\/description>/ *)
| LinkTag             (* /<link>(.*?)<\/link>/ *)
| SummaryTag          (* /<summary>(.*?)<\/summary>/ *)
| LinkHref            (* the [href] attribute of a [link] tag *)
| ArxivId             (* /<id>http:\/\/arxiv\.org\/abs\/(.*?)<\/id>/ *)
| HtmlTitle.          (* /<title[^>]*>([^<]+)<\/title>/i *)

(** Text functions of the runtime, and two conversions of a payload value
    that is not a string: [ToStringOther] is the conversion a template
    literal applies to it (it may throw), [otherText] is the text that
    stands for it where the record at its declared type needs a string. *)
Record TextOps : Type := mkTextOps {
  encodeURIComponent : string -> result string;
  cleanQuery : string -> string;        (* [.replace(/[^\w\s]/g, '').trim()] *)
  trim : string -> string;
  splitSpaces : string -> list string;  (* [.split(' ')] *)
  removeQuotes : string -> string;      (* removes every double quote *)
  matchItems : string -> list string;   (* [.match(/<item>[\s\S]*?<\/item>/g) || []] *)
  matchEntries : string -> list string; (* [.match(/<entry>[\s\S]*?<\/entry>/g) || []] *)
  matchNames : string -> list string;   (* [.match(/<name>(.*?)<\/name>/g)], no match: [[]] *)
  stripNameTags : string -> string;     (* [.replace(/<\/?name>/g, '')] *)
  capture : pattern -> string -> option string;   (* [.match(re)?.[1]] *)
  stripTags : string -> string;         (* [.replace(/<[^>]*>/g, '')] *)
  cleanHtml : string -> string;         (* the four replacements and [trim] of [scrapeWebpage] *)
  ToStringOther : value -> result string;
  otherText : value -> string
}.

(** [`${v}`]: a string is itself. *)
Definition ToString (tx : TextOps) (v : value) : result string :=
  match v with
  | VStr s => Ok s
  | _ => ToStringOther tx v
  end.

(** A payload value held in a string-typed field: a string is itself. *)
Definition textOf (tx : TextOps) (v : value) : string :=
  match v with
  | VStr s => s
  | _ => otherText tx v
  end.

(** An evidence record as it exists at run time. Some adapters fill
    [summary] and [url] with payload values through unchecked casts, so at
    run time these two fields may hold a value that is not a string.
    [declared] is the record at its declared type, [summaryValue] and
    [urlValue] are what the two fields hold. *)
Record EvidenceAtRuntime : Type := mkAtRuntime {
  declared : ExternalFactCheckResult;
  summaryValue : value;
  urlValue : value
}.

(** A record whose [summary] and [url] are payload values. *)
Definition castEvidence (tx : TextOps) (src : string) (label : option string)
    (summaryV urlV : value) (weight : Q) : EvidenceAtRuntime :=
  mkAtRuntime (mkEvidence src label (textOf tx summaryV) (textOf tx urlV) weight)
    summaryV urlV.

(** A record whose [summary] and [url] are strings the adapter built. *)
Definition textEvidence (src : string) (label : option string)
    (summaryText urlText : string) (weight : Q) : EvidenceAtRuntime :=
  mkAtRuntime (mkEvidence src label summaryText urlText weight)
    (VStr summaryText) (VStr urlText).

(** [a || b] on strings. *)
Definition or_text (a b : string) : string :=
  match a with
  | EmptyString => b
  | String _ _ => a
  end.

(** [m?.[1] || fallback] *)
Definition captured (m : option string) (fallback : string) : string :=
  match m with
  | Some s => or_text s fallback
  | None => fallback
  end.

(** [v.trim()], [v.toLowerCase()]: only a string has the method. *)
Definition call_trim (tx : TextOps) (v : value) : result string :=
  match v with
  | VStr s => Ok (trim tx s)
  | _ => Throw TypeError
  end.

Definition call_toLowerCase (v : value) : result string :=
  match v with
  | VStr s => Ok (toLowerCase s)
  | _ => Throw TypeError
  end.

(** The first element on which [f] answers, as a [for] loop that returns
    from inside its body. *)
Fixpoint first_some {A B : Type} (f : A -> option B) (xs : list A) : option B :=
  match xs with
  | [] => None
  | x :: rest =>
      match f x with
      | Some b => Some b
      | None => first_some f rest
      end
  end.

(** [query.toLowerCase().split(' ').filter(word => word.length > 3)] *)
Definition queryWordsOf (tx : TextOps) (query : string) : list string :=
  filter (fun word => (3 <? String.length word)%nat)
         (splitSpaces tx (toLowerCase query)).

(** The shared feed test:
    [matchCount >= Math.min(2, queryWords.length)]. *)
Definition feedItemMatches (queryWords : list string) (title description : string)
  : bool :=
  let content := toLowerCase (title ++ " " ++ description) in
  let matchCount :=
    List.length (filter (fun word => includes content word) queryWords) in
  (Nat.min 2 (List.length queryWords) <=? matchCount)%nat.

(** The verdict label [searchSnopes] reads off the description. *)
Definition snopesVerdict (description : string) : string :=
  let d := toLowerCase description in
  if includes d "false" || includes d "fake" then "False"
  else if includes d "true" || includes d "correct" then "True"
  else if includes d "mixture" || includes d "mixed" then "Mixed"
  else EmptyString.

(** The game [searchLiquipedia] detects in the query. *)
Definition liquipediaGame (query : string) : string :=
  let lowerQuery := toLowerCase query in
  if includes lowerQuery "cs:go" || includes lowerQuery "counter-strike"
     || includes lowerQuery "stockholm major" then "counterstrike"
  else if includes lowerQuery "dota" || includes lowerQuery "international"
  then "dota2"
  else if includes lowerQuery "league" || includes lowerQuery "worlds"
          || includes lowerQuery "lol" then "leagueoflegends"
  else if includes lowerQuery "valorant" then "valorant"
  else EmptyString.

(** [const [, titles, descriptions, urls] = data]: [data] must be iterable. *)
Definition destructure_opensearch (data : value) : result (value * value * value) :=
  match data with
  | VArr items =>
      Ok (nth 1 items VUndefined, nth 2 items VUndefined, nth 3 items VUndefined)
  | VStr s =>
      let ch i := match String.get i s with
                  | Some c => VStr (String c EmptyString)
                  | None => VUndefined
                  end in
      Ok (ch 1%nat, ch 2%nat, ch 3%nat)
  | _ => Throw TypeError
  end.

(** A bound on the indices of [v] that can hold a value: past it [v[i]] is
    [undefined]. *)
Definition index_bound (v : value) : nat :=
  match v with
  | VArr items => List.length items
  | VStr s => String.length s
  | VObj fields => S (List.length fields)
  | _ => 0%nat
  end.

(** The line feed, as a one-character string. *)
Definition nl : string := String (ascii_of_nat 10) EmptyString.

(** The template literal of [queryWikidata], with its line feeds and its
    indentation. *)
Definition sparqlQueryText (tx : TextOps) (query : string) : string :=
  nl
  ++ "      SELECT ?item ?itemLabel ?description WHERE {" ++ nl
  ++ "        ?item rdfs:label ?itemLabel ." ++ nl
  ++ "        ?item schema:description ?description ." ++ nl
  ++ "        FILTER(LANG(?itemLabel) = " ++ dq ++ "en" ++ dq ++ ")" ++ nl
  ++ "        FILTER(LANG(?description) = " ++ dq ++ "en" ++ dq ++ ")" ++ nl
  ++ "        FILTER(CONTAINS(LCASE(?itemLabel), LCASE(" ++ dq
  ++ substring 0 50 (removeQuotes tx query) ++ dq ++ ")))" ++ nl
  ++ "      }" ++ nl
  ++ "      LIMIT 3" ++ nl
  ++ "    ".

Section Adapters.

Variable rt : Runtime.
Variable tx : TextOps.
Variable w : World.

Local Open Scope M_scope.

(** [await fetch(address)] *)
Definition fetch (address : string) : M Response :=
  fun s => (fetch_reply w (history s) address, log (Fetched address) s).

(** [catch (error) { console.error(...); return null; }] *)
Definition no_match : thrown -> M (option EvidenceAtRuntime) :=
  fun _ => ret None.

Definition searchWikipedia (query : string) : M (option EvidenceAtRuntime) :=
  try_catchM
    (encodedQuery <- lift (encodeURIComponent tx (cleanQuery tx query)) ;;
     response <- fetch ("https://en.wikipedia.org/api/rest_v1/page/summary/"
                        ++ encodedQuery) ;;
     if negb (ok response) then ret None
     else
       data <- lift (json response) ;;
       extract <- lift (get_prop data "extract") ;;
       content_urls <- lift (get_prop data "content_urls") ;;
       desktop <- lift (opt_prop content_urls "desktop") ;;
       page <- lift (opt_prop desktop "page") ;;
       ret (Some (castEvidence tx "Wikipedia" None
                    (js_or extract (VStr "No summary available"))
                    (js_or page
                       (VStr ("https://en.wikipedia.org/wiki/" ++ encodedQuery)))
                    0.8)))
    no_match.

(** [v && v.trim()] as a condition. *)
Definition nonblank (v : value) : result bool :=
  if truthy v
  then (t <- call_trim tx v ;; Ok (negb (String.eqb t EmptyString)))%result
  else Ok false.

Definition searchDuckDuckGo (query : string) : M (option EvidenceAtRuntime) :=
  try_catchM
    (encodedQuery <- lift (encodeURIComponent tx query) ;;
     response <- fetch ("https://api.duckduckgo.com/?q=" ++ encodedQuery
                        ++ "&format=json&no_redirect=1&no_html=1") ;;
     if negb (ok response) then ret None
     else
       data <- lift (json response) ;;
       answer <- lift (get_prop data "Answer") ;;
       hasAnswer <- lift (nonblank answer) ;;
       abstractURL <- lift (get_prop data "AbstractURL") ;;
       if hasAnswer
       then ret (Some (castEvidence tx "DuckDuckGo Instant Answer" None
                         answer
                         (js_or abstractURL (VStr "https://duckduckgo.com"))
                         0.7))
       else
         abstractText <- lift (get_prop data "AbstractText") ;;
         hasAbstract <- lift (nonblank abstractText) ;;
         if hasAbstract
         then
           abstractSource <- lift (get_prop data "AbstractSource") ;;
           sourceText <- lift (ToString tx (js_or abstractSource
                                              (VStr "Various Sources"))) ;;
           ret (Some (castEvidence tx ("DuckDuckGo (" ++ sourceText ++ ")") None
                        abstractText
                        (js_or abstractURL (VStr "https://duckduckgo.com"))
                        0.6))
         else ret None)
    no_match.

Definition snopesItem (queryWords : list string) (item : string)
  : option EvidenceAtRuntime :=
  let title := captured (capture tx CdataTitle item) EmptyString in
  let description := captured (capture tx CdataDescription item) EmptyString in
  let link := captured (capture tx LinkTag item) EmptyString in
  if feedItemMatches queryWords title description
  then
    let verdict := snopesVerdict description in
    Some (textEvidence "Snopes"
            (match verdict with EmptyString => None | String _ _ => Some verdict end)
            (substring 0 300 (stripTags tx description) ++ "...")
            link 0.9)
  else None.

Definition searchSnopes (query : string) : M (option EvidenceAtRuntime) :=
  try_catchM
    (response <- fetch "https://www.snopes.com/feed/" ;;
     if negb (ok response) then ret None
     else
       rssText <- lift (text response) ;;
       let queryWords := queryWordsOf tx query in
       let items := matchItems tx rssText in
       ret (first_some (snopesItem queryWords) (firstn 10 items)))
    no_match.

(** [title] and [description] of a feed item, CDATA form first. *)
Definition feedTitle (item : string) : string :=
  or_text (captured (capture tx CdataTitle item) EmptyString)
          (captured (capture tx PlainTitle item) EmptyString).

Definition feedDescription (item : string) : string :=
  or_text (captured (capture tx CdataDescription item) EmptyString)
          (captured (capture tx PlainDescription item) EmptyString).

Definition newsItem (sourceName : string) (weight : Q) (queryWords : list string)
    (item : string) : option EvidenceAtRuntime :=
  let title := feedTitle item in
  let description := feedDescription item in
  let link := captured (capture tx LinkTag item) EmptyString in
  if feedItemMatches queryWords title description
  then Some (textEvidence sourceName None
               (title ++ ": " ++ substring 0 200 (stripTags tx description) ++ "...")
               link weight)
  else None.

Definition searchFeed (address sourceName : string) (weight : Q) (query : string)
  : M (option EvidenceAtRuntime) :=
  try_catchM
    (response <- fetch address ;;
     if negb (ok response) then ret None
     else
       rssText <- lift (text response) ;;
       let queryWords := queryWordsOf tx query in
       let items := matchItems tx rssText in
       ret (first_some (newsItem sourceName weight queryWords) (firstn 10 items)))
    no_match.

Definition searchESPN (query : string) : M (option EvidenceAtRuntime) :=
  searchFeed "https://www.espn.com/espn/rss/news" "ESPN Sports News" 0.75 query.

Definition searchWHO (query : string) : M (option EvidenceAtRuntime) :=
  searchFeed "https://www.who.int/rss-feeds/news-english.xml"
    "World Health Organization (WHO)" 0.95 query.

(** [v > 0] on a payload value. *)
Definition positive (v : value) : result bool :=
  (n <- ToNumber rt v ;; Ok (JsMath.gtb n 0))%result.

(** [v === 0] *)
Definition is_zero (v : value) : bool :=
  match v with
  | VNum (Fin q) => Qeq_bool q 0
  | _ => false
  end.

(** [binding.field?.value || ""], as text. *)
Definition bindingValue (binding : value) (field : string) : result value :=
  (cell <- get_prop binding field ;;
   v <- opt_prop cell "value" ;;
   Ok (js_or v (VStr EmptyString)))%result.

Definition queryWikidata (query : string) : M (option EvidenceAtRuntime) :=
  try_catchM
    (encodedQuery <- lift (encodeURIComponent tx (sparqlQueryText tx query)) ;;
     response <- fetch ("https://query.wikidata.org/sparql?query=" ++ encodedQuery
                        ++ "&format=json") ;;
     if negb (ok response) then ret None
     else
       data <- lift (json response) ;;
       results <- lift (get_prop data "results") ;;
       bindings <- lift (opt_prop results "bindings") ;;
       len <- lift (opt_prop bindings "length") ;;
       found <- lift (positive len) ;;
       if found
       then
         result <- lift (get_index bindings 0) ;;
         itemLabel <- lift (bindingValue result "itemLabel") ;;
         description <- lift (bindingValue result "description") ;;
         itemUri <- lift (bindingValue result "item") ;;
         labelText <- lift (ToString tx itemLabel) ;;
         descriptionText <- lift (ToString tx description) ;;
         ret (Some (castEvidence tx "Wikidata" None
                      (VStr (labelText ++ ": " ++ descriptionText))
                      itemUri 0.8))
       else ret None)
    no_match.

Definition tournamentTitle (lowerTitle : string) : bool :=
  includes lowerTitle "major" || includes lowerTitle "championship"
  || includes lowerTitle "tournament" || includes lowerTitle "2021".

(** The body of the loop over [titles], at index [i]: [Some r] is a
    [return] from inside the loop. *)
Definition liquipediaEntry (game : string) (titles descriptions urls : value)
    (i : nat) : result (option EvidenceAtRuntime) :=
  (title <- get_index titles i ;;
   d <- get_index descriptions i ;;
   let description := js_or d (VStr EmptyString) in
   url <- get_index urls i ;;
   lowerTitle <- call_toLowerCase title ;;
   if tournamentTitle lowerTitle
   then
     titleText <- ToString tx title ;;
     descriptionText <- ToString tx description ;;
     Ok (Some (castEvidence tx ("Liquipedia (" ++ game ++ ")") None
                 (VStr (titleText ++ ": " ++ descriptionText))
                 url 0.85))
   else Ok None)%result.

(** [for (let i = 0; i < titles.length; i++)], from index [i]; [fuel]
    bounds the indices that can hold a title. *)
Fixpoint liquipediaLoop (game : string) (titles descriptions urls : value)
    (fuel i : nat) : result (option EvidenceAtRuntime) :=
  match fuel with
  | O => Ok None
  | S fuel' =>
      (len <- get_prop titles "length" ;;
       n <- ToNumber rt len ;;
       if JsMath.gtb n (inject_Z (Z.of_nat i))
       then
         found <- liquipediaEntry game titles descriptions urls i ;;
         match found with
         | Some r => Ok (Some r)
         | None => liquipediaLoop game titles descriptions urls fuel' (S i)
         end
       else Ok None)%result
  end.

Definition searchLiquipedia (query : string) : M (option EvidenceAtRuntime) :=
  try_catchM
    (let game := liquipediaGame query in
     let searchTerm := query in
     match game with
     | EmptyString => ret None
     | String _ _ =>
         encoded <- lift (encodeURIComponent tx searchTerm) ;;
         response <- fetch ("https://" ++ game
                            ++ ".liquipedia.net/api.php?action=opensearch&search="
                            ++ encoded ++ "&limit=5&format=json") ;;
         if negb (ok response) then ret None
         else
           data <- lift (json response) ;;
           parts <- lift (destructure_opensearch data) ;;
           let '(titles, descriptions, urls) := parts in
           len <- lift (get_prop titles "length") ;;
           if is_zero len then ret None
           else lift (liquipediaLoop game titles descriptions urls
                        (S (index_bound titles)) 0)
     end)
    no_match.

(** [`${event.field}`] *)
Definition fieldText (v : value) (field : string) : result string :=
  (x <- get_prop v field ;; ToString tx x)%result.

Definition searchSportsDB (query : string) : M (option EvidenceAtRuntime) :=
  try_catchM
    (searchTerm <- lift (encodeURIComponent tx query) ;;
     response <- fetch ("https://www.thesportsdb.com/api/v1/json/1/searchevents.php?e="
                        ++ searchTerm) ;;
     if negb (ok response) then ret None
     else
       data <- lift (json response) ;;
       events <- lift (get_prop data "event") ;;
       found <- lift (if truthy events
                      then (len <- get_prop events "length" ;; positive len)%result
                      else Ok false) ;;
       if found
       then
         event <- lift (get_index events 0) ;;
         strEvent <- lift (fieldText event "strEvent") ;;
         strHomeTeam <- lift (fieldText event "strHomeTeam") ;;
         strAwayTeam <- lift (fieldText event "strAwayTeam") ;;
         dateEvent <- lift (fieldText event "dateEvent") ;;
         idEvent <- lift (fieldText event "idEvent") ;;
         ret (Some (textEvidence "TheSportsDB" None
                      (strEvent ++ ": " ++ strHomeTeam ++ " vs " ++ strAwayTeam
                       ++ " on " ++ dateEvent)
                      ("https://www.thesportsdb.com/event/" ++ idEvent) 0.8))
       else ret None)
    no_match.

Definition searchPubMed (query : string) : M (option EvidenceAtRuntime) :=
  try_catchM
    (searchTerm <- lift (encodeURIComponent tx query) ;;
     searchResponse <-
       fetch ("https://eutils.ncbi.nlm.nih.gov/entrez/eutils/esearch.fcgi?db=pubmed&term="
              ++ searchTerm ++ "&retmax=5&retmode=json") ;;
     if negb (ok searchResponse) then ret None
     else
       searchData <- lift (json searchResponse) ;;
       esearchresult <- lift (get_prop searchData "esearchresult") ;;
       pmids <- lift (opt_prop esearchresult "idlist") ;;
       empty <- lift (if truthy pmids
                      then (len <- get_prop pmids "length" ;; Ok (is_zero len))%result
                      else Ok true) ;;
       if empty then ret None
       else
         pmid <- lift (get_index pmids 0) ;;
         pmidText <- lift (ToString tx pmid) ;;
         detailResponse <-
           fetch ("https://eutils.ncbi.nlm.nih.gov/entrez/eutils/esummary.fcgi?db=pubmed&id="
                  ++ pmidText ++ "&retmode=json") ;;
         if negb (ok detailResponse) then ret None
         else
           detailData <- lift (json detailResponse) ;;
           result <- lift (get_prop detailData "result") ;;
           article <- lift (opt_prop result pmidText) ;;
           if negb (truthy article) then ret None
           else
             title <- lift (fieldText article "title") ;;
             authors <- lift (get_prop article "authors") ;;
             first <- lift (opt_index authors 0) ;;
             name <- lift (opt_prop first "name") ;;
             author <- lift (ToString tx (js_or name (VStr "Unknown author"))) ;;
             pubdate <- lift (fieldText article "pubdate") ;;
             journal <- lift (fieldText article "source") ;;
             ret (Some (textEvidence "PubMed/NCBI" None
                          (title ++ " - " ++ author ++ " et al. (" ++ pubdate
                           ++ ") - " ++ journal)
                          ("https://pubmed.ncbi.nlm.nih.gov/" ++ pmidText ++ "/")
                          0.9)))
    no_match.

Definition secEntry (entry : string) : option EvidenceAtRuntime :=
  match entry with
  | EmptyString => None
  | String _ _ =>
      let title := captured (capture tx PlainTitle entry) EmptyString in
      let summary := captured (capture tx SummaryTag entry) EmptyString in
      let link := captured (capture tx LinkHref entry) EmptyString in
      Some (textEvidence "SEC EDGAR Database" None
              (title ++ ": " ++ substring 0 200 (stripTags tx summary) ++ "...")
              (if prefix "http" link then link else "https://www.sec.gov" ++ link)
              0.9)
  end.

Definition searchSEC (query : string) : M (option EvidenceAtRuntime) :=
  try_catchM
    (searchTerm <- lift (encodeURIComponent tx query) ;;
     response <-
       fetch ("https://www.sec.gov/cgi-bin/browse-edgar?action=getcompany&search="
              ++ searchTerm ++ "&output=atom") ;;
     if negb (ok response) then ret None
     else
       atomText <- lift (text response) ;;
       match matchEntries tx atomText with
       | [] => ret None
       | entry :: _ => ret (secEntry entry)
       end)
    no_match.

Definition arxivEntry (entry : string) : option EvidenceAtRuntime :=
  match entry with
  | EmptyString => None
  | String _ _ =>
      let title :=
        captured (option_map (trim tx) (capture tx PlainTitle entry)) EmptyString in
      let summary :=
        captured (option_map (trim tx) (capture tx SummaryTag entry)) EmptyString in
      let authors := firstn 3 (map (stripNameTags tx) (matchNames tx entry)) in
      let arxivId := captured (capture tx ArxivId entry) EmptyString in
      Some (textEvidence "arXiv Preprint Server" None
              (title ++ " - " ++ join ", " authors ++ " - "
               ++ substring 0 200 summary ++ "...")
              ("https://arxiv.org/abs/" ++ arxivId)
              0.8)
  end.

Definition searchArXiv (query : string) : M (option EvidenceAtRuntime) :=
  try_catchM
    (searchTerm <- lift (encodeURIComponent tx query) ;;
     response <-
       fetch ("http://export.arxiv.org/api/query?search_query=all:" ++ searchTerm
              ++ "&start=0&max_results=5") ;;
     if negb (ok response) then ret None
     else
       xmlText <- lift (text response) ;;
       match matchEntries tx xmlText with
       | [] => ret None
       | entry :: _ => ret (arxivEntry entry)
       end)
    no_match.

(** The eleven adapters. *)
Inductive adapter : Type :=
| Wikipedia | DuckDuckGo | Snopes | Wikidata | Liquipedia | ESPN | SportsDB
| PubMed | WHO | SEC | ArXiv.

Definition run_adapter (a : adapter) (query : string)
  : M (option EvidenceAtRuntime) :=
  match a with
  | Wikipedia => searchWikipedia query
  | DuckDuckGo => searchDuckDuckGo query
  | Snopes => searchSnopes query
  | Wikidata => queryWikidata query
  | Liquipedia => searchLiquipedia query
  | ESPN => searchESPN query
  | SportsDB => searchSportsDB query
  | PubMed => searchPubMed query
  | WHO => searchWHO query
  | SEC => searchSEC query
  | ArXiv => searchArXiv query
  end.

(** [scrapeWebpage]: every failure is thrown again as an [Error]. *)
Definition scrapeWebpage (address : string) : M WebpageContent :=
  try_catchM
    (response <- fetch address ;;
     if negb (ok response)
     then throw (ErrorObj ("Failed to fetch webpage: " ++ statusText response))
     else
       html <- lift (text response) ;;
       let title :=
         match capture tx HtmlTitle html with
         | Some t => trim tx t
         | None => "Unknown Title"
         end in
       ret (mkWebpageContent title (substring 0 5000 (cleanHtml tx html)) address))
    (fun error =>
       throw (ErrorObj ("Failed to scrape webpage: " ++
                        match error with
                        | ErrorObj message => message
                        | NonError => "Unknown error"
                        end))).

End Adapters.

(** ** [verifyClaim] *)

Definition any_keyword (lowerClaim : string) (keywords : list string) : bool :=
  existsb (fun kw => includes lowerClaim kw) keywords.

(** The five topical tests on the case-folded claim. *)
Definition classify (claim : string) : ClaimType :=
  let lowerClaim := toLowerCase claim in
  mkClaimType
    (any_keyword lowerClaim
       ["major"; "tournament"; "cs:go"; "dota"; "league"; "valorant"; "esports";
        "gaming"])
    (any_keyword lowerClaim
       ["championship"; "world cup"; "olympics"; "nfl"; "nba"; "football";
        "soccer"; "baseball"])
    (any_keyword lowerClaim
       ["health"; "medicine"; "disease"; "vaccine"; "drug"; "treatment";
        "vitamin"; "cancer"; "covid"; "medical"])
    (any_keyword lowerClaim
       ["stock"; "market"; "sec"; "earnings"; "revenue"; "profit"; "company";
        "financial"])
    (any_keyword lowerClaim
       ["research"; "study"; "science"; "experiment"; "theory"; "discovery";
        "climate"; "physics"]).

(** The adapters [verifyClaim] calls, in the order it calls them. *)
Definition selectedAdapters (t : ClaimType) : list adapter :=
  ([Wikipedia; DuckDuckGo; Snopes]
   ++ (if isEsports t then [Liquipedia] else [])
   ++ (if isSports t then [ESPN; SportsDB] else [])
   ++ (if isMedical t then [PubMed; WHO] else [])
   ++ (if isFinancial t then [SEC] else [])
   ++ (if isScientific t then [ArXiv] else [])
   ++ [Wikidata])%list.

Section Worker.

Variable rt : Runtime.
Variable tx : TextOps.
Variable w : World.

Local Open Scope M_scope.

(** [await callCohere(prompt, apiKey)] *)
Definition callCohere (p : prompt) : M string :=
  fun s => (cohere_reply w (history s) p, log (AskedModel p) s).

(** The [try] block around the adapter calls: a record found is pushed, a
    throw ends the block and keeps what was pushed before. *)
Fixpoint collectFrom (claim : string) (adapters : list adapter)
    (externalResults : list EvidenceAtRuntime)
  : M (list EvidenceAtRuntime) :=
  match adapters with
  | [] => ret externalResults
  | a :: rest =>
      fun s =>
        match run_adapter rt tx w a claim s with
        | (Ok (Some r), s') => collectFrom claim rest (externalResults ++ [r])%list s'
        | (Ok None, s') => collectFrom claim rest externalResults s'
        | (Throw _, s') => (Ok externalResults, s')
        end
  end.

(** The outcome of a computation as a value, for a [try] whose handler
    needs it. *)
Definition attempt {A : Type} (m : M A) : M (result A) :=
  fun s => let (r, s') := m s in (Ok r, s').

Definition is_text (v : value) : bool :=
  match v with
  | VStr _ => true
  | _ => false
  end.

(** [analyzeSourceConflicts(externalResults)] at run time: with two records
    or more it calls [toLowerCase] on every summary, which throws on a
    summary that is not a string. *)
Definition analyzeAtRuntime (found : list EvidenceAtRuntime)
  : result ConflictAnalysis :=
  if (List.length found <? 2)%nat || forallb (fun f => is_text (summaryValue f)) found
  then Ok (analyzeSourceConflicts (map declared found))
  else Throw TypeError.

(** The template literals that render the records into the prompt convert
    every summary and every URL to text. *)
Fixpoint renderRecords (found : list EvidenceAtRuntime) : result unit :=
  match found with
  | [] => Ok tt
  | f :: rest =>
      (_ <- ToString tx (summaryValue f) ;;
       _ <- ToString tx (urlValue f) ;;
       renderRecords rest)%result
  end.

(** Neither the conflict analysis nor the rendering of the prompt is inside
    a [try] block: a throw there leaves [verifyClaim]. *)
Definition verifyClaim (claim : string) (context : option string)
  : M FactCheckResult :=
  let claimType := classify claim in
  found <- collectFrom claim (selectedAdapters claimType) [] ;;
  let externalResults := map declared found in
  conflictAnalysis <- lift (analyzeAtRuntime found) ;;
  lift (renderRecords found) ;;;
  model <- attempt (callCohere (VerifyPrompt claim context externalResults
                                  conflictAnalysis claimType)) ;;
  ret (synthesize rt externalResults conflictAnalysis model).

(** Every record an adapter returns in this world holds strings in
    [summary] and [url], as its declared type says. *)
Definition records_well_typed : Prop :=
  forall a query s f s',
    run_adapter rt tx w a query s = (Ok (Some f), s') ->
    is_text (summaryValue f) = true /\ is_text (urlValue f) = true.

(** ** The store *)

(** [ORDER BY key DESC]: a stable insertion sort on text keys. *)
Fixpoint insertDesc {A : Type} (key : A -> string) (x : A) (sorted : list A)
  : list A :=
  match sorted with
  | [] => [x]
  | y :: rest =>
      if String.ltb (key x) (key y) then y :: insertDesc key x rest
      else x :: y :: rest
  end.

Definition orderByDesc {A : Type} (key : A -> string) (rows : list A) : list A :=
  fold_right (insertDesc key) [] rows.

(** Latest first: every row is at least as late as the rows after it. *)
Inductive latestFirst {A : Type} (key : A -> string) : list A -> Prop :=
| latestFirst_nil : latestFirst key []
| latestFirst_cons (x : A) (l : list A) :
    (forall y, In y l -> String.leb (key y) (key x) = true) ->
    latestFirst key l -> latestFirst key (x :: l).

Definition nextId (ids : list nat) : nat := S (fold_right Nat.max 0%nat ids).

(** [select().from(factChecks).where(eq(claimText, claim))
      .orderBy(desc(createdAt)).limit(1)] *)
Definition selectFactChecksByClaim (claim : string) : M (list FactCheckRow) :=
  fun s =>
    (Ok (firstn 1 (orderByDesc createdAt
                     (filter (fun r => String.eqb (claimText r) claim)
                             (factChecks (db s))))),
     log (Selected "fact_checks" claim) s).

(** [where(gte(createdAt, targetDate)).orderBy(desc(createdAt)).limit(20)]:
    the comparison is the store's comparison of texts. *)
Definition recentFactChecks (targetDate : string) (rows : list FactCheckRow)
  : list FactCheckRow :=
  firstn 20 (orderByDesc createdAt
               (filter (fun r => String.leb targetDate (createdAt r)) rows)).

(** [where(gte(analyzedAt, targetDate)).orderBy(desc(analyzedAt)).limit(10)] *)
Definition recentWebpageAnalyses (targetDate : string)
    (rows : list WebpageAnalysisRow) : list WebpageAnalysisRow :=
  firstn 10 (orderByDesc analyzedAt
               (filter (fun r => String.leb targetDate (analyzedAt r)) rows)).

Definition selectFactChecksSince (targetDate : string) : M (list FactCheckRow) :=
  fun s =>
    (Ok (recentFactChecks targetDate (factChecks (db s))),
     log (Selected "fact_checks" targetDate) s).

Definition selectAnalysesByUrl (address : string) : M (list WebpageAnalysisRow) :=
  fun s =>
    (Ok (firstn 1 (filter (fun r => String.eqb (wa_url r) address)
                          (webpageAnalyses (db s)))),
     log (Selected "webpage_analyses" address) s).

Definition selectAnalysesSince (targetDate : string) : M (list WebpageAnalysisRow) :=
  fun s =>
    (Ok (recentWebpageAnalyses targetDate (webpageAnalyses (db s))),
     log (Selected "webpage_analyses" targetDate) s).

Definition selectDigestsByDate (targetDate : string) : M (list DailyDigestRow) :=
  fun s =>
    (Ok (firstn 1 (filter (fun r => String.eqb (digestDate r) targetDate)
                          (dailyDigests (db s)))),
     log (Selected "daily_digests" targetDate) s).

Definition insertFactCheck (claim : string) (result : FactCheckResult) : M unit :=
  fun s =>
    let now := timestamp w (history s) in
    let row :=
      mkFactCheckRow (nextId (map fc_id (factChecks (db s)))) claim
        (fc_status result) (fc_confidence result) (fc_sources result)
        (fc_reasoning result) now now in
    (Ok tt,
     log (Inserted "fact_checks" claim)
       (mkState (mkDatabase (factChecks (db s) ++ [row])%list
                            (webpageAnalyses (db s)) (dailyDigests (db s)))
                (history s))).

Definition uniqueViolation : thrown := ErrorObj "UNIQUE constraint failed".

(** [url] is declared [unique()]. *)
Definition insertAnalysis (address title summary : string)
    (extractedClaims : list value) (overall : credibility)
    (results : list ClaimResult) : M unit :=
  fun s =>
    if existsb (fun r => String.eqb (wa_url r) address) (webpageAnalyses (db s))
    then (Throw uniqueViolation, s)
    else
      let row :=
        mkWebpageAnalysisRow (nextId (map wa_id (webpageAnalyses (db s))))
          address title summary extractedClaims overall results
          (timestamp w (history s)) in
      (Ok tt,
       log (Inserted "webpage_analyses" address)
         (mkState (mkDatabase (factChecks (db s))
                              (webpageAnalyses (db s) ++ [row])%list
                              (dailyDigests (db s)))
                  (history s))).

(** [digestDate] is declared [unique()]. *)
Definition insertDigest (targetDate : string) (trending : value) (summary : string)
  : M unit :=
  fun s =>
    if existsb (fun r => String.eqb (digestDate r) targetDate) (dailyDigests (db s))
    then (Throw uniqueViolation, s)
    else
      let row :=
        mkDailyDigestRow (nextId (map dd_id (dailyDigests (db s))))
          targetDate trending summary (timestamp w (history s)) in
      (Ok tt,
       log (Inserted "daily_digests" targetDate)
         (mkState (mkDatabase (factChecks (db s)) (webpageAnalyses (db s))
                              (dailyDigests (db s) ++ [row])%list)
                  (history s))).

(** ** The three tools *)

(** The text a tool answers with: a fixed template per case, represented by
    the values that fill it. *)
Inductive ToolText : Type :=
| CachedResult (status : value) (confidence : number) (sources : list value)
    (reasoning : value)
| VerificationComplete (status : value) (confidence : number)
    (sources : list value) (reasoning : value)
| CachedAnalysis (title summary : string) (overall : credibility)
    (claims : list value)
| AnalysisComplete (title summary : string) (overall : credibility)
    (claimsAnalyzed : nat) (results : list ClaimResult)
| ExistingDigest (targetDate summary : string) (trending : value)
| DigestGenerated (targetDate summary : string) (trending : value)
    (factCheckCount analysisCount : nat)
| ErrorText (what message : string).

Record ToolResponse : Type := mkToolResponse {
  content : ToolText;
  isError : bool
}.

Definition answer (t : ToolText) : ToolResponse := mkToolResponse t false.

(** [catch (error) { return { content: [...], isError: true } }] *)
Definition errorAnswer (what : string) (error : thrown) : M ToolResponse :=
  ret (mkToolResponse
         (ErrorText what
            match error with
            | ErrorObj message => message
            | NonError => "Unknown error"
            end)
         true).

(** Tool 1: [verify_claim] *)
Definition verify_claim (claim : string) (context : option string) : M ToolResponse :=
  try_catchM
    (existingCheck <- selectFactChecksByClaim claim ;;
     match existingCheck with
     | existing :: _ =>
         ret (answer (CachedResult (verificationStatus existing)
                        (confidenceScore existing) (sourcesColumn existing)
                        (reasoningColumn existing)))
     | [] =>
         result <- verifyClaim claim context ;;
         insertFactCheck claim result ;;;
         ret (answer (VerificationComplete (fc_status result) (fc_confidence result)
                        (fc_sources result) (fc_reasoning result)))
     end)
    (errorAnswer "Error verifying claim: ").

(** [extractedClaims] after the [try]/[catch] around [JSON.parse]. *)
Definition extractClaims (claimsResponse : string) : list value :=
  match JSON_parse rt claimsResponse with
  | Ok (VArr items) => items
  | Ok _ => [VStr claimsResponse]
  | Throw _ => [VStr claimsResponse]
  end.

(** The loop over [extractedClaims.slice(0, 3)]. An element that is not a
    string has no [toLowerCase], so [verifyClaim] throws on it. *)
Fixpoint verifyEach (claims : list value) (title : string)
    (factCheckResults : list ClaimResult) : M (list ClaimResult) :=
  match claims with
  | [] => ret factCheckResults
  | VStr claim :: rest =>
      result <- verifyClaim claim (Some ("From webpage: " ++ title)) ;;
      verifyEach rest title (factCheckResults ++ [mkClaimResult claim result])%list
  | _ :: _ => throw TypeError
  end.

Definition averageConfidence (factCheckResults : list ClaimResult) : number :=
  JsMath.div_length
    (fold_left (fun sum r => JsMath.add sum (fc_confidence (cr_result r)))
               factCheckResults (Fin 0))
    (List.length factCheckResults).

Definition credibilityOf (avgConfidence : number) : credibility :=
  if JsMath.geb avgConfidence 0.8 then High
  else if JsMath.geb avgConfidence 0.6 then Medium
  else if JsMath.geb avgConfidence 0.3 then Low
  else Unknown.

(** Tool 2: [analyze_webpage] *)
Definition analyze_webpage (address : string) (focus_areas : option (list string))
  : M ToolResponse :=
  try_catchM
    (existingAnalysis <- selectAnalysesByUrl address ;;
     match existingAnalysis with
     | existing :: _ =>
         ret (answer (CachedAnalysis (wa_title existing) (wa_summary existing)
                        (overallCredibility existing) (claimsExtracted existing)))
     | [] =>
         webContent <- scrapeWebpage tx w address ;;
         claimsResponse <-
           callCohere (ExtractPrompt (wc_title webContent) (wc_content webContent)
                         focus_areas) ;;
         let extractedClaims := extractClaims claimsResponse in
         factCheckResults <-
           verifyEach (firstn 3 extractedClaims) (wc_title webContent) [] ;;
         let avgConfidence := averageConfidence factCheckResults in
         let overall := credibilityOf avgConfidence in
         summary <-
           callCohere (PageSummaryPrompt (wc_title webContent)
                         (List.length extractedClaims) overall avgConfidence) ;;
         insertAnalysis address (wc_title webContent) summary extractedClaims
           overall factCheckResults ;;;
         ret (answer (AnalysisComplete (wc_title webContent) summary overall
                        (List.length extractedClaims) factCheckResults))
     end)
    (errorAnswer "Error analyzing webpage: ").

Definition analysisError : value :=
  VArr [VObj [("topic", VStr "Analysis Error");
              ("description", VStr "Unable to identify trending topics")]].

Definition statusIs (status : string) (row : FactCheckRow) : bool :=
  match verificationStatus row with
  | VStr s => String.eqb s status
  | _ => false
  end.

(** [date || new Date().toISOString().split("T")[0]] *)
Definition targetDateOf (date : option string) : M string :=
  match date with
  | Some (String c rest) => ret (String c rest)
  | _ => fun s => (Ok (today w (history s)), log ReadClock s)
  end.

(** Tool 3: [generate_daily_digest] *)
Definition generate_daily_digest (date : option string) (include_trending : bool)
  : M ToolResponse :=
  try_catchM
    (targetDate <- targetDateOf date ;;
     existingDigest <- selectDigestsByDate targetDate ;;
     match existingDigest with
     | existing :: _ =>
         ret (answer (ExistingDigest targetDate (dd_summary existing)
                        (trendingClaims existing)))
     | [] =>
         recentChecks <- selectFactChecksSince targetDate ;;
         recentAnalyses <- selectAnalysesSince targetDate ;;
         trending <-
           (if include_trending && nonempty recentChecks
            then
              try_catchM
                (trendingResponse <-
                   callCohere
                     (TrendingPrompt
                        (map (fun check => (claimText check, verificationStatus check))
                             recentChecks)) ;;
                 lift (JSON_parse rt trendingResponse))
                (fun _ => ret analysisError)
            else ret (VArr [])) ;;
         summary <-
           callCohere
             (DigestSummaryPrompt targetDate
                (List.length recentChecks) (List.length recentAnalyses)
                (List.length (filter (statusIs "true") recentChecks))
                (List.length (filter (statusIs "false") recentChecks))
                (List.length
                   (filter (fun c => statusIs "mixed" c || statusIs "unverified" c)
                           recentChecks))) ;;
         insertDigest targetDate trending summary ;;;
         ret (answer (DigestGenerated targetDate summary trending
                        (List.length recentChecks) (List.length recentAnalyses)))
     end)
    (errorAnswer "Error generating daily digest: ").

(** ** [callCohere]: what it makes of the service's response *)

(** [v?.trim()] *)
Definition opt_trim (v : value) : result value :=
  match v with
  | VUndefined | VNull => Ok VUndefined
  | VStr s => Ok (VStr (trim tx s))
  | _ => Throw TypeError
  end.

(** The part of [callCohere] after [fetch] resolved:
    [if (!response.ok) throw ...; data = await response.json();
     return the trimmed text of the first generation, or the empty string]. *)
Definition callCohereResponse (response : Response) : result string :=
  if negb (ok response)
  then Throw (ErrorObj ("Cohere API error: " ++ statusText response))
  else
    (data <- json response ;;
     generations <- get_prop data "generations" ;;
     first <- get_index generations 0 ;;
     generated <- opt_prop first "text" ;;
     trimmed <- opt_trim generated ;;
     match trimmed with
     | VStr s => Ok s
     | _ => Ok EmptyString
     end)%result.

(** ** The public digest endpoints *)

Inductive HttpBody : Type :=
| ErrorJson (error : string) (details : option string)
| DigestJson (date summary : string) (trending : value) (generatedAt : string)
| MarkdownText (markdown : string).

Record HttpResponse : Type := mkHttp {
  http_status : nat;
  http_body : HttpBody
}.

(** [`### ${claim.topic}\n${claim.description}`] *)
Definition claimMarkdown (claim : value) : result string :=
  (topic <- get_prop claim "topic" ;;
   topicText <- ToString tx topic ;;
   description <- get_prop claim "description" ;;
   descriptionText <- ToString tx description ;;
   Ok ("### " ++ topicText ++ nl ++ descriptionText))%result.

(** [items.map(f)] for an [f] that may throw. *)
Fixpoint map_result {A B : Type} (f : A -> result B) (items : list A)
  : result (list B) :=
  match items with
  | [] => Ok []
  | x :: rest =>
      (y <- f x ;; ys <- map_result f rest ;; Ok (y :: ys))%result
  end.

Definition noTrendingClaims : string := "No trending claims identified".

(** [trendingClaims?.map(...).join("\n\n") || "No trending claims identified"]:
    only an array has [map]. *)
Definition trendingMarkdown (trending : value) : result string :=
  match trending with
  | VUndefined | VNull => Ok noTrendingClaims
  | VArr items =>
      (texts <- map_result claimMarkdown items ;;
       Ok (or_text (join (nl ++ nl) texts) noTrendingClaims))%result
  | _ => Throw TypeError
  end.

Definition digestMarkdown (date : string) (digestData : DailyDigestRow)
    (trendingText : string) : string :=
  "# Daily Fact-Check Digest - " ++ date ++ nl ++ nl
  ++ dd_summary digestData ++ nl ++ nl
  ++ "## Trending Claims" ++ nl ++ nl
  ++ trendingText ++ nl ++ nl
  ++ "*Generated at: " ++ generatedAt digestData ++ "*".

Definition digestJson (digestData : DailyDigestRow) : HttpBody :=
  DigestJson (digestDate digestData) (dd_summary digestData)
    (trendingClaims digestData) (generatedAt digestData).

(** [catch (error) { return c.json({ error: ..., details: ... }, 500) }] *)
Definition retrievalFailure (error : thrown) : M HttpResponse :=
  ret (mkHttp 500
         (ErrorJson "Failed to retrieve daily digest"
            (Some match error with
                  | ErrorObj message => message
                  | NonError => "Unknown error"
                  end))).

Definition notFound : HttpResponse :=
  mkHttp 404 (ErrorJson "No digest found for this date" None).

(** [app.get("/daily-digest", ...)]: the query parameters [date] and
    [format], each absent or a string. *)
Definition daily_digest (dateQuery formatQuery : option string) : M HttpResponse :=
  date <- targetDateOf dateQuery ;;
  let format := match formatQuery with
                | Some (String c rest) => String c rest
                | _ => "json"
                end in
  try_catchM
    (digest <- selectDigestsByDate date ;;
     match digest with
     | [] => ret notFound
     | digestData :: _ =>
         if String.eqb format "markdown"
         then
           trendingText <- lift (trendingMarkdown (trendingClaims digestData)) ;;
           ret (mkHttp 200 (MarkdownText (digestMarkdown date digestData trendingText)))
         else ret (mkHttp 200 (digestJson digestData))
     end)
    retrievalFailure.

Definition is_digit (c : ascii) : bool :=
  let n := nat_of_ascii c in (48 <=? n)%nat && (n <=? 57)%nat.

(** [/^\d{4}-\d{2}-\d{2}$/.test(date)] *)
Definition isDateFormat (date : string) : bool :=
  match list_ascii_of_string date with
  | [y1; y2; y3; y4; d1; m1; m2; d2; a1; a2] =>
      is_digit y1 && is_digit y2 && is_digit y3 && is_digit y4
      && Ascii.eqb d1 "-" && is_digit m1 && is_digit m2
      && Ascii.eqb d2 "-" && is_digit a1 && is_digit a2
  | _ => false
  end.

(** [app.get("/daily-digest/:date", ...)] *)
Definition daily_digest_by_date (date : string) : M HttpResponse :=
  if negb (isDateFormat date)
  then ret (mkHttp 400 (ErrorJson "Invalid date format. Use YYYY-MM-DD" None))
  else
    try_catchM
      (digest <- selectDigestsByDate date ;;
       match digest with
       | [] => ret notFound
       | digestData :: _ => ret (mkHttp 200 (digestJson digestData))
       end)
      retrievalFailure.

End Worker.

(** ** The confidence adjustment as the specification words it

    Section 4.5, step 4: four adjustments in a fixed order, then a clamp.
    These definitions follow the specification's sentences; they are
    compared with [adjustConfidence], which follows the code. *)

Module SpecSteps.

Definition mean_confidence (evidence : list ExternalFactCheckResult) : Q :=
  fold_right (fun r acc => confidence r + acc) 0 evidence
  / inject_Z (Z.of_nat (List.length evidence)).

(** (a) raise to at least 0.8 times the mean evidence confidence, if any
    evidence exists *)
Definition raise_to_evidence (evidence : list ExternalFactCheckResult) (c : number)
  : number :=
  match evidence with
  | [] => c
  | _ :: _ => JsMath.max c (Fin (0.8 * mean_confidence evidence))
  end.

(** (b) if conflicts were detected, [max(0.3, confidence * 0.7)] *)
Definition dampen_for_conflicts (conflicts : bool) (c : number) : number :=
  if conflicts then JsMath.max (Fin 0.3) (JsMath.scale c 0.7) else c.

(** (c) a specialized source and no conflict: floor at 0.85 *)
Definition floor_specialized (specialized conflicts : bool) (c : number) : number :=
  if specialized && negb conflicts then JsMath.max c (Fin 0.85) else c.

(** (d) a fact-check-feed record with an explicit verdict label and no
    conflict: floor at 0.9 *)
Definition floor_fact_check (labelled conflicts : bool) (c : number) : number :=
  if labelled && negb conflicts then JsMath.max c (Fin 0.9) else c.

Definition clamp01 (c : number) : number :=
  JsMath.max (Fin 0) (JsMath.min (Fin 1) c).

End SpecSteps.

(** The [source] texts the domain-specific adapters write. *)
Definition specialized_adapter_sources : list string :=
  [ "Liquipedia (counterstrike)"; "Liquipedia (dota2)";
    "Liquipedia (leagueoflegends)"; "Liquipedia (valorant)";
    "ESPN Sports News"; "TheSportsDB"; "PubMed/NCBI";
    "World Health Organization (WHO)"; "SEC EDGAR Database";
    "arXiv Preprint Server" ].

(** A fact-check-feed record that carries an explicit verdict label. *)
Definition labelled_fact_check (r : ExternalFactCheckResult) : bool :=
  String.eqb (source r) "Snopes" && verdict_truthy r.

(** [n >= k] as a proposition. *)
Definition number_ge (n : number) (k : Q) : Prop :=
  match n with
  | Fin q => k <= q
  | PosInf => True
  | _ => False
  end.

(** Equality of numbers up to equality of the rationals they hold. *)
Definition number_eq (a b : number) : Prop :=
  match a, b with
  | NaN, NaN | NegInf, NegInf | PosInf, PosInf => True
  | Fin x, Fin y => x == y
  | _, _ => False
  end.


(** The source merge as the specification words it: the model-reported
    sources, then the evidence URLs not already present, in first-seen
    order. [first_seen seen us] keeps each URL of [us] the first time it is
    met, given the URLs [seen] before. *)
Fixpoint first_seen (seen us : list string) : list string :=
  match us with
  | [] => []
  | u :: rest =>
      if existsb (String.eqb u) seen then first_seen seen rest
      else u :: first_seen (seen ++ [u]) rest
  end.

Definition spec_merged_sources (modelSources : list value)
    (evidence : list ExternalFactCheckResult) : list value :=
  modelSources ++
  map VStr
    (first_seen []
       (filter (fun u => negb (includes_url modelSources u)) (map url evidence))).

(** A record that comes from a domain-specific adapter, as the
    specification words step (c): its source is one of the texts these
    adapters write. *)
Definition from_domain_adapter (r : ExternalFactCheckResult) : bool :=
  existsb (String.eqb (source r)) specialized_adapter_sources.

(** The confidence the four steps of the specification and its clamp give,
    step (c) applying to the records of the domain-specific adapters. *)
Definition spec_confidence (evidence : list ExternalFactCheckResult)
    (conflicts : bool) (reported : number) : number :=
  SpecSteps.clamp01
    (SpecSteps.floor_fact_check (existsb labelled_fact_check evidence) conflicts
       (SpecSteps.floor_specialized (existsb from_domain_adapter evidence) conflicts
          (SpecSteps.dampen_for_conflicts conflicts
             (SpecSteps.raise_to_evidence evidence reported)))).

(** ** Vocabulary for the properties of the worker *)

Definition is_fetch (e : event) : bool :=
  match e with
  | Fetched _ => true
  | _ => false
  end.

Definition is_model_call (e : event) : bool :=
  match e with
  | AskedModel _ => true
  | _ => false
  end.

(** The confidence each adapter writes into its records. *)
Definition adapter_weights (a : adapter) : list Q :=
  match a with
  | Wikipedia => [0.8]
  | DuckDuckGo => [0.7; 0.6]
  | Snopes => [0.9]
  | Wikidata => [0.8]
  | Liquipedia => [0.85]
  | ESPN => [0.75]
  | SportsDB => [0.8]
  | PubMed => [0.9]
  | WHO => [0.95]
  | SEC => [0.9]
  | ArXiv => [0.8]
  end.

(** The most requests one call of an adapter makes. *)
Definition adapter_requests (a : adapter) : nat :=
  match a with
  | PubMed => 2
  | _ => 1
  end.

(** The words [searchLiquipedia] recognises a game by. *)
Definition game_keywords : list string :=
  ["cs:go"; "counter-strike"; "stockholm major"; "dota"; "international";
   "league"; "worlds"; "lol"; "valorant"].

(** One row per key in each table. *)
Definition one_row_per_key (d : Database) : Prop :=
  NoDup (map claimText (factChecks d)) /\
  NoDup (map wa_url (webpageAnalyses d)) /\
  NoDup (map digestDate (dailyDigests d)).

(** The most requests [adapters] can send, one after the other. *)
Definition request_bound (adapters : list adapter) : nat :=
  list_sum (map adapter_requests adapters).

(** A call of one of the three tools the server registers. *)
Inductive tool_call : Type :=
| VerifyClaimCall (claim : string) (context : option string)
| AnalyzeWebpageCall (address : string) (focus_areas : option (list string))
| DailyDigestCall (date : option string) (include_trending : bool).

Definition run_tool (rt : Runtime) (tx : TextOps) (w : World) (c : tool_call)
  : M ToolResponse :=
  match c with
  | VerifyClaimCall claim context => verify_claim rt tx w claim context
  | AnalyzeWebpageCall address focus_areas =>
      analyze_webpage rt tx w address focus_areas
  | DailyDigestCall date include_trending =>
      generate_daily_digest rt w date include_trending
  end.

(** The prompts of the model calls in a history, in order. *)
Definition model_calls (h : list event) : list prompt :=
  flat_map (fun e => match e with AskedModel p => [p] | _ => [] end) h.

(** The two prompts [generate_daily_digest] builds from what it selected. *)
Definition trendingPromptOf (recentChecks : list FactCheckRow) : prompt :=
  TrendingPrompt
    (map (fun check => (claimText check, verificationStatus check)) recentChecks).

Definition summaryPromptOf (targetDate : string) (recentChecks : list FactCheckRow)
    (recentAnalyses : list WebpageAnalysisRow) : prompt :=
  DigestSummaryPrompt targetDate
    (List.length recentChecks) (List.length recentAnalyses)
    (List.length (filter (statusIs "true") recentChecks))
    (List.length (filter (statusIs "false") recentChecks))
    (List.length
       (filter (fun c => statusIs "mixed" c || statusIs "unverified" c)
               recentChecks)).

(** A stored value on which [?.map] can be called: an array, or [null] or
    [undefined], where the optional call is skipped. *)
Definition mappable (v : value) : bool :=
  match v with
  | VArr _ | VNull | VUndefined => true
  | _ => false
  end.

(** From [s] to [s'] at most [requests] requests were sent and the model
    was asked at most [modelCalls] times. *)
Definition spends (requests modelCalls : nat) (s s' : State) : Prop :=
  exists evs,
    history s' = (history s ++ evs)%list /\
    (List.length (filter is_fetch evs) <= requests)%nat /\
    (List.length (filter is_model_call evs) <= modelCalls)%nat.

Definition spendsM {A : Type} (requests modelCalls : nat) (m : M A) : Prop :=
  forall s, spends requests modelCalls s (snd (m s)).

(** The requests and the model calls one call of a tool may cost. *)
Definition tool_budget (c : tool_call) : nat * nat :=
  match c with
  | VerifyClaimCall _ _ => (12, 1)
  | AnalyzeWebpageCall _ _ => (37, 5)
  | DailyDigestCall _ _ => (0, 2)
  end%nat.

(** A text of ASCII characters only: on such a text the case folding of
    the runtime is the folding of the letters A to Z, which [toLowerCase]
    models. *)
Definition is_ascii_text (s : string) : bool :=
  forallb (fun c => (nat_of_ascii c <? 128)%nat) (list_ascii_of_string s).

(** *** Calls that interleave

    The handlers are asynchronous: a handler is suspended at each [await]
    and another call can run meanwhile. What matters to the store is the
    [await] of the lookup: [verify_claim_found], [analyze_webpage_found] and
    [generate_daily_digest_found] are the handlers from the point where the
    lookup has returned. *)
Definition verify_claim_found (rt : Runtime) (tx : TextOps) (w : World)
    (claim : string) (context : option string) (existingCheck : list FactCheckRow)
  : M ToolResponse :=
  try_catchM
    (match existingCheck with
     | existing :: _ =>
         ret (answer (CachedResult (verificationStatus existing)
                        (confidenceScore existing) (sourcesColumn existing)
                        (reasoningColumn existing)))
     | [] =>
         bindM (verifyClaim rt tx w claim context) (fun result =>
         bindM (insertFactCheck w claim result) (fun _ =>
         ret (answer (VerificationComplete (fc_status result) (fc_confidence result)
                        (fc_sources result) (fc_reasoning result)))))
     end)
    (errorAnswer "Error verifying claim: ").

Definition analyze_webpage_found (rt : Runtime) (tx : TextOps) (w : World)
    (address : string) (focus_areas : option (list string))
    (existingAnalysis : list WebpageAnalysisRow) : M ToolResponse :=
  try_catchM
    (match existingAnalysis with
     | existing :: _ =>
         ret (answer (CachedAnalysis (wa_title existing) (wa_summary existing)
                        (overallCredibility existing) (claimsExtracted existing)))
     | [] =>
         bindM (scrapeWebpage tx w address) (fun webContent =>
         bindM (callCohere w (ExtractPrompt (wc_title webContent)
                                (wc_content webContent) focus_areas))
           (fun claimsResponse =>
         let extractedClaims := extractClaims rt claimsResponse in
         bindM (verifyEach rt tx w (firstn 3 extractedClaims) (wc_title webContent) [])
           (fun factCheckResults =>
         let avgConfidence := averageConfidence factCheckResults in
         let overall := credibilityOf avgConfidence in
         bindM (callCohere w (PageSummaryPrompt (wc_title webContent)
                                (List.length extractedClaims) overall avgConfidence))
           (fun summary =>
         bindM (insertAnalysis w address (wc_title webContent) summary
                  extractedClaims overall factCheckResults) (fun _ =>
         ret (answer (AnalysisComplete (wc_title webContent) summary overall
                        (List.length extractedClaims) factCheckResults)))))))
     end)
    (errorAnswer "Error analyzing webpage: ").

Definition generate_daily_digest_found (rt : Runtime) (w : World)
    (targetDate : string) (include_trending : bool)
    (existingDigest : list DailyDigestRow) : M ToolResponse :=
  try_catchM
    (match existingDigest with
     | existing :: _ =>
         ret (answer (ExistingDigest targetDate (dd_summary existing)
                        (trendingClaims existing)))
     | [] =>
         bindM (selectFactChecksSince targetDate) (fun recentChecks =>
         bindM (selectAnalysesSince targetDate) (fun recentAnalyses =>
         bindM (if include_trending && nonempty recentChecks
                then
                  try_catchM
                    (bindM (callCohere w (trendingPromptOf recentChecks))
                           (fun trendingResponse =>
                              lift (JSON_parse rt trendingResponse)))
                    (fun _ => ret analysisError)
                else ret (VArr [])) (fun trending =>
         bindM (callCohere w (summaryPromptOf targetDate recentChecks recentAnalyses))
           (fun summary =>
         bindM (insertDigest w targetDate trending summary) (fun _ =>
         ret (answer (DigestGenerated targetDate summary trending
                        (List.length recentChecks)
                        (List.length recentAnalyses))))))))
     end)
    (errorAnswer "Error generating daily digest: ").

(** The lookup of a call; it returns the rest of the handler. *)
Definition run_tool_lookup (rt : Runtime) (tx : TextOps) (w : World) (c : tool_call)
  : M (M ToolResponse) :=
  match c with
  | VerifyClaimCall claim context =>
      bindM (selectFactChecksByClaim claim) (fun existingCheck =>
      ret (verify_claim_found rt tx w claim context existingCheck))
  | AnalyzeWebpageCall address focus_areas =>
      bindM (selectAnalysesByUrl address) (fun existingAnalysis =>
      ret (analyze_webpage_found rt tx w address focus_areas existingAnalysis))
  | DailyDigestCall date include_trending =>
      bindM (targetDateOf w date) (fun targetDate =>
      bindM (selectDigestsByDate targetDate) (fun existingDigest =>
      ret (generate_daily_digest_found rt w targetDate include_trending
             existingDigest)))
  end.

(** Two calls whose lookups both return before either handler goes on. *)
Definition lookups_first (rt : Runtime) (tx : TextOps) (w : World)
    (c1 c2 : tool_call) : M (ToolResponse * ToolResponse) :=
  bindM (run_tool_lookup rt tx w c1) (fun rest1 =>
  bindM (run_tool_lookup rt tx w c2) (fun rest2 =>
  bindM rest1 (fun response1 =>
  bindM rest2 (fun response2 =>
  ret (response1, response2))))).

(** The columns declared [unique()] hold no value twice. *)
Definition unique_columns (d : Database) : Prop :=
  NoDup (map wa_url (webpageAnalyses d)) /\ NoDup (map digestDate (dailyDigests d)).

(** A computation that keeps a property of the store. *)
Definition keeps {A : Type} (P : Database -> Prop) (m : M A) : Prop :=
  forall s, P (db s) -> P (db (snd (m s))).

(** One of the four steps of the pipeline of [analyze_webpage] throws, from
    the state [s0] the lookup left: the scrape, the model call that lists
    the claims, the verification of the first three, or the model call
    that writes the summary. *)
Definition analysis_step_fails (rt : Runtime) (tx : TextOps) (w : World)
    (address : string) (focus_areas : option (list string)) (s0 : State) : Prop :=
  (exists e s1, scrapeWebpage tx w address s0 = (Throw e, s1)) \/
  (exists webContent s1,
     scrapeWebpage tx w address s0 = (Ok webContent, s1) /\
     let extractPrompt :=
       ExtractPrompt (wc_title webContent) (wc_content webContent) focus_areas in
     ((exists e, cohere_reply w (history s1) extractPrompt = Throw e) \/
      (exists claimsResponse,
         cohere_reply w (history s1) extractPrompt = Ok claimsResponse /\
         let extractedClaims := extractClaims rt claimsResponse in
         ((exists e s3,
             verifyEach rt tx w (firstn 3 extractedClaims) (wc_title webContent) []
               (log (AskedModel extractPrompt) s1)
             = (Throw e, s3)) \/
          (exists results s3,
             verifyEach rt tx w (firstn 3 extractedClaims) (wc_title webContent) []
               (log (AskedModel extractPrompt) s1)
             = (Ok results, s3) /\
             exists e,
               cohere_reply w (history s3)
                 (PageSummaryPrompt (wc_title webContent)
                    (List.length extractedClaims)
                    (credibilityOf (averageConfidence results))
                    (averageConfidence results))
               = Throw e))))).

(** ** Sample data for the examples *)

Definition quoted (s : string) : string := dq ++ s ++ dq.

(** The text
    [{"status":"true","confidence":C,"sources":[S],"reasoning":"ok"}]. *)
Definition payload_text (confidenceText sourcesText : string) : string :=
  "{" ++ quoted "status" ++ ":" ++ quoted "true" ++ ","
      ++ quoted "confidence" ++ ":" ++ confidenceText ++ ","
      ++ quoted "sources" ++ ":[" ++ sourcesText ++ "],"
      ++ quoted "reasoning" ++ ":" ++ quoted "ok" ++ "}".

Definition payload_value (c : value) (srcs : list value) : value :=
  VObj [("status", VStr "true"); ("confidence", c);
        ("sources", VArr srcs); ("reasoning", VStr "ok")].

(** Model output whose confidence is 1.7. *)
Definition text_confidence_17 : string := payload_text "1.7" EmptyString.
(** Model output whose confidence is 0.5. *)
Definition text_confidence_05 : string := payload_text "0.5" EmptyString.
(** Model output whose confidence is the string "high". *)
Definition text_confidence_high : string := payload_text (quoted "high") EmptyString.
(** Model output that lists the same source twice. *)
Definition text_sources_twice : string :=
  payload_text "0.5" (quoted "https://a.example" ++ "," ++ quoted "https://a.example").
(** Model output that lists one source. *)
Definition text_sources_once : string :=
  payload_text "0.5" (quoted "https://a.example").

(** Model output that lists five claims, as a JSON array of strings. *)
Definition text_five_claims : string :=
  "[" ++ quoted "claim one" ++ "," ++ quoted "claim two" ++ ","
      ++ quoted "claim three" ++ "," ++ quoted "claim four" ++ ","
      ++ quoted "claim five" ++ "]".

Definition five_claims : list value :=
  [VStr "claim one"; VStr "claim two"; VStr "claim three"; VStr "claim four";
   VStr "claim five"].

Fixpoint assoc {A : Type} (table : list (string * A)) (key : string) : option A :=
  match table with
  | [] => None
  | (k, v) :: rest => if String.eqb k key then Some v else assoc rest key
  end.

(** A runtime for the examples. It answers as the JavaScript runtime does on
    the texts listed here, which are the only ones the examples give it:
    the payloads above parse to the objects and the array they denote, the
    text [null] parses to [null], and the other texts the examples use are
    not JSON;
    [Number("high")] and [Number("[object Object]")] are [NaN]. *)
Definition sample_runtime : Runtime :=
  mkRuntime
    (fun text =>
       match assoc
               [ (text_confidence_17, payload_value (VNum (Fin 1.7)) []);
                 (text_confidence_05, payload_value (VNum (Fin 0.5)) []);
                 (text_confidence_high, payload_value (VStr "high") []);
                 (text_sources_twice,
                  payload_value (VNum (Fin 0.5))
                    [VStr "https://a.example"; VStr "https://a.example"]);
                 (text_sources_once,
                  payload_value (VNum (Fin 0.5)) [VStr "https://a.example"]);
                 (text_five_claims, VArr five_claims);
                 ("null", VNull) ] text with
       | Some v => Ok v
       | None => Throw (ErrorObj "SyntaxError")
       end)
    (fun s => match assoc [("high", NaN); ("[object Object]", NaN)] s with
              | Some n => n
              | None => NaN
              end)
    (fun _ => Ok EmptyString).

Definition wikipedia_08 : ExternalFactCheckResult :=
  ev "Wikipedia" None "The Sun rises in the east" "https://a.example" 0.8.
Definition snopes_true : ExternalFactCheckResult :=
  ev "Snopes" (Some "True") "Rated true" "https://s.example" 0.9.
Definition who_record : ExternalFactCheckResult :=
  ev "World Health Organization (WHO)" None "Fact sheet" "https://w.example" 0.95.

(** *** Text functions for the examples

    Strings are taken as UTF-8 bytes. The functions on markup answer for
    texts without markup, which are the only ones the examples give them. *)

Definition is_space (c : ascii) : bool :=
  let n := nat_of_ascii c in
  (n =? 32)%nat || ((9 <=? n)%nat && (n <=? 13)%nat).

Definition is_word_char (c : ascii) : bool :=
  let n := nat_of_ascii c in
  ((48 <=? n)%nat && (n <=? 57)%nat) || ((65 <=? n)%nat && (n <=? 90)%nat)
  || ((97 <=? n)%nat && (n <=? 122)%nat) || (n =? 95)%nat.

(** The characters [encodeURIComponent] leaves as they are. *)
Definition is_unreserved (c : ascii) : bool :=
  is_word_char c ||
  existsb (Ascii.eqb c) (list_ascii_of_string "-.!~*'()").

Definition hex_digit (n : nat) : ascii :=
  ascii_of_nat (if (n <? 10)%nat then 48 + n else 55 + n).

Fixpoint percent_encode (s : string) : string :=
  match s with
  | EmptyString => EmptyString
  | String c rest =>
      if is_unreserved c then String c (percent_encode rest)
      else
        let n := nat_of_ascii c in
        String "%" (String (hex_digit (n / 16))
                      (String (hex_digit (n mod 16)) (percent_encode rest)))
  end.

Fixpoint keep (f : ascii -> bool) (s : string) : string :=
  match s with
  | EmptyString => EmptyString
  | String c rest => if f c then String c (keep f rest) else keep f rest
  end.

Fixpoint trim_start (s : string) : string :=
  match s with
  | EmptyString => EmptyString
  | String c rest => if is_space c then trim_start rest else s
  end.

Fixpoint reverse (s acc : string) : string :=
  match s with
  | EmptyString => acc
  | String c rest => reverse rest (String c acc)
  end.

Definition trim_text (s : string) : string :=
  reverse (trim_start (reverse (trim_start s) EmptyString)) EmptyString.

(** [s.split(' ')] *)
Fixpoint split_on_space (s current : string) : list string :=
  match s with
  | EmptyString => [reverse current EmptyString]
  | String c rest =>
      if Ascii.eqb c " " then reverse current EmptyString :: split_on_space rest EmptyString
      else split_on_space rest (String c current)
  end.

(** The text of the values whose text the examples need. *)
Definition primitive_text (v : value) : string :=
  match v with
  | VStr s => s
  | VNull => "null"
  | VBool true => "true"
  | VBool false => "false"
  | _ => "undefined"
  end.

Definition sample_text : TextOps :=
  mkTextOps
    (fun s => Ok (percent_encode s))
    (fun s => trim_text (keep (fun c => is_word_char c || is_space c) s))
    trim_text
    (fun s => split_on_space s EmptyString)
    (keep (fun c => negb (Ascii.eqb c (ascii_of_nat 34))))
    (fun _ => []) (fun _ => []) (fun _ => []) (fun s => s)
    (fun _ _ => None) (fun s => s) (fun s => s)
    (fun v => Ok (primitive_text v))
    primitive_text.

Definition sample_clock : list event -> string := fun _ => "2024-01-01 10:00:00".
Definition sample_today : list event -> string := fun _ => "2024-01-01".

(** A world without network: every [fetch] and every model call rejects. *)
Definition offline_world : World :=
  mkWorld (fun _ _ => Throw (ErrorObj "fetch failed"))
          (fun _ _ => Throw (ErrorObj "fetch failed"))
          sample_clock sample_today.

(** A world where every [fetch] is answered with status 200 and the JSON
    object [{"extract": "The Sun is a star"}], and the model answers with
    the text [text_confidence_05]. *)
Definition wiki_world : World :=
  mkWorld
    (fun _ _ =>
       Ok (mkResponse true "OK"
             (Ok (VObj [("extract", VStr "The Sun is a star")]))
             (Ok EmptyString)))
    (fun _ _ => Ok text_confidence_05)
    sample_clock sample_today.

Definition empty_db : Database := mkDatabase [] [] [].
Definition initial_state : State := mkState empty_db [].

(** A stored verdict, and a store that holds it. *)
Definition stored_check : FactCheckRow :=
  mkFactCheckRow 1 "The Sun rises in the east" (VStr "true") (Fin 0.9)
    [VStr "https://a.example"] (VStr "ok")
    "2024-01-01 09:00:00" "2024-01-01 09:00:00".

Definition stored_state : State :=
  mkState (mkDatabase [stored_check] [] []) [].

(** A verdict stored four days after the first of January. *)
Definition later_check : FactCheckRow :=
  mkFactCheckRow 1 "The Moon is a planet" (VStr "false") (Fin 0.9) []
    (VStr "ok") "2024-01-05 09:00:00" "2024-01-05 09:00:00".

Definition later_state : State :=
  mkState (mkDatabase [later_check] [] []) [].

(** A world where every page is fetched with status 200 and a plain body,
    the model lists five claims when asked to extract claims and answers
    every other prompt with the text [text_confidence_05]. *)
Definition page_world : World :=
  mkWorld
    (fun _ _ =>
       Ok (mkResponse true "OK" (Throw (ErrorObj "SyntaxError"))
             (Ok "A page about the Sun")))
    (fun _ p =>
       match p with
       | ExtractPrompt _ _ _ => Ok text_five_claims
       | _ => Ok text_confidence_05
       end)
    sample_clock sample_today.

(** A world where every fetch is answered with the JSON object
    [{"extract": 5, "Answer": "yes"}]: the encyclopedic adapter stores the
    number 5 as a summary. *)
Definition untyped_world : World :=
  mkWorld
    (fun _ _ =>
       Ok (mkResponse true "OK"
             (Ok (VObj [("extract", VNum (Fin 5)); ("Answer", VStr "yes")]))
             (Ok EmptyString)))
    (fun _ _ => Ok text_confidence_05)
    sample_clock sample_today.

(** *** A feed with one item *)

Definition moon_item : string :=
  "<item><title><![CDATA[Moon landing hoax]]></title>"
  ++ "<description><![CDATA[The claim is false]]></description>"
  ++ "<link>https://www.snopes.com/fact-check/moon</link></item>".

Definition moon_feed : string := "<rss><channel>" ++ moon_item ++ "</channel></rss>".

(** What the regular expressions capture in [moon_item]. *)
Definition capture_moon_item (p : pattern) : option string :=
  match p with
  | CdataTitle => Some "Moon landing hoax"
  | CdataDescription => Some "The claim is false"
  | PlainTitle => Some "<![CDATA[Moon landing hoax]]>"
  | PlainDescription => Some "<![CDATA[The claim is false]]>"
  | LinkTag => Some "https://www.snopes.com/fact-check/moon"
  | SummaryTag | LinkHref | ArxivId | HtmlTitle => None
  end.

(** The text functions of [sample_text], with the markup functions
    answering for [moon_feed] and [moon_item] as well. *)
Definition feed_text : TextOps :=
  mkTextOps
    (encodeURIComponent sample_text) (cleanQuery sample_text) (trim sample_text)
    (splitSpaces sample_text) (removeQuotes sample_text)
    (fun s => if String.eqb s moon_feed then [moon_item] else [])
    (matchEntries sample_text) (matchNames sample_text)
    (stripNameTags sample_text)
    (fun p s => if String.eqb s moon_item then capture_moon_item p else None)
    (stripTags sample_text) (cleanHtml sample_text)
    (ToStringOther sample_text) (otherText sample_text).

(** A world where every [fetch] is answered with status 200 and the feed
    [moon_feed] as body, which is not JSON. *)
Definition feed_world : World :=
  mkWorld
    (fun _ _ =>
       Ok (mkResponse true "OK" (Throw (ErrorObj "SyntaxError")) (Ok moon_feed)))
    (fun _ _ => Ok text_confidence_05)
    sample_clock sample_today.

(** A world where every [fetch] is answered with status 503. *)
Definition unavailable_world : World :=
  mkWorld
    (fun _ _ =>
       Ok (mkResponse false "Service Unavailable" (Throw (ErrorObj "SyntaxError"))
             (Ok EmptyString)))
    (fun _ _ => Ok text_confidence_05)
    sample_clock sample_today.

(** A world where the model fails on the trending prompt and answers every
    other prompt with a short text. *)
Definition quiet_world : World :=
  mkWorld
    (fun _ _ => Throw (ErrorObj "fetch failed"))
    (fun _ p =>
       match p with
       | TrendingPrompt _ => Throw (ErrorObj "Cohere API error: Too Many Requests")
       | _ => Ok "A quiet day"
       end)
    sample_clock sample_today.

(** A digest whose trending claims were stored as a JSON object, and a
    store that holds it. *)
Definition object_digest : DailyDigestRow :=
  mkDailyDigestRow 1 "2024-01-02"
    (VObj [("topics", VArr [])]) "A quiet day" "2024-01-02 10:00:00".

Definition digest_state : State :=
  mkState (mkDatabase [] [] [object_digest]) [].

(** A world like [page_world] whose model lists the claims as objects:
    [[{"claim": "the Sun is hot"}]]. *)
Definition text_object_claims : string :=
  "[{" ++ quoted "claim" ++ ": " ++ quoted "the Sun is hot" ++ "}]".

Definition object_claims_runtime : Runtime :=
  mkRuntime
    (fun s =>
       if String.eqb s text_object_claims
       then Ok (VArr [VObj [("claim", VStr "the Sun is hot")]])
       else JSON_parse sample_runtime s)
    (StringToNumber sample_runtime) (ArrayToString sample_runtime).

Definition object_claims_world : World :=
  mkWorld
    (fetch_reply page_world)
    (fun _ p =>
       match p with
       | ExtractPrompt _ _ _ => Ok text_object_claims
       | _ => Ok text_confidence_05
       end)
    sample_clock sample_today.

(** A world where every [fetch] is answered with the instant-answer payload
    [{"AbstractText": "Vaccines are safe", "AbstractSource": "WHO",
      "AbstractURL": "https://www.who.int"}], and the record the
    instant-answer adapter makes of it. *)
Definition who_abstract_world : World :=
  mkWorld
    (fun _ _ =>
       Ok (mkResponse true "OK"
             (Ok (VObj [("AbstractText", VStr "Vaccines are safe");
                        ("AbstractSource", VStr "WHO");
                        ("AbstractURL", VStr "https://www.who.int")]))
             (Ok EmptyString)))
    (fun _ _ => Ok text_confidence_05)
    sample_clock sample_today.

Definition ddg_who : ExternalFactCheckResult :=
  ev "DuckDuckGo (WHO)" None "Vaccines are safe" "https://www.who.int" 0.6.

(** A world like [page_world] whose model reports the confidence 1.7 for
    every claim. *)
Definition sure_world : World :=
  mkWorld
    (fetch_reply page_world)
    (fun _ p =>
       match p with
       | ExtractPrompt _ _ _ => Ok text_five_claims
       | _ => Ok text_confidence_17
       end)
    sample_clock sample_today.
(** ** Properties of the conflict analyzer *)

Section ConflictProperties.

Lemma includes_empty_false (sub : string) :
  sub <> EmptyString -> includes EmptyString sub = false.
Proof.
  destruct sub; [congruence | reflexivity].
Qed.

Lemma existsb_verdicts (kw : string) (results : list ExternalFactCheckResult)
      (r : ExternalFactCheckResult) :
  kw <> EmptyString ->
  In r results ->
  includes (toLowerCase (verdict_text r)) kw = true ->
  existsb (fun v => includes v kw)
    (map (fun r => toLowerCase (verdict_text r)) (filter verdict_truthy results))
  = true.
Proof.
  intros Hkw Hin Hinc.
  apply existsb_exists. exists (toLowerCase (verdict_text r)). split; [|exact Hinc].
  apply in_map_iff. exists r. split; [reflexivity|].
  apply filter_In. split; [exact Hin|].
  unfold verdict_truthy, verdict_text in *.
  destruct (verdict r) as [v|].
  - destruct v; [|reflexivity].
    change (includes EmptyString kw = true) in Hinc.
    rewrite includes_empty_false in Hinc by exact Hkw. discriminate.
  - change (includes EmptyString kw = true) in Hinc.
    rewrite includes_empty_false in Hinc by exact Hkw. discriminate.
Qed.

End ConflictProperties.

(** C8 (as stated, refuted): two records labelled "True" and "False" are
    flagged, but the explanation the code returns is not the text
    "Sources provide conflicting verdicts." *)
Lemma C8_explanation_text_differs :
  let results :=
    [ ev "Snopes" (Some "True") "first" "https://a.example" 0.9;
      ev "Snopes" (Some "False") "second" "https://b.example" 0.9 ] in
  hasConflicts (analyzeSourceConflicts results) = true /\
  conflictSummary (analyzeSourceConflicts results)
    <> "Sources provide conflicting verdicts.".
Proof.
  split; [reflexivity | vm_compute; discriminate].
Qed.

(** C8 (amended): with at least two records, a label containing "true" and
    a label containing "false" (after case folding) give [hasConflicts = true]
    and the explanation
    "Sources provide conflicting verdicts (some say true, others say false)";
    with fewer than two records the analyzer reports no conflict. *)
Theorem C8_conflicting_verdicts
    (results : list ExternalFactCheckResult) :
  ((List.length results < 2)%nat ->
     analyzeSourceConflicts results = mkConflict false EmptyString) /\
  (forall r1 r2,
     (2 <= List.length results)%nat ->
     In r1 results -> In r2 results ->
     includes (toLowerCase (verdict_text r1)) "true" = true ->
     includes (toLowerCase (verdict_text r2)) "false" = true ->
     analyzeSourceConflicts results
       = mkConflict true
           "Sources provide conflicting verdicts (some say true, others say false)").
Proof.
  split.
  - intros Hlt. unfold analyzeSourceConflicts.
    apply Nat.ltb_lt in Hlt. rewrite Hlt. reflexivity.
  - intros r1 r2 Hlen H1 H2 Ht Hf. unfold analyzeSourceConflicts.
    destruct (Nat.ltb_spec (List.length results) 2) as [Hlt|_]; [lia|].
    rewrite (existsb_verdicts "true" results r1), (existsb_verdicts "false" results r2);
      try assumption; try discriminate.
    reflexivity.
Qed.

Lemma C8_conflicting_verdicts_witness :
  let results :=
    [ ev "Snopes" (Some "TRUE") "first" "https://a.example" 0.9;
      ev "Wikipedia" None "middle" "https://m.example" 0.8;
      ev "Snopes" (Some "Mostly False") "second" "https://b.example" 0.9 ] in
  analyzeSourceConflicts results
    = mkConflict true
        "Sources provide conflicting verdicts (some say true, others say false)"
  /\ analyzeSourceConflicts [ev "Snopes" (Some "True") "only" "https://a.example" 0.9]
    = mkConflict false EmptyString.
Proof.
  split.
  - apply (proj2 (C8_conflicting_verdicts _)
             (ev "Snopes" (Some "TRUE") "first" "https://a.example" 0.9)
             (ev "Snopes" (Some "Mostly False") "second" "https://b.example" 0.9)).
    + simpl; lia.
    + simpl; auto.
    + simpl; auto.
    + reflexivity.
    + reflexivity.
  - apply (proj1 (C8_conflicting_verdicts _)). simpl; lia.
Defined.

(** C7: the pair test reads the two summaries in list order only. With the
    record that says "lost" first and the record that says "won" second no
    conflict is reported, although one summary contains "won" and the other
    "lost"; the same two records in the other order are flagged. *)
Theorem C7_reversed_pair_not_flagged :
  let lost := ev "Wikipedia" None "The team lost the final" "https://a.example" 0.8 in
  let won := ev "Wikidata" None "The team won the final" "https://b.example" 0.8 in
  analyzeSourceConflicts [lost; won] = mkConflict false EmptyString /\
  analyzeSourceConflicts [won; lost]
    = mkConflict true "Conflicting information between: Wikidata vs Wikipedia".
Proof.
  split; reflexivity.
Qed.


(** What the pair loop does flag: a pair whose earlier record holds the
    first word and whose later record holds the second. *)
Lemma conflicts_with_In (r1 r2 : ExternalFactCheckResult)
      (later : list ExternalFactCheckResult) :
  In r2 later ->
  opposite_statements (toLowerCase (summary r1)) (toLowerCase (summary r2)) = true ->
  In (pair_label r1 r2) (conflicts_with r1 later).
Proof.
  induction later as [|x rest IH]; simpl; [tauto|].
  intros [-> | Hin] Hopp; apply in_or_app.
  - left. rewrite Hopp. left. reflexivity.
  - right. apply IH; assumption.
Qed.

Lemma collect_conflicts_ordered (before between after : list ExternalFactCheckResult)
      (r1 r2 : ExternalFactCheckResult) :
  opposite_statements (toLowerCase (summary r1)) (toLowerCase (summary r2)) = true ->
  In (pair_label r1 r2)
     (collect_conflicts (before ++ r1 :: between ++ r2 :: after)%list).
Proof.
  intros Hopp. induction before as [|x rest IH]; simpl; apply in_or_app.
  - left. apply conflicts_with_In; [|exact Hopp].
    apply in_or_app. right. left. reflexivity.
  - right. exact IH.
Qed.

(** Every label the loop records comes from such a pair. *)
Lemma conflicts_with_sound (r1 : ExternalFactCheckResult)
      (later : list ExternalFactCheckResult) (label : string) :
  In label (conflicts_with r1 later) ->
  exists between r2 after,
    later = (between ++ r2 :: after)%list /\
    label = pair_label r1 r2 /\
    opposite_statements (toLowerCase (summary r1)) (toLowerCase (summary r2)) = true.
Proof.
  induction later as [|x rest IH]; simpl; [tauto|].
  intros Hin. apply in_app_or in Hin. destruct Hin as [Hin | Hin].
  - destruct (opposite_statements (toLowerCase (summary r1))
                (toLowerCase (summary x))) eqn:Hopp; [|destruct Hin].
    destruct Hin as [<- | []].
    exists [], x, rest. repeat split. exact Hopp.
  - destruct (IH Hin) as (between & r2 & after & -> & Hl & Hopp).
    exists (x :: between), r2, after. repeat split; assumption.
Qed.

Lemma collect_conflicts_sound (results : list ExternalFactCheckResult) (label : string) :
  In label (collect_conflicts results) ->
  exists before between after r1 r2,
    results = (before ++ r1 :: between ++ r2 :: after)%list /\
    label = pair_label r1 r2 /\
    opposite_statements (toLowerCase (summary r1)) (toLowerCase (summary r2)) = true.
Proof.
  induction results as [|r1 later IH]; simpl; [tauto|].
  intros Hin. apply in_app_or in Hin. destruct Hin as [Hin | Hin].
  - destruct (conflicts_with_sound r1 later label Hin)
      as (between & r2 & after & -> & Hl & Hopp).
    exists [], between, after, r1, r2. repeat split; assumption.
  - destruct (IH Hin) as (before & between & after & a & b & -> & Hl & Hopp).
    exists (r1 :: before), between, after, a, b. repeat split; assumption.
Qed.

(** The second step of the analyzer, when the labels do not conflict. *)
Lemma analyzeSourceConflicts_pairs (results : list ExternalFactCheckResult) :
  (2 <= List.length results)%nat ->
  hasConflicts (analyzeSourceConflicts results) = true ->
  conflictSummary (analyzeSourceConflicts results) <> conflicting_verdicts_text ->
  collect_conflicts results <> [] /\
  conflictSummary (analyzeSourceConflicts results)
  = "Conflicting information between: " ++ join ", " (collect_conflicts results).
Proof.
  intros Hlen. unfold analyzeSourceConflicts.
  destruct (Nat.ltb_spec (List.length results) 2) as [Hlt|_]; [lia|].
  match goal with
  | |- context [if ?b then mkConflict true _ else _] => destruct b
  end; simpl.
  - intros _ Hneq. congruence.
  - destruct (collect_conflicts results) as [|c rest]; simpl; [discriminate|].
    intros _ _. split; [discriminate | reflexivity].
Qed.

(** ** Properties of the verdict synthesizer *)

Section ConfidenceBounds.

Lemma max_not_NaN (a b : number) : a <> NaN -> b <> NaN -> JsMath.max a b <> NaN.
Proof.
  destruct a, b; simpl; try congruence.
  intros _ _. destruct (Qle_bool q q0); discriminate.
Qed.

Lemma scale_pos_not_NaN (a : number) (k : Q) : 0 < k -> a <> NaN -> JsMath.scale a k <> NaN.
Proof.
  intros Hk Ha. destruct a; simpl; try congruence.
  - apply Qgt_alt in Hk. rewrite Hk. discriminate.
  - apply Qgt_alt in Hk. rewrite Hk. discriminate.
Qed.

(** The final clamp. *)
Lemma clamp_in_unit_interval (n : number) :
  n <> NaN -> in_unit_interval (JsMath.max (Fin 0) (JsMath.min (Fin 1) n)).
Proof.
  intros Hn. destruct n as [| |q|]; simpl; try congruence.
  - split; [apply Qle_refl | discriminate].
  - destruct (Qle_bool 1 q) eqn:H1; simpl.
    + split; discriminate.
    + destruct (Qle_bool 0 q) eqn:H0; simpl.
      * apply Qle_bool_iff in H0. split; [exact H0|].
        destruct (Qlt_le_dec q 1) as [Hlt|Hge]; [apply Qlt_le_weak; exact Hlt|].
        apply Qle_bool_iff in Hge. congruence.
      * split; [apply Qle_refl | discriminate].
  - split; discriminate.
Qed.

Lemma adjustConfidence_in_unit_interval (reported : number)
      (externalResults : list ExternalFactCheckResult) (conflicts : bool) :
  reported <> NaN ->
  in_unit_interval (adjustConfidence reported externalResults conflicts).
Proof.
  intros Hr. unfold adjustConfidence.
  apply clamp_in_unit_interval.
  assert (Fin_not_NaN : forall q, Fin q <> NaN) by (intros; discriminate).
  repeat match goal with
         | |- (match ?x with Some _ => _ | None => _ end) <> NaN => destruct x
         | |- (if ?b then _ else _) <> NaN => destruct b
         | |- JsMath.max _ _ <> NaN => apply max_not_NaN
         | |- JsMath.scale _ _ <> NaN => apply scale_pos_not_NaN; [reflexivity|]
         | |- Fin _ <> NaN => apply Fin_not_NaN
         | |- _ => assumption
         end.
Qed.

End ConfidenceBounds.

Lemma fallback_confidences_in_unit_interval (b : bool) :
  in_unit_interval (if b then Fin 0.6 else Fin 0.3) /\
  in_unit_interval (if b then Fin 0.4 else Fin 0).
Proof.
  destruct b; simpl; repeat split; discriminate.
Qed.

(** A confidence field that is absent or a number never coerces to [NaN]. *)
Lemma reportedConfidence_of_number (rt : Runtime) (parsed c : value) :
  get_prop parsed "confidence" = Ok c ->
  (c = VUndefined \/ exists n, c = VNum n) ->
  exists n, reportedConfidence rt parsed = Ok n /\ n <> NaN.
Proof.
  intros Hget Hc. unfold reportedConfidence. rewrite Hget. simpl.
  destruct Hc as [-> | [n ->]].
  - exists (Fin 0). split; [reflexivity | discriminate].
  - unfold js_or. destruct n as [| |q|]; simpl.
    + exists (Fin 0). split; [reflexivity | discriminate].
    + exists NegInf. split; [reflexivity | discriminate].
    + destruct (Qeq_bool q 0); simpl.
      * exists (Fin 0). split; [reflexivity | discriminate].
      * exists (Fin q). split; [reflexivity | discriminate].
    + exists PosInf. split; [reflexivity | discriminate].
Qed.

(** Where the bound does hold: whatever the claim, the context, the
    evidence and the behaviour of the model (an answer in JSON, a malformed
    answer, a thrown error), the verdict's confidence lies in the closed
    interval from 0 to 1 whenever the confidence read from a JSON answer
    does not coerce to [NaN]; an absent field and every JSON number, also
    an out-of-range one such as 1.7, are such values. *)
Lemma confidence_in_unit_interval_for_numbers
    (rt : Runtime) (externalResults : list ExternalFactCheckResult)
    (conflictAnalysis : ConflictAnalysis) (model : result string) :
  (forall response parsed,
     model = Ok response -> JSON_parse rt response = Ok parsed ->
     reportedConfidence rt parsed <> Ok NaN) ->
  in_unit_interval
    (fc_confidence (synthesize rt externalResults conflictAnalysis model)).
Proof.
  intros Hnum. unfold synthesize.
  destruct model as [response | error].
  - destruct (JSON_parse rt response) as [parsed | e] eqn:Hparse; simpl.
    + specialize (Hnum response parsed eq_refl Hparse).
      unfold verdictFromParsed.
      destruct (get_prop parsed "sources") as [srcs|]; simpl;
        [| apply fallback_confidences_in_unit_interval].
      destruct (reportedConfidence rt parsed) as [reported|]; simpl;
        [| apply fallback_confidences_in_unit_interval].
      destruct (get_prop parsed "status") as [st|]; simpl;
        [| apply fallback_confidences_in_unit_interval].
      destruct (get_prop parsed "reasoning") as [rs|]; simpl;
        [| apply fallback_confidences_in_unit_interval].
      apply adjustConfidence_in_unit_interval. congruence.
    + apply fallback_confidences_in_unit_interval.
  - simpl. apply fallback_confidences_in_unit_interval.
Qed.

Example confidence_in_unit_interval_sample :
  in_unit_interval
    (fc_confidence
       (synthesize sample_runtime [wikipedia_08] (analyzeSourceConflicts [wikipedia_08])
          (Ok text_confidence_17))).
Proof.
  apply (confidence_in_unit_interval_for_numbers sample_runtime [wikipedia_08]
           (analyzeSourceConflicts [wikipedia_08]) (Ok text_confidence_17)).
  intros response parsed Hm Hp.
  injection Hm as <-.
  vm_compute in Hp. injection Hp as <-.
  vm_compute. discriminate.
Qed.

(** The model reports 1.7: the verdict's confidence is 1. *)
Example confidence_17_is_clamped :
  fc_confidence
    (synthesize sample_runtime [wikipedia_08] (analyzeSourceConflicts [wikipedia_08])
       (Ok text_confidence_17))
  = Fin 1.
Proof. vm_compute. reflexivity. Qed.

(** *** The successful path *)

Lemma get_prop_object (parsed : value) (key : string) :
  parsed <> VNull -> parsed <> VUndefined ->
  exists x, get_prop parsed key = Ok x.
Proof.
  intros Hn Hu. destruct parsed; simpl; try congruence; eauto.
  - destruct (String.eqb key "length"); eauto.
  - destruct (String.eqb key "length"); eauto.
    destruct (index_of_key key); eauto.
  - destruct (lookup_field fields key); eauto.
Qed.

(** What [synthesize] returns when the answer parses and the reads succeed. *)
Lemma synthesize_success (rt : Runtime)
      (externalResults : list ExternalFactCheckResult)
      (conflictAnalysis : ConflictAnalysis)
      (response : string) (parsed : value) (reported : number) :
  JSON_parse rt response = Ok parsed ->
  parsed <> VNull -> parsed <> VUndefined ->
  reportedConfidence rt parsed = Ok reported ->
  exists parsedSources parsedStatus parsedReasoning,
    get_prop parsed "sources" = Ok parsedSources /\
    synthesize rt externalResults conflictAnalysis (Ok response)
    = mkVerdict
        (js_or parsedStatus (VStr "unverified"))
        (adjustConfidence reported externalResults (hasConflicts conflictAnalysis))
        (push_evidence_urls
           (match parsedSources with VArr items => items | _ => [] end)
           externalResults)
        (js_or parsedReasoning (VStr "No reasoning provided")).
Proof.
  intros Hparse Hn Hu Hrep.
  destruct (get_prop_object parsed "sources" Hn Hu) as [srcs Hs].
  destruct (get_prop_object parsed "status" Hn Hu) as [st Hst].
  destruct (get_prop_object parsed "reasoning" Hn Hu) as [rs Hrs].
  exists srcs, st, rs. split; [exact Hs|].
  unfold synthesize. rewrite Hparse. simpl.
  unfold verdictFromParsed. rewrite Hs. simpl. rewrite Hrep. simpl.
  rewrite Hst. simpl. rewrite Hrs. reflexivity.
Qed.

(** C2: the verdict's confidence is not always in the closed interval from
    0 to 1. The model answers with well-formed JSON whose confidence is the
    string high; [parsed.confidence || 0] keeps the string, the arithmetic
    coerces it to [NaN], [Math.max(0, Math.min(1, NaN))] is [NaN], and the
    verdict carries [NaN] as its confidence. The code clamps the confidence
    and defaults a missing one, but does not check that the parsed value is
    a number. *)
Theorem C2_confidence_NaN_for_non_numeric :
  fc_confidence
    (synthesize sample_runtime [] (analyzeSourceConflicts []) (Ok text_confidence_high))
  = NaN /\
  ~ in_unit_interval
      (fc_confidence
         (synthesize sample_runtime [] (analyzeSourceConflicts [])
            (Ok text_confidence_high))) /\
  (forall (rt : Runtime) (externalResults : list ExternalFactCheckResult)
          (conflictAnalysis : ConflictAnalysis) (response : string) (parsed : value),
      JSON_parse rt response = Ok parsed ->
      parsed <> VNull -> parsed <> VUndefined ->
      reportedConfidence rt parsed = Ok NaN ->
      fc_confidence (synthesize rt externalResults conflictAnalysis (Ok response))
      = NaN).
Proof.
  split; [reflexivity|]. split; [intros H; exact H|].
  intros rt externalResults conflictAnalysis response parsed Hparse Hn Hu Hrep.
  destruct (synthesize_success rt externalResults conflictAnalysis response parsed
              NaN Hparse Hn Hu Hrep) as (srcs & st & rs & _ & Hsyn).
  rewrite Hsyn. cbn [fc_confidence]. unfold adjustConfidence.
  destruct (nonempty externalResults), (hasConflicts conflictAnalysis),
    (hasSpecializedSource externalResults), (snopesResult externalResults);
    reflexivity.
Qed.

Lemma fold_left_confidence (externalResults : list ExternalFactCheckResult) (acc : Q) :
  fold_left (fun sum r => sum + confidence r) externalResults acc
  == acc + fold_right (fun r a => confidence r + a) 0 externalResults.
Proof.
  revert acc. induction externalResults as [|r rest IH]; intros acc; simpl.
  - ring.
  - rewrite IH. ring.
Qed.

Lemma avg_is_mean (externalResults : list ExternalFactCheckResult) :
  avgExternalConfidence externalResults * 0.8
  == 0.8 * SpecSteps.mean_confidence externalResults.
Proof.
  unfold avgExternalConfidence, SpecSteps.mean_confidence.
  rewrite fold_left_confidence. unfold Qdiv. ring.
Qed.

Lemma number_eq_refl (a : number) : number_eq a a.
Proof. destruct a; simpl; auto. apply Qeq_refl. Qed.

Lemma max_number_eq (a a' b b' : number) :
  number_eq a a' -> number_eq b b' -> number_eq (JsMath.max a b) (JsMath.max a' b').
Proof.
  destruct a, a'; simpl; try tauto; destruct b, b'; simpl; try tauto.
  intros Ha Hb. rewrite (Qleb_comp _ _ Ha _ _ Hb).
  destruct (Qle_bool q0 q2); simpl; assumption.
Qed.

Lemma min_number_eq (a a' b b' : number) :
  number_eq a a' -> number_eq b b' -> number_eq (JsMath.min a b) (JsMath.min a' b').
Proof.
  destruct a, a'; simpl; try tauto; destruct b, b'; simpl; try tauto.
  intros Ha Hb. rewrite (Qleb_comp _ _ Ha _ _ Hb).
  destruct (Qle_bool q0 q2); simpl; assumption.
Qed.

Lemma scale_number_eq (a a' : number) (k : Q) :
  number_eq a a' -> number_eq (JsMath.scale a k) (JsMath.scale a' k).
Proof.
  destruct a, a'; simpl; try tauto.
  - intros _. destruct (Qcompare k 0); simpl; auto.
  - intros H. rewrite H. apply Qeq_refl.
  - intros _. destruct (Qcompare k 0); simpl; auto.
Qed.

Create HintDb number_eq.
#[local] Hint Resolve number_eq_refl max_number_eq min_number_eq scale_number_eq
  : number_eq.

Lemma find_is_existsb {A : Type} (f : A -> bool) (xs : list A) :
  match find f xs with Some _ => true | None => false end = existsb f xs.
Proof.
  induction xs as [|x rest IH]; simpl; [reflexivity|].
  destruct (f x); simpl; [reflexivity | exact IH].
Qed.

Lemma number_ge_max_l (a b : number) (k : Q) :
  number_ge a k -> b <> NaN -> number_ge (JsMath.max a b) k.
Proof.
  destruct a, b; simpl; try tauto; try congruence.
  intros Ha _. destruct (Qle_bool q q0) eqn:Hle; simpl; [|exact Ha].
  apply Qle_bool_iff in Hle. eapply Qle_trans; eassumption.
Qed.

Lemma number_ge_max_r (a b : number) (k : Q) :
  a <> NaN -> number_ge b k -> number_ge (JsMath.max a b) k.
Proof.
  destruct a, b; simpl; try tauto; try congruence.
  intros _ Hb. destruct (Qle_bool q q0) eqn:Hle; simpl; [exact Hb|].
  destruct (Qlt_le_dec q0 q) as [Hlt|Hge].
  - eapply Qle_trans; [exact Hb | apply Qlt_le_weak; exact Hlt].
  - apply Qle_bool_iff in Hge. congruence.
Qed.

Lemma number_ge_clamp (n : number) (k : Q) :
  k <= 1 -> number_ge n k ->
  number_ge (JsMath.max (Fin 0) (JsMath.min (Fin 1) n)) k.
Proof.
  intros Hk Hn. apply number_ge_max_r; [discriminate|].
  destruct n as [| |q|]; simpl in *; try tauto.
  destruct (Qle_bool 1 q); simpl; assumption.
Qed.

Lemma specialized_source_detected (externalResults : list ExternalFactCheckResult)
      (r : ExternalFactCheckResult) :
  In r externalResults ->
  In (source r) specialized_adapter_sources ->
  hasSpecializedSource externalResults = true.
Proof.
  intros Hin Hsrc. unfold hasSpecializedSource.
  apply existsb_exists. exists r. split; [exact Hin|].
  unfold specialized_adapter_sources in Hsrc. simpl in Hsrc.
  repeat (destruct Hsrc as [<- | Hsrc]; [reflexivity|]).
  contradiction.
Qed.

(** The order of the adjustments. On the path where the model's JSON is
    read successfully, the verdict's confidence is the reported confidence
    after (a) the raise to 0.8 times the mean evidence confidence when there
    is evidence, (b) the dampening [max(0.3, c * 0.7)] when conflicts were
    detected, (c) the floor 0.85 when the code's test for a specialized
    source succeeds and there is no conflict, (d) the floor 0.9 when a
    fact-check-feed record carries a verdict label and there is no
    conflict, and the clamp, in this order; a record written by a
    domain-specific adapter passes the code's test; with one evidence
    record of confidence 0.8 and no conflict the result is at least 0.64. *)
Lemma confidence_adjustment_order
    (rt : Runtime) (externalResults : list ExternalFactCheckResult)
    (conflictAnalysis : ConflictAnalysis)
    (response : string) (parsed : value) (reported : number) :
  JSON_parse rt response = Ok parsed ->
  parsed <> VNull -> parsed <> VUndefined ->
  reportedConfidence rt parsed = Ok reported ->
  let conflicts := hasConflicts conflictAnalysis in
  let final :=
    fc_confidence (synthesize rt externalResults conflictAnalysis (Ok response)) in
  number_eq final
    (SpecSteps.clamp01
       (SpecSteps.floor_fact_check (existsb labelled_fact_check externalResults) conflicts
          (SpecSteps.floor_specialized (hasSpecializedSource externalResults) conflicts
             (SpecSteps.dampen_for_conflicts conflicts
                (SpecSteps.raise_to_evidence externalResults reported)))))
  /\ (forall r, In r externalResults ->
                In (source r) specialized_adapter_sources ->
                hasSpecializedSource externalResults = true)
  /\ (forall r, externalResults = [r] -> confidence r == 0.8 ->
                conflicts = false -> reported <> NaN ->
                number_ge final 0.64).
Proof.
  intros Hparse Hn Hu Hrep conflicts final.
  destruct (synthesize_success rt externalResults conflictAnalysis response parsed
              reported Hparse Hn Hu Hrep) as (srcs & st & rs & _ & Hsyn).
  assert (Hfinal : final
                   = adjustConfidence reported externalResults conflicts)
    by (unfold final; rewrite Hsyn; reflexivity).
  rewrite Hfinal. clear Hsyn Hfinal final.
  split; [| split].
  - unfold adjustConfidence, SpecSteps.clamp01, SpecSteps.floor_fact_check,
      SpecSteps.floor_specialized, SpecSteps.dampen_for_conflicts,
      SpecSteps.raise_to_evidence, snopesResult.
    fold labelled_fact_check.
    rewrite <- (find_is_existsb labelled_fact_check externalResults).
    assert (Ha : number_eq
                   (if nonempty externalResults
                    then JsMath.max reported
                           (Fin (avgExternalConfidence externalResults * 0.8))
                    else reported)
                   (match externalResults with
                    | [] => reported
                    | _ :: _ =>
                        JsMath.max reported
                          (Fin (0.8 * SpecSteps.mean_confidence externalResults))
                    end)).
    { destruct externalResults as [|r rest]; [apply number_eq_refl|].
      change (nonempty (r :: rest)) with true. cbv iota.
      apply max_number_eq; [apply number_eq_refl|]. simpl. apply avg_is_mean. }
    revert Ha.
    generalize (if nonempty externalResults
                then JsMath.max reported
                       (Fin (avgExternalConfidence externalResults * 0.8))
                else reported).
    generalize (match externalResults with
                | [] => reported
                | _ :: _ =>
                    JsMath.max reported
                      (Fin (0.8 * SpecSteps.mean_confidence externalResults))
                end).
    intros spec_a code_a Ha.
    destruct conflicts, (hasSpecializedSource externalResults),
      (find labelled_fact_check externalResults); simpl negb; cbv iota;
      simpl andb; cbv iota; auto 10 with number_eq.
  - intros r. apply specialized_source_detected.
  - intros r -> Hc Hconf Hr. rewrite Hconf. unfold adjustConfidence.
    change (nonempty [r]) with true. cbv iota. simpl negb. rewrite andb_true_r.
    apply number_ge_clamp; [discriminate|].
    assert (H1 : number_ge
                   (JsMath.max reported (Fin (avgExternalConfidence [r] * 0.8))) 0.64).
    { apply number_ge_max_r; [exact Hr|]. simpl.
      unfold avgExternalConfidence. simpl. rewrite Hc. discriminate. }
    assert (H2 : number_ge
                   (if hasSpecializedSource [r]
                    then JsMath.max
                           (JsMath.max reported (Fin (avgExternalConfidence [r] * 0.8)))
                           (Fin 0.85)
                    else JsMath.max reported (Fin (avgExternalConfidence [r] * 0.8)))
                   0.64).
    { destruct (hasSpecializedSource [r]); [|exact H1].
      apply number_ge_max_l; [exact H1 | discriminate]. }
    destruct (snopesResult [r]); [|exact H2].
    apply number_ge_max_l; [exact H2 | discriminate].
Qed.

Example confidence_adjustment_sample :
  number_ge
    (fc_confidence
       (synthesize sample_runtime [wikipedia_08] (analyzeSourceConflicts [wikipedia_08])
          (Ok text_confidence_05)))
    0.64.
Proof.
  destruct (confidence_adjustment_order sample_runtime [wikipedia_08]
              (analyzeSourceConflicts [wikipedia_08]) text_confidence_05
              (payload_value (VNum (Fin 0.5)) []) (Fin 0.5))
    as (_ & _ & H);
    [reflexivity | discriminate | discriminate | reflexivity |].
  apply (H wikipedia_08); [reflexivity | reflexivity | reflexivity | discriminate].
Qed.

(** The adjustments at work on samples: evidence raises 0.5 to 0.64, a
    specialized source lifts it to 0.85, a labelled fact-check record to 0.9. *)
Example confidence_adjusted_on_samples :
  number_eq
    (fc_confidence
       (synthesize sample_runtime [wikipedia_08] (analyzeSourceConflicts [wikipedia_08])
          (Ok text_confidence_05)))
    (Fin 0.64)
  /\ number_eq
       (fc_confidence
          (synthesize sample_runtime [wikipedia_08; who_record]
             (analyzeSourceConflicts [wikipedia_08; who_record])
             (Ok text_confidence_05)))
       (Fin 0.85)
  /\ number_eq
       (fc_confidence
          (synthesize sample_runtime [wikipedia_08; snopes_true]
             (analyzeSourceConflicts [wikipedia_08; snopes_true])
             (Ok text_confidence_05)))
       (Fin 0.9).
Proof. vm_compute. repeat split. Qed.

(** ** Step (c) against the specification's words *)

Lemma from_domain_adapter_In (r : ExternalFactCheckResult) :
  from_domain_adapter r = true <-> In (source r) specialized_adapter_sources.
Proof.
  unfold from_domain_adapter. rewrite existsb_exists. split.
  - intros (x & Hin & Hx). apply String.eqb_eq in Hx. rewrite Hx. exact Hin.
  - intros Hin. exists (source r). split; [exact Hin | apply String.eqb_refl].
Qed.

(** The code's test accepts every record of a domain-specific adapter; it
    agrees with the specification's wording on a list in which no other
    record has a keyword in its source name. *)
Lemma hasSpecializedSource_agrees (externalResults : list ExternalFactCheckResult) :
  (forall r, In r externalResults ->
             existsb (fun kw => includes (source r) kw) specialized_keywords = true ->
             from_domain_adapter r = true) ->
  hasSpecializedSource externalResults = existsb from_domain_adapter externalResults.
Proof.
  intros Hnames. unfold hasSpecializedSource.
  destruct (existsb from_domain_adapter externalResults) eqn:Hspec.
  - apply existsb_exists in Hspec. destruct Hspec as (r & Hin & Hr).
    apply (specialized_source_detected externalResults r Hin).
    apply from_domain_adapter_In. exact Hr.
  - destruct (existsb
                (fun r => existsb (fun kw => includes (source r) kw)
                                  specialized_keywords)
                externalResults) eqn:Hcode; [|reflexivity].
    apply existsb_exists in Hcode. destruct Hcode as (r & Hin & Hr).
    assert (Habs : existsb from_domain_adapter externalResults = true)
      by (apply existsb_exists; exists r; split; [exact Hin | apply Hnames; assumption]).
    congruence.
Qed.

(** On such a list the verdict's confidence is the confidence the
    specification's steps give. *)
Lemma confidence_matches_spec_steps
    (rt : Runtime) (externalResults : list ExternalFactCheckResult)
    (conflictAnalysis : ConflictAnalysis)
    (response : string) (parsed : value) (reported : number) :
  JSON_parse rt response = Ok parsed ->
  parsed <> VNull -> parsed <> VUndefined ->
  reportedConfidence rt parsed = Ok reported ->
  (forall r, In r externalResults ->
             existsb (fun kw => includes (source r) kw) specialized_keywords = true ->
             from_domain_adapter r = true) ->
  number_eq
    (fc_confidence (synthesize rt externalResults conflictAnalysis (Ok response)))
    (spec_confidence externalResults (hasConflicts conflictAnalysis) reported).
Proof.
  intros Hparse Hn Hu Hrep Hnames.
  destruct (confidence_adjustment_order rt externalResults conflictAnalysis response
              parsed reported Hparse Hn Hu Hrep) as (Heq & _).
  cbv zeta in Heq. unfold spec_confidence.
  rewrite <- (hasSpecializedSource_agrees externalResults Hnames). exact Heq.
Qed.

(** C3: step (c) is applied to records that do not come from a
    domain-specific adapter. The instant-answer adapter, one of the four
    general ones, names its record after the payload's abstract source;
    for the abstract source WHO the record is named DuckDuckGo (WHO). It
    is not a record of a domain-specific adapter, so with a reported
    confidence of 0.5 and no conflict the steps of the specification give
    0.5 (0.8 times the record's 0.6 is 0.48); the code's test looks for the
    keyword as a part of the name, finds WHO, and the verdict's confidence
    is 0.85. The test accepts any name that holds the letters of a keyword,
    such as DuckDuckGo (WHOIS). *)
Theorem C3_general_record_floored :
  fst (searchDuckDuckGo sample_text who_abstract_world "vaccines" initial_state)
  = Ok (Some (textEvidence "DuckDuckGo (WHO)" None "Vaccines are safe"
                "https://www.who.int" 0.6)) /\
  declared (textEvidence "DuckDuckGo (WHO)" None "Vaccines are safe"
              "https://www.who.int" 0.6) = ddg_who /\
  from_domain_adapter ddg_who = false /\
  hasConflicts (analyzeSourceConflicts [ddg_who]) = false /\
  spec_confidence [ddg_who] false (Fin 0.5) = Fin 0.5 /\
  hasSpecializedSource [ddg_who] = true /\
  fc_confidence
    (synthesize sample_runtime [ddg_who] (analyzeSourceConflicts [ddg_who])
       (Ok text_confidence_05))
  = Fin 0.85 /\
  (forall summaryText urlText weight,
      let r := ev "DuckDuckGo (WHOIS)" None summaryText urlText weight in
      from_domain_adapter r = false /\ hasSpecializedSource [r] = true).
Proof.
  repeat split; vm_compute; reflexivity.
Qed.

(** ** The merged source list *)

Section MergedSources.

Lemma includes_url_app (xs ys : list value) (u : string) :
  includes_url (xs ++ ys)%list u = includes_url xs u || includes_url ys u.
Proof. unfold includes_url. apply existsb_app. Qed.

Lemma includes_url_strings (us : list string) (u : string) :
  includes_url (map VStr us) u = existsb (String.eqb u) us.
Proof.
  unfold includes_url. induction us as [|x rest IH]; simpl; [reflexivity|].
  rewrite IH, (String.eqb_sym x u). reflexivity.
Qed.

Lemma includes_url_In (xs : list value) (u : string) :
  includes_url xs u = true <-> In (VStr u) xs.
Proof.
  unfold includes_url. rewrite existsb_exists. split.
  - intros [v [Hin Hv]]. destruct v; try discriminate.
    apply String.eqb_eq in Hv. subst. exact Hin.
  - intros Hin. exists (VStr u). split; [exact Hin | apply String.eqb_refl].
Qed.

(** The loop, started with the model's list and the URLs [acc] pushed so far. *)
Lemma push_evidence_urls_acc (modelSources : list value) (acc : list string)
      (externalResults : list ExternalFactCheckResult) :
  push_evidence_urls (modelSources ++ map VStr acc)%list externalResults
  = (modelSources ++
     map VStr
       (acc ++ first_seen acc
                 (filter (fun u => negb (includes_url modelSources u))
                         (map url externalResults))))%list.
Proof.
  revert acc. induction externalResults as [|r rest IH]; intros acc; simpl.
  - rewrite app_nil_r. reflexivity.
  - rewrite includes_url_app, includes_url_strings.
    destruct (includes_url modelSources (url r)) eqn:Hm; simpl.
    + apply IH.
    + destruct (existsb (String.eqb (url r)) acc) eqn:Hacc.
      * apply IH.
      * rewrite <- app_assoc.
        change [VStr (url r)] with (map VStr [url r]).
        rewrite <- map_app, IH, <- app_assoc. reflexivity.
Qed.

Lemma push_evidence_urls_spec (modelSources : list value)
      (externalResults : list ExternalFactCheckResult) :
  push_evidence_urls modelSources externalResults
  = spec_merged_sources modelSources externalResults.
Proof.
  pose proof (push_evidence_urls_acc modelSources [] externalResults) as H.
  simpl in H. rewrite app_nil_r in H. exact H.
Qed.

Lemma first_seen_fresh (seen us : list string) (u : string) :
  In u (first_seen seen us) -> In u us /\ ~ In u seen.
Proof.
  revert seen. induction us as [|x rest IH]; intros seen; simpl; [tauto|].
  destruct (existsb (String.eqb x) seen) eqn:Hx.
  - intros Hin. destruct (IH _ Hin) as [H1 H2]. tauto.
  - intros [<- | Hin].
    + split; [tauto|]. intros Hin.
      assert (existsb (String.eqb x) seen = true)
        by (apply existsb_exists; exists x; split;
            [exact Hin | apply String.eqb_refl]).
      congruence.
    + destruct (IH _ Hin) as [H1 H2]. split; [tauto|].
      intros Hs. apply H2. apply in_or_app. tauto.
Qed.

Lemma first_seen_NoDup (seen us : list string) : NoDup (first_seen seen us).
Proof.
  revert seen. induction us as [|x rest IH]; intros seen; simpl; [constructor|].
  destruct (existsb (String.eqb x) seen); [apply IH|].
  constructor; [|apply IH].
  intros Hin. apply first_seen_fresh in Hin. destruct Hin as [_ Hn].
  apply Hn. apply in_or_app. right. simpl. tauto.
Qed.

Lemma NoDup_map_VStr (us : list string) : NoDup us -> NoDup (map VStr us).
Proof.
  induction 1 as [|u rest Hnot Hnd IH]; simpl; constructor; [|exact IH].
  rewrite in_map_iff. intros [u' [Heq Hin]].
  injection Heq as ->. contradiction.
Qed.

Lemma spec_merged_sources_NoDup (modelSources : list value)
      (externalResults : list ExternalFactCheckResult) :
  NoDup modelSources -> NoDup (spec_merged_sources modelSources externalResults).
Proof.
  intros Hm. unfold spec_merged_sources.
  apply NoDup_app; [exact Hm | |].
  - apply NoDup_map_VStr, first_seen_NoDup.
  - intros v Hv Hin. apply in_map_iff in Hin. destruct Hin as [u [<- Hu]].
    apply first_seen_fresh in Hu. destruct Hu as [Hu _].
    apply filter_In in Hu. destruct Hu as [_ Hu].
    apply includes_url_In in Hv. rewrite Hv in Hu. discriminate.
Qed.

End MergedSources.

(** C4 (as stated, refuted): the model lists the same URL twice and there is
    no evidence; the verdict's source list holds that URL twice. *)
Lemma C4_model_duplicates_kept :
  fc_sources
    (synthesize sample_runtime [] (analyzeSourceConflicts []) (Ok text_sources_twice))
  = [VStr "https://a.example"; VStr "https://a.example"] /\
  ~ NoDup
      (fc_sources
         (synthesize sample_runtime [] (analyzeSourceConflicts [])
            (Ok text_sources_twice))).
Proof.
  split; [reflexivity|].
  intros H. change (NoDup [VStr "https://a.example"; VStr "https://a.example"]) in H.
  inversion H as [|x l Hnot _]. apply Hnot. left. reflexivity.
Qed.

(** C4 (amended): on the path where the model's JSON is read successfully,
    the verdict's sources are the model-reported sources as the model gave
    them, followed by the evidence URLs not already present, each once, in
    first-seen order; the list has no duplicate whenever the model's own
    list has none, also when the model and an adapter report the same URL. *)
Theorem C4_sources_merged
    (rt : Runtime) (externalResults : list ExternalFactCheckResult)
    (conflictAnalysis : ConflictAnalysis)
    (response : string) (parsed parsedSources : value) (reported : number) :
  JSON_parse rt response = Ok parsed ->
  get_prop parsed "sources" = Ok parsedSources ->
  reportedConfidence rt parsed = Ok reported ->
  let modelSources := match parsedSources with VArr items => items | _ => [] end in
  let merged :=
    fc_sources (synthesize rt externalResults conflictAnalysis (Ok response)) in
  merged = spec_merged_sources modelSources externalResults /\
  (NoDup modelSources -> NoDup merged).
Proof.
  intros Hparse Hsrc Hrep modelSources merged.
  assert (Hn : parsed <> VNull) by (intros ->; discriminate).
  assert (Hu : parsed <> VUndefined) by (intros ->; discriminate).
  destruct (synthesize_success rt externalResults conflictAnalysis response parsed
              reported Hparse Hn Hu Hrep) as (srcs & st & rs & Hs & Hsyn).
  assert (srcs = parsedSources) by congruence. subst srcs.
  assert (Hmerged : merged = spec_merged_sources modelSources externalResults).
  { unfold merged. rewrite Hsyn. simpl. apply push_evidence_urls_spec. }
  split; [exact Hmerged|].
  intros Hnd. rewrite Hmerged. apply spec_merged_sources_NoDup. exact Hnd.
Qed.

Lemma C4_sources_merged_witness :
  let externalResults :=
    [wikipedia_08; snopes_true;
     ev "Wikidata" None "Sun" "https://s.example" 0.8] in
  fc_sources
    (synthesize sample_runtime externalResults (analyzeSourceConflicts externalResults)
       (Ok text_sources_once))
  = [VStr "https://a.example"; VStr "https://s.example"] /\
  NoDup
    (fc_sources
       (synthesize sample_runtime externalResults (analyzeSourceConflicts externalResults)
          (Ok text_sources_once))).
Proof.
  intros externalResults.
  destruct (C4_sources_merged sample_runtime externalResults
              (analyzeSourceConflicts externalResults) text_sources_once
              (payload_value (VNum (Fin 0.5)) [VStr "https://a.example"])
              (VArr [VStr "https://a.example"]) (Fin 0.5))
    as [Heq Hnd]; [reflexivity | reflexivity | reflexivity |].
  split.
  - rewrite Heq. reflexivity.
  - apply Hnd. repeat constructor. simpl. tauto.
Defined.

(** ** Source adapters never throw *)

(** A body wrapped in [try { ... } catch { return null }] ends with a
    record or with none. *)
Lemma try_catch_no_match (body : M (option EvidenceAtRuntime)) (s : State) :
  exists r s', try_catchM body no_match s = (Ok r, s').
Proof.
  unfold try_catchM, no_match, ret.
  destruct (body s) as [[r | e] s']; eauto.
Qed.

(** C6: each of the eleven source adapters, on every query, in every state
    and against every behaviour of the outside world (a rejected fetch, a
    response that is not OK, a malformed or unexpected payload), ends with
    one evidence record or with none, and never with a throw. *)
Theorem C6_adapters_never_throw
    (rt : Runtime) (tx : TextOps) (w : World)
    (a : adapter) (query : string) (s : State) :
  exists (r : option EvidenceAtRuntime) (s' : State),
    run_adapter rt tx w a query s = (Ok r, s').
Proof.
  destruct a; simpl; unfold searchESPN, searchWHO; apply try_catch_no_match.
Qed.

(** Two runs of the encyclopedic adapter: without network it reports no
    match; on a summary payload it reports one record with weight 0.8. *)
Example searchWikipedia_offline :
  fst (searchWikipedia sample_text offline_world "The Sun" initial_state) = Ok None.
Proof. reflexivity. Qed.

Example searchWikipedia_found :
  fst (searchWikipedia sample_text wiki_world "The Sun" initial_state)
  = Ok (Some (textEvidence "Wikipedia" None "The Sun is a star"
                "https://en.wikipedia.org/wiki/The%20Sun" 0.8)).
Proof. reflexivity. Qed.

(** A payload of an unexpected shape ([null] where an object is expected)
    is swallowed as well. *)
Example searchWikipedia_null_payload :
  fst (searchWikipedia sample_text
         (mkWorld (fun _ _ => Ok (mkResponse true "OK" (Ok VNull) (Ok EmptyString)))
                  (fun _ _ => Ok EmptyString) sample_clock sample_today)
         "The Sun" initial_state)
  = Ok None.
Proof. reflexivity. Qed.

(** ** The sources the adapters write *)

Section AdapterSources.

Variable rt : Runtime.
Variable tx : TextOps.
Variable w : World.

Lemma first_some_Some {A B : Type} (f : A -> option B) (xs : list A) (b : B) :
  first_some f xs = Some b -> exists x, In x xs /\ f x = Some b.
Proof.
  induction xs as [|x rest IH]; simpl; [discriminate|].
  destruct (f x) as [b'|] eqn:Hfx.
  - intros H. injection H as <-. exists x. split; [left; reflexivity | exact Hfx].
  - intros H. destruct (IH H) as (y & Hy & Hfy). exists y. split; [right|]; assumption.
Qed.

(** A computation is examined by cases on each of its steps. *)
Ltac split_run :=
  repeat (cbv beta in *;
          match goal with
          | H : context [match ?x with _ => _ end] |- _ => destruct x eqn:?
          | H : context [if ?b then _ else _] |- _ => destruct b eqn:?
          end; try discriminate).

Ltac same_outcome :=
  repeat (match goal with
          | H : (_, _) = (_, _) |- _ => injection H; clear H; intros
          | H : Ok _ = Ok _ |- _ => injection H; clear H; intros
          | H : Some _ = Some _ |- _ => injection H; clear H; intros
          end; subst; try discriminate).

Lemma liquipediaLoop_source (game : string) (titles descriptions urls : value)
      (fuel i : nat) (f : EvidenceAtRuntime) :
  liquipediaLoop rt tx game titles descriptions urls fuel i = Ok (Some f) ->
  source (declared f) = "Liquipedia (" ++ game ++ ")".
Proof.
  revert i. induction fuel as [|fuel IH]; intros i; simpl; [discriminate|].
  unfold bind at 1.
  destruct (get_prop titles "length") as [len|]; [|discriminate].
  unfold bind at 1.
  destruct (ToNumber rt len) as [n|]; [|discriminate].
  destruct (JsMath.gtb n (inject_Z (Z.of_nat i))); [|discriminate].
  unfold bind at 1.
  destruct (liquipediaEntry tx game titles descriptions urls i)
    as [[found|]|] eqn:Hentry; try discriminate.
  - intros H. injection H as <-.
    unfold liquipediaEntry, bind in Hentry.
    split_run. same_outcome. reflexivity.
  - apply IH.
Qed.

Lemma liquipediaGame_cases (query : string) :
  In (liquipediaGame query)
     [EmptyString; "counterstrike"; "dota2"; "leagueoflegends"; "valorant"].
Proof.
  unfold liquipediaGame.
  repeat match goal with
         | |- context [if ?b then _ else _] => destruct b
         end; simpl; tauto.
Qed.

(** Every record a domain-specific adapter returns carries one of the
    sources listed in [specialized_adapter_sources]. *)
Lemma specialized_adapter_source (a : adapter) (query : string) (s s' : State)
      (f : EvidenceAtRuntime) :
  In a [Liquipedia; ESPN; SportsDB; PubMed; WHO; SEC; ArXiv] ->
  run_adapter rt tx w a query s = (Ok (Some f), s') ->
  In (source (declared f)) specialized_adapter_sources.
Proof.
  intros Ha Hrun. simpl in Ha.
  destruct Ha as [<- | [<- | [<- | [<- | [<- | [<- | [<- | []]]]]]]];
    cbn [run_adapter] in Hrun.
  - (* Liquipedia *)
    unfold searchLiquipedia, try_catchM, bindM, lift, ret, no_match in Hrun.
    cbv zeta in Hrun.
    pose proof (liquipediaGame_cases query) as Hgame.
    destruct (liquipediaGame query) as [|c game]; [discriminate Hrun|].
    assert (Hnames : forall g, In g ["counterstrike"; "dota2"; "leagueoflegends";
                                     "valorant"] ->
                               In ("Liquipedia (" ++ g ++ ")")
                                  specialized_adapter_sources).
    { intros g Hin. simpl in Hin.
      destruct Hin as [<- | [<- | [<- | [<- | []]]]]; simpl; tauto. }
    destruct Hgame as [Hq | Hgame]; [discriminate Hq|].
    split_run; same_outcome.
    match goal with
    | Hd : destructure_opensearch _ = Ok (?t, ?d, ?u),
      H : _ = Ok (Some ?f0) |- In (source (declared ?f0)) _ =>
        rewrite (liquipediaLoop_source _ t d u (S (index_bound t)) 0%nat f0 H)
    end.
    apply Hnames. exact Hgame.
  - (* ESPN *)
    unfold searchESPN, searchFeed, try_catchM, bindM, lift, ret, no_match in Hrun.
    split_run; same_outcome.
    match goal with
    | H : first_some _ _ = Some _ |- _ =>
        apply first_some_Some in H; destruct H as (item & _ & Hitem)
    end.
    unfold newsItem in Hitem. split_run; same_outcome; simpl; tauto.
  - (* SportsDB *)
    unfold searchSportsDB, try_catchM, bindM, lift, ret, no_match in Hrun.
    split_run; same_outcome; simpl; tauto.
  - (* PubMed *)
    unfold searchPubMed, try_catchM, bindM, lift, ret, no_match in Hrun.
    split_run; same_outcome; simpl; tauto.
  - (* WHO *)
    unfold searchWHO, searchFeed, try_catchM, bindM, lift, ret, no_match in Hrun.
    split_run; same_outcome.
    match goal with
    | H : first_some _ _ = Some _ |- _ =>
        apply first_some_Some in H; destruct H as (item & _ & Hitem)
    end.
    unfold newsItem in Hitem. split_run; same_outcome; simpl; tauto.
  - (* SEC *)
    unfold searchSEC, try_catchM, bindM, lift, ret, no_match in Hrun.
    split_run; same_outcome.
    match goal with
    | H : secEntry _ _ = Some _ |- _ => unfold secEntry in H
    end.
    split_run; same_outcome; simpl; tauto.
  - (* arXiv *)
    unfold searchArXiv, try_catchM, bindM, lift, ret, no_match in Hrun.
    split_run; same_outcome.
    match goal with
    | H : arxivEntry _ _ = Some _ |- _ => unfold arxivEntry in H
    end.
    split_run; same_outcome; simpl; tauto.
Qed.

End AdapterSources.

(** ** The store: ordering and lookups *)

Section TextOrder.

Lemma string_compare_refl (s : string) : String.compare s s = Eq.
Proof.
  induction s as [|c s IH]; simpl; [reflexivity|].
  unfold Ascii.compare. rewrite N.compare_refl. exact IH.
Qed.

Lemma string_leb_refl (s : string) : String.leb s s = true.
Proof. unfold String.leb. rewrite string_compare_refl. reflexivity. Qed.

Lemma string_leb_trans (a b c : string) :
  String.leb a b = true -> String.leb b c = true -> String.leb a c = true.
Proof.
  unfold String.leb. revert b c.
  induction a as [|x a IH]; intros [|y b] [|z c]; simpl; try congruence.
  unfold Ascii.compare.
  destruct (N.compare_spec (N_of_ascii x) (N_of_ascii y)) as [Hxy|Hxy|Hxy];
    destruct (N.compare_spec (N_of_ascii y) (N_of_ascii z)) as [Hyz|Hyz|Hyz];
    destruct (N.compare_spec (N_of_ascii x) (N_of_ascii z)) as [Hxz|Hxz|Hxz];
    try congruence; try lia.
  apply IH.
Qed.

(** [ltb a b = false] says [b <= a]. *)
Lemma string_ltb_false (a b : string) :
  String.ltb a b = false <-> String.leb b a = true.
Proof.
  unfold String.ltb, String.leb. rewrite (String.compare_antisym b a).
  destruct (String.compare a b); simpl; split; congruence.
Qed.

Lemma string_ltb_true (a b : string) :
  String.ltb a b = true -> String.leb a b = true.
Proof.
  unfold String.ltb, String.leb. destruct (String.compare a b); congruence.
Qed.

End TextOrder.

Section OrderByDesc.

Context {A : Type} (key : A -> string).

Lemma insertDesc_In (x y : A) (l : list A) :
  In y (insertDesc key x l) <-> y = x \/ In y l.
Proof.
  induction l as [|z l IH]; simpl; [intuition|].
  destruct (String.ltb (key x) (key z)); simpl; [rewrite IH|]; intuition.
Qed.

Lemma orderByDesc_In (y : A) (l : list A) :
  In y (orderByDesc key l) <-> In y l.
Proof.
  induction l as [|x l IH]; simpl; [tauto|].
  rewrite insertDesc_In, IH. intuition.
Qed.

Lemma insertDesc_length (x : A) (l : list A) :
  List.length (insertDesc key x l) = S (List.length l).
Proof.
  induction l as [|z l IH]; simpl; [reflexivity|].
  destruct (String.ltb (key x) (key z)); simpl; [rewrite IH|]; reflexivity.
Qed.

Lemma orderByDesc_length (l : list A) :
  List.length (orderByDesc key l) = List.length l.
Proof.
  induction l as [|x l IH]; simpl; [reflexivity|].
  rewrite insertDesc_length, IH. reflexivity.
Qed.

Lemma insertDesc_latestFirst (x : A) (l : list A) :
  latestFirst key l -> latestFirst key (insertDesc key x l).
Proof.
  induction 1 as [|z l Hz Hl IH]; simpl.
  - constructor; [intros y []| constructor].
  - destruct (String.ltb (key x) (key z)) eqn:Hlt.
    + constructor; [|exact IH].
      intros y Hy. apply insertDesc_In in Hy. destruct Hy as [-> | Hy].
      * apply string_ltb_true. exact Hlt.
      * apply Hz. exact Hy.
    + apply string_ltb_false in Hlt.
      constructor; [|constructor; assumption].
      intros y [<- | Hy]; [exact Hlt|].
      eapply string_leb_trans; [apply Hz; exact Hy | exact Hlt].
Qed.

Lemma orderByDesc_latestFirst (l : list A) : latestFirst key (orderByDesc key l).
Proof.
  induction l as [|x l IH]; simpl; [constructor|].
  apply insertDesc_latestFirst. exact IH.
Qed.

(** The first row of the ordered rows is a latest one. *)
Lemma orderByDesc_head (l : list A) (x : A) (rest : list A) :
  orderByDesc key l = x :: rest ->
  In x l /\ forall y, In y l -> String.leb (key y) (key x) = true.
Proof.
  intros Heq. split.
  - apply orderByDesc_In. rewrite Heq. left. reflexivity.
  - intros y Hy. apply orderByDesc_In in Hy. rewrite Heq in Hy.
    pose proof (orderByDesc_latestFirst l) as Hs. rewrite Heq in Hs.
    inversion Hs as [|x' l' Hx Hl]; subst.
    destruct Hy as [<- | Hy]; [apply string_leb_refl | apply Hx; exact Hy].
Qed.

End OrderByDesc.

(** ** The worker leaves the store alone until it inserts *)

Section PreservesDb.

Lemma preserves_ret {A : Type} (a : A) : preserves_db (ret a).
Proof. intros s. reflexivity. Qed.

Lemma preserves_throw {A : Type} (e : thrown) : preserves_db (@throw A e).
Proof. intros s. reflexivity. Qed.

Lemma preserves_lift {A : Type} (r : result A) : preserves_db (lift r).
Proof. intros s. reflexivity. Qed.

Lemma preserves_fetch (w : World) (address : string) : preserves_db (fetch w address).
Proof. intros s. reflexivity. Qed.

Lemma preserves_callCohere (w : World) (p : prompt) : preserves_db (callCohere w p).
Proof. intros s. reflexivity. Qed.

Lemma preserves_bind {A B : Type} (m : M A) (k : A -> M B) :
  preserves_db m -> (forall a, preserves_db (k a)) -> preserves_db (bindM m k).
Proof.
  intros Hm Hk s. unfold bindM. specialize (Hm s).
  destruct (m s) as [[a | e] s1]; simpl in *.
  - rewrite (Hk a s1). exact Hm.
  - exact Hm.
Qed.

Lemma preserves_try {A : Type} (body : M A) (handler : thrown -> M A) :
  preserves_db body -> (forall e, preserves_db (handler e)) ->
  preserves_db (try_catchM body handler).
Proof.
  intros Hm Hk s. unfold try_catchM. specialize (Hm s).
  destruct (body s) as [[a | e] s1]; simpl in *.
  - exact Hm.
  - rewrite (Hk e s1). exact Hm.
Qed.

Lemma preserves_attempt {A : Type} (m : M A) :
  preserves_db m -> preserves_db (attempt m).
Proof.
  intros Hm s. unfold attempt. specialize (Hm s).
  destruct (m s) as [r s1]. exact Hm.
Qed.

End PreservesDb.

Ltac preserves :=
  repeat (cbv zeta;
          first
            [ apply preserves_ret | apply preserves_throw | apply preserves_lift
            | apply preserves_fetch | apply preserves_callCohere
            | apply preserves_attempt
            | apply preserves_try; [|intros ?]
            | apply preserves_bind; [|intros ?]
            | match goal with
              | |- preserves_db (if ?b then _ else _) => destruct b
              | |- preserves_db (match ?x with _ => _ end) => destruct x
              end ]).

Section WorkerProperties.

Variable rt : Runtime.
Variable tx : TextOps.
Variable w : World.

Lemma run_adapter_preserves_db (a : adapter) (query : string) :
  preserves_db (run_adapter rt tx w a query).
Proof.
  destruct a; simpl;
    unfold searchWikipedia, searchDuckDuckGo, searchSnopes, queryWikidata,
      searchLiquipedia, searchESPN, searchWHO, searchFeed, searchSportsDB,
      searchPubMed, searchSEC, searchArXiv, no_match;
    preserves.
Qed.

Lemma collectFrom_spec (claim : string) (adapters : list adapter)
      (externalResults : list EvidenceAtRuntime) (s : State) :
  exists found s',
    collectFrom rt tx w claim adapters externalResults s = (Ok found, s') /\
    db s' = db s /\
    (records_well_typed rt tx w ->
     forallb (fun f => is_text (summaryValue f) && is_text (urlValue f))
             externalResults = true ->
     forallb (fun f => is_text (summaryValue f) && is_text (urlValue f)) found
     = true).
Proof.
  revert externalResults s.
  induction adapters as [|a rest IH]; intros externalResults s; simpl.
  - exists externalResults, s. repeat split. intros _ H. exact H.
  - pose proof (run_adapter_preserves_db a claim s) as Hdb.
    destruct (run_adapter rt tx w a claim s) as [[[r|] | e] s1] eqn:Hrun;
      simpl in Hdb.
    + destruct (IH (externalResults ++ [r])%list s1)
        as (found & s' & Heq & Hs' & Htyped).
      exists found, s'. split; [exact Heq|]. split; [congruence|].
      intros Hw Hacc. apply Htyped; [exact Hw|].
      rewrite forallb_app, Hacc. simpl.
      destruct (Hw _ _ _ _ _ Hrun) as [-> ->]. reflexivity.
    + destruct (IH externalResults s1) as (found & s' & Heq & Hs' & Htyped).
      exists found, s'. split; [exact Heq|]. split; [congruence | exact Htyped].
    + exists externalResults, s1. split; [reflexivity|]. split; [exact Hdb|].
      intros _ H. exact H.
Qed.

Lemma collectFrom_preserves_db (claim : string) (adapters : list adapter)
      (externalResults : list EvidenceAtRuntime) :
  preserves_db (collectFrom rt tx w claim adapters externalResults).
Proof.
  intros s.
  destruct (collectFrom_spec claim adapters externalResults s)
    as (found & s' & Heq & Hdb & _).
  rewrite Heq. exact Hdb.
Qed.

Lemma verifyClaim_preserves_db (claim : string) (context : option string) :
  preserves_db (verifyClaim rt tx w claim context).
Proof.
  unfold verifyClaim. cbv zeta.
  apply preserves_bind; [apply collectFrom_preserves_db|].
  intros found. preserves.
Qed.

Lemma well_typed_usable (found : list EvidenceAtRuntime) :
  forallb (fun f => is_text (summaryValue f) && is_text (urlValue f)) found = true ->
  analyzeAtRuntime found = Ok (analyzeSourceConflicts (map declared found)) /\
  renderRecords tx found = Ok tt.
Proof.
  intros Ht. split.
  - unfold analyzeAtRuntime.
    assert (forallb (fun f => is_text (summaryValue f)) found = true) as ->.
    { apply forallb_forall. intros f Hf.
      apply (proj1 (forallb_forall _ _) Ht) in Hf.
      apply andb_true_iff in Hf. tauto. }
    rewrite orb_true_r. reflexivity.
  - induction found as [|f rest IH]; simpl; [reflexivity|].
    simpl in Ht. apply andb_true_iff in Ht. destruct Ht as [Hf Hrest].
    apply andb_true_iff in Hf. destruct Hf as [Hs Hu].
    destruct (summaryValue f); try discriminate.
    destruct (urlValue f); try discriminate.
    simpl. apply IH. exact Hrest.
Qed.

(** In a world whose records are well typed [verifyClaim] always ends with
    the synthesizer's verdict. *)
Lemma verifyClaim_completes (claim : string) (context : option string) (s : State) :
  records_well_typed rt tx w ->
  exists externalResults model s',
    verifyClaim rt tx w claim context s
    = (Ok (synthesize rt externalResults (analyzeSourceConflicts externalResults)
             model), s').
Proof.
  intros Hw. unfold verifyClaim, bindM.
  destruct (collectFrom_spec claim (selectedAdapters (classify claim)) [] s)
    as (found & s1 & Heq & _ & Htyped).
  rewrite Heq.
  destruct (well_typed_usable found (Htyped Hw eq_refl)) as [Ha Hr].
  unfold lift. rewrite Ha, Hr. unfold attempt, callCohere, ret.
  eexists (map declared found), _, _. reflexivity.
Qed.

End WorkerProperties.

(** ** The degraded verdicts *)



(** ** Cache-first tools *)

Section CacheFirst.

Variable rt : Runtime.
Variable tx : TextOps.

Lemma filter_nil_iff {A : Type} (f : A -> bool) (l : list A) :
  filter f l = [] <-> forall x, In x l -> f x = false.
Proof.
  induction l as [|a l IH]; simpl; [tauto|].
  destruct (f a) eqn:Ha; split.
  - discriminate.
  - intros H. specialize (H a (or_introl eq_refl)). congruence.
  - intros H x [<- | Hx]; [exact Ha | apply IH; assumption].
  - intros H. apply IH. intros x Hx. apply H. right. exact Hx.
Qed.

Lemma filter_key_nil {A : Type} (key : A -> string) (k : string) (l : list A) :
  (forall r, In r l -> key r <> k) ->
  filter (fun r => String.eqb (key r) k) l = [].
Proof.
  intros H. apply filter_nil_iff. intros x Hx. apply String.eqb_neq. apply H. exact Hx.
Qed.

Lemma filter_key_cons {A : Type} (key : A -> string) (k : string) (l : list A) :
  (exists r, In r l /\ key r = k) ->
  exists x rest, filter (fun r => String.eqb (key r) k) l = x :: rest.
Proof.
  intros [r [Hin Hk]].
  destruct (filter (fun r => String.eqb (key r) k) l) as [|x rest] eqn:Hf; eauto.
  assert (In r []) as [].
  rewrite <- Hf. apply filter_In. split; [exact Hin | apply String.eqb_eq; exact Hk].
Qed.

Lemma filter_head_In {A : Type} (f : A -> bool) (l : list A) (x : A) (rest : list A) :
  filter f l = x :: rest -> In x l /\ f x = true.
Proof.
  intros Hf. apply filter_In. rewrite Hf. left. reflexivity.
Qed.

(** *** [verify_claim] *)

Lemma verify_claim_hit (w : World) (claim : string) (context : option string)
      (s : State) :
  (exists r, In r (factChecks (db s)) /\ claimText r = claim) ->
  exists existing,
    In existing (factChecks (db s)) /\ claimText existing = claim /\
    (forall r, In r (factChecks (db s)) -> claimText r = claim ->
               String.leb (createdAt r) (createdAt existing) = true) /\
    verify_claim rt tx w claim context s
    = (Ok (answer (CachedResult (verificationStatus existing)
                     (confidenceScore existing) (sourcesColumn existing)
                     (reasoningColumn existing))),
       log (Selected "fact_checks" claim) s).
Proof.
  intros Hex.
  destruct (filter_key_cons claimText claim _ Hex) as (x & rest & Hf).
  destruct (orderByDesc createdAt (x :: rest)) as [|existing others] eqn:Hsort.
  { apply (f_equal (@List.length _)) in Hsort.
    rewrite orderByDesc_length in Hsort. discriminate. }
  destruct (orderByDesc_head createdAt _ _ _ Hsort) as [Hin Hmax].
  rewrite <- Hf in Hin, Hmax.
  apply filter_In in Hin. destruct Hin as [Hin Hk]. apply String.eqb_eq in Hk.
  exists existing. repeat split; try assumption.
  - intros r Hr Hc. apply Hmax. apply filter_In. split; [exact Hr|].
    apply String.eqb_eq. exact Hc.
  - unfold verify_claim, try_catchM, bindM, selectFactChecksByClaim.
    rewrite Hf, Hsort. reflexivity.
Qed.

Lemma verify_claim_miss (w : World) (claim : string) (context : option string)
      (s : State) :
  (forall r, In r (factChecks (db s)) -> claimText r <> claim) ->
  exists response s',
    verify_claim rt tx w claim context s = (Ok response, s') /\
    (records_well_typed rt tx w -> isError response = false) /\
    ((isError response = true /\ db s' = db s) \/
     (exists result row,
        response
        = answer (VerificationComplete (fc_status result) (fc_confidence result)
                    (fc_sources result) (fc_reasoning result)) /\
        fst (verifyClaim rt tx w claim context (log (Selected "fact_checks" claim) s))
        = Ok result /\
        db s' = mkDatabase (factChecks (db s) ++ [row])%list
                           (webpageAnalyses (db s)) (dailyDigests (db s)) /\
        claimText row = claim /\
        verificationStatus row = fc_status result /\
        confidenceScore row = fc_confidence result /\
        sourcesColumn row = fc_sources result /\
        reasoningColumn row = fc_reasoning result /\
        (forall w' context',
           verify_claim rt tx w' claim context' s'
           = (Ok (answer (CachedResult (fc_status result) (fc_confidence result)
                            (fc_sources result) (fc_reasoning result))),
              log (Selected "fact_checks" claim) s')))).
Proof.
  intros Hmiss.
  pose proof (filter_key_nil claimText claim _ Hmiss) as Hf.
  set (s0 := log (Selected "fact_checks" claim) s).
  pose proof (verifyClaim_preserves_db rt tx w claim context s0) as Hdb1.
  pose proof (verifyClaim_completes rt tx w claim context s0) as Hcomplete.
  unfold verify_claim, try_catchM, bindM, selectFactChecksByClaim.
  rewrite Hf. change (firstn 1 (orderByDesc createdAt (@nil FactCheckRow)))
    with (@nil FactCheckRow). cbv iota beta. fold s0.
  destruct (verifyClaim rt tx w claim context s0) as [[result | e] s1] eqn:Hv;
    cbn [snd] in Hdb1; change (db s0) with (db s) in Hdb1.
  - set (row := mkFactCheckRow (nextId (map fc_id (factChecks (db s)))) claim
                  (fc_status result) (fc_confidence result) (fc_sources result)
                  (fc_reasoning result)
                  (timestamp w (history s1)) (timestamp w (history s1))).
    eexists _, _. split; [reflexivity|]. split; [reflexivity|]. right.
    exists result, row. split; [reflexivity|]. split; [reflexivity|].
    split; [cbn; rewrite Hdb1; reflexivity|].
    repeat split.
    intros w' context'.
    unfold verify_claim, try_catchM, bindM, selectFactChecksByClaim.
    unfold log. cbn [db factChecks]. rewrite Hdb1.
    rewrite filter_app, Hf. simpl. rewrite String.eqb_refl. reflexivity.
  - eexists _, _. split; [reflexivity|]. split.
    + intros Hw. destruct (Hcomplete Hw) as (? & ? & ? & Habs). discriminate Habs.
    + left. split; [reflexivity | exact Hdb1].
Qed.

(** *** [analyze_webpage] *)

Lemma analyze_webpage_hit (w : World) (address : string)
      (focus_areas : option (list string)) (s : State) :
  (exists r, In r (webpageAnalyses (db s)) /\ wa_url r = address) ->
  exists existing,
    In existing (webpageAnalyses (db s)) /\ wa_url existing = address /\
    analyze_webpage rt tx w address focus_areas s
    = (Ok (answer (CachedAnalysis (wa_title existing) (wa_summary existing)
                     (overallCredibility existing) (claimsExtracted existing))),
       log (Selected "webpage_analyses" address) s).
Proof.
  intros Hex.
  destruct (filter_key_cons wa_url address _ Hex) as (existing & rest & Hf).
  destruct (filter_head_In _ _ _ _ Hf) as [Hin Hk]. apply String.eqb_eq in Hk.
  exists existing. repeat split; try assumption.
  unfold analyze_webpage, try_catchM, bindM, selectAnalysesByUrl.
  rewrite Hf. reflexivity.
Qed.

(** The loop over the first claims: one result per claim, in order, unless
    a claim is not a string or [verifyClaim] throws. *)
Lemma verifyEach_spec (w : World) (claims : list value) (title : string)
      (factCheckResults : list ClaimResult) (s : State) :
  (exists new s',
     verifyEach rt tx w claims title factCheckResults s
     = (Ok (factCheckResults ++ new)%list, s') /\
     db s' = db s /\
     map (fun r => VStr (cr_claim r)) new = claims) \/
  (exists e s',
     verifyEach rt tx w claims title factCheckResults s = (Throw e, s') /\
     db s' = db s /\
     (records_well_typed rt tx w ->
      exists c, In c claims /\ forall text, c <> VStr text)).
Proof.
  revert factCheckResults s.
  induction claims as [|c rest IH]; intros factCheckResults s.
  - left. exists [], s. simpl. rewrite app_nil_r. repeat split.
  - destruct c as [| | b | n | claim | items | fields];
      try (right; exists TypeError, s; simpl; repeat split; intros _;
           eexists; split; [left; reflexivity | intros text; discriminate]).
    cbn [verifyEach]. unfold bindM.
    pose proof (verifyClaim_preserves_db rt tx w claim
                  (Some ("From webpage: " ++ title)) s) as Hdb1.
    pose proof (verifyClaim_completes rt tx w claim
                  (Some ("From webpage: " ++ title)) s) as Hcomplete.
    destruct (verifyClaim rt tx w claim (Some ("From webpage: " ++ title)) s)
      as [[result | e] s1]; cbn [snd] in Hdb1.
    + destruct (IH (factCheckResults ++ [mkClaimResult claim result])%list s1)
        as [(new & s' & Heq & Hdb & Hmap) | (e & s' & Heq & Hdb & Hcause)].
      * left. exists (mkClaimResult claim result :: new), s'.
        rewrite Heq, <- app_assoc. simpl. repeat split; [congruence|].
        rewrite Hmap. reflexivity.
      * right. exists e, s'. repeat split; [exact Heq | congruence |].
        intros Hw. destruct (Hcause Hw) as (c & Hc & Hns).
        exists c. split; [right; exact Hc | exact Hns].
    + right. exists e, s1. repeat split; [exact Hdb1|].
      intros Hw. destruct (Hcomplete Hw) as (? & ? & ? & Habs). discriminate Habs.
Qed.

Lemma scrapeWebpage_preserves_db (w : World) (address : string) :
  preserves_db (scrapeWebpage tx w address).
Proof. unfold scrapeWebpage. preserves. Qed.

Lemma existsb_filter_nil {A : Type} (f : A -> bool) (l : list A) :
  filter f l = [] -> existsb f l = false.
Proof.
  intros Hf. destruct (existsb f l) eqn:He; [|reflexivity].
  apply existsb_exists in He. destruct He as [x [Hx Hfx]].
  rewrite (proj1 (filter_nil_iff f l) Hf x Hx) in Hfx. discriminate.
Qed.

(** What [analyze_webpage] does when the address is not in the store. *)
Lemma analyze_webpage_miss (w : World) (address : string)
      (focus_areas : option (list string)) (s : State) :
  (forall r, In r (webpageAnalyses (db s)) -> wa_url r <> address) ->
  exists response s',
    analyze_webpage rt tx w address focus_areas s = (Ok response, s') /\
    ((isError response = true /\ db s' = db s) \/
     (exists row claimsResponse,
        response = answer (AnalysisComplete (wa_title row) (wa_summary row)
                             (overallCredibility row)
                             (List.length (claimsExtracted row))
                             (factCheckResults row)) /\
        db s' = mkDatabase (factChecks (db s))
                           (webpageAnalyses (db s) ++ [row])%list
                           (dailyDigests (db s)) /\
        wa_url row = address /\
        claimsExtracted row = extractClaims rt claimsResponse /\
        map (fun r => VStr (cr_claim r)) (factCheckResults row)
        = firstn 3 (claimsExtracted row) /\
        overallCredibility row
        = credibilityOf (averageConfidence (factCheckResults row)) /\
        (forall w' focus_areas',
           analyze_webpage rt tx w' address focus_areas' s'
           = (Ok (answer (CachedAnalysis (wa_title row) (wa_summary row)
                            (overallCredibility row) (claimsExtracted row))),
              log (Selected "webpage_analyses" address) s')))).
Proof.
  intros Hmiss.
  pose proof (filter_key_nil wa_url address _ Hmiss) as Hf.
  unfold analyze_webpage, try_catchM, bindM, selectAnalysesByUrl.
  rewrite Hf. change (firstn 1 (@nil WebpageAnalysisRow)) with (@nil WebpageAnalysisRow).
  cbv zeta.
  set (s0 := log (Selected "webpage_analyses" address) s).
  pose proof (scrapeWebpage_preserves_db w address s0) as Hdb1.
  destruct (scrapeWebpage tx w address s0) as [[webContent | e1] s1] eqn:Hs1;
    cbn [snd] in Hdb1; change (db s0) with (db s) in Hdb1; try rewrite Hs1.
  2: { eexists _, _; split; [reflexivity|]; left; split;
       [reflexivity | exact Hdb1]. }
  destruct (callCohere w (ExtractPrompt (wc_title webContent)
                            (wc_content webContent) focus_areas) s1)
    as [[claimsResponse | e2] s2] eqn:Hc2; try rewrite Hc2.
  2: { apply (f_equal snd) in Hc2. cbn in Hc2. subst s2.
       eexists _, _; split; [reflexivity|]; left; split;
         [reflexivity | exact Hdb1]. }
  assert (Hdb2 : db s2 = db s).
  { apply (f_equal snd) in Hc2. cbn in Hc2. subst s2. exact Hdb1. }
  clear Hc2.
  destruct (verifyEach_spec w (firstn 3 (extractClaims rt claimsResponse))
              (wc_title webContent) [] s2)
    as [(results & s3 & Heq & Hdb3 & Hmap) | (e3 & s3 & Heq & Hdb3 & _)];
    rewrite Heq.
  2: { eexists _, _; split; [reflexivity|]; left; split;
         [reflexivity | cbn; congruence]. }
  cbn [app].
  match goal with
  | |- context [callCohere w ?p s3] =>
      destruct (callCohere w p s3) as [[summary | e4] s4] eqn:Hc4;
      try rewrite Hc4
  end.
  2: { apply (f_equal snd) in Hc4. cbn in Hc4. subst s4.
       eexists _, _; split; [reflexivity|]; left; split;
         [reflexivity | cbn; congruence]. }
  assert (Hdb4 : db s4 = db s).
  { apply (f_equal snd) in Hc4. cbn in Hc4. subst s4. cbn. congruence. }
  clear Hc4.
  unfold insertAnalysis. rewrite Hdb4.
  rewrite (existsb_filter_nil _ _ Hf).
  eexists _, _. split; [reflexivity|]. right.
  eexists (mkWebpageAnalysisRow _ _ _ _ _ _ _ _), claimsResponse.
  split; [reflexivity|]. split; [reflexivity|]. split; [reflexivity|].
  split; [reflexivity|]. split; [exact Hmap|]. split; [reflexivity|].
  intros w' focus_areas'.
  unfold analyze_webpage, try_catchM, bindM, selectAnalysesByUrl.
  unfold log. cbn [db webpageAnalyses].
  rewrite filter_app, Hf. simpl. rewrite String.eqb_refl. reflexivity.
Qed.

(** [analyze_webpage] ends with a result when the page can be fetched, the
    model answers and the first claims it lists are strings. *)
Lemma analyze_webpage_completes (w : World) (address : string)
      (focus_areas : option (list string)) (s : State) :
  (forall r, In r (webpageAnalyses (db s)) -> wa_url r <> address) ->
  records_well_typed rt tx w ->
  (forall h, exists r html,
      fetch_reply w h address = Ok r /\ ok r = true /\ text r = Ok html) ->
  (forall h p, exists t, cohere_reply w h p = Ok t) ->
  (forall h title body focus t,
      cohere_reply w h (ExtractPrompt title body focus) = Ok t ->
      forall c, In c (firstn 3 (extractClaims rt t)) -> exists claim, c = VStr claim) ->
  exists title summary overall n results s',
    analyze_webpage rt tx w address focus_areas s
    = (Ok (answer (AnalysisComplete title summary overall n results)), s').
Proof.
  intros Hmiss Hw Hfetch Hmodel Hstrings.
  pose proof (filter_key_nil wa_url address _ Hmiss) as Hf.
  unfold analyze_webpage, try_catchM at 1, bindM at 1, selectAnalysesByUrl.
  rewrite Hf. change (firstn 1 (@nil WebpageAnalysisRow)) with (@nil WebpageAnalysisRow).
  cbv zeta beta iota.
  set (s0 := log (Selected "webpage_analyses" address) s).
  assert (Hs1 : exists webContent,
             scrapeWebpage tx w address s0 = (Ok webContent, log (Fetched address) s0)).
  { unfold scrapeWebpage, try_catchM, bindM, fetch.
    destruct (Hfetch (history s0)) as (r & html & Hr & Hok & Htext).
    rewrite Hr, Hok. cbn [negb]. unfold lift. rewrite Htext.
    eexists. reflexivity. }
  destruct Hs1 as (webContent & Hs1).
  unfold bindM at 1. rewrite Hs1.
  set (s1 := log (Fetched address) s0).
  assert (Hdb1 : db s1 = db s) by reflexivity.
  unfold bindM at 1, callCohere at 1.
  destruct (Hmodel (history s1)
              (ExtractPrompt (wc_title webContent) (wc_content webContent) focus_areas))
    as (claimsResponse & Hc2).
  rewrite Hc2. unfold bindM at 1.
  match goal with
  | |- context [verifyEach rt tx w ?claims ?title [] ?st] =>
      destruct (verifyEach_spec w claims title [] st)
        as [(results & s3 & Heq & Hdb3 & Hmap) | (e3 & s3 & Heq & _ & Hcause)]
  end.
  2: { destruct (Hcause Hw) as (c & Hc & Hns).
       destruct (Hstrings _ _ _ _ _ Hc2 c Hc) as (claim & ->).
       exfalso. apply (Hns claim). reflexivity. }
  rewrite Heq. cbn [app].
  unfold bindM at 1, callCohere at 1.
  match goal with
  | |- context [cohere_reply w ?h ?p] =>
      destruct (Hmodel h p) as (summary & Hc4); rewrite Hc4
  end.
  unfold bindM at 1, insertAnalysis.
  cbn [db log]. change (db s3 = db s) in Hdb3. rewrite Hdb3.
  rewrite (existsb_filter_nil _ _ Hf).
  eexists _, _, _, _, _, _. reflexivity.
Qed.

(** *** [generate_daily_digest] *)

Lemma targetDateOf_spec (w : World) (date : option string) (s : State) :
  exists targetDate s0,
    targetDateOf w date s = (Ok targetDate, s0) /\
    db s0 = db s /\
    (forall c rest, date = Some (String c rest) ->
                    targetDate = String c rest /\ s0 = s).
Proof.
  destruct date as [[|c rest]|]; simpl.
  - eexists _, _. split; [reflexivity|]. split; [reflexivity|]. discriminate.
  - exists (String c rest), s. split; [reflexivity|]. split; [reflexivity|].
    intros c' rest' H. injection H as <- <-. split; reflexivity.
  - eexists _, _. split; [reflexivity|]. split; [reflexivity|]. discriminate.
Qed.

Lemma generate_daily_digest_hit (w : World) (date : option string)
      (include_trending : bool) (s s0 : State) (targetDate : string) :
  targetDateOf w date s = (Ok targetDate, s0) ->
  (exists r, In r (dailyDigests (db s)) /\ digestDate r = targetDate) ->
  exists existing,
    In existing (dailyDigests (db s)) /\ digestDate existing = targetDate /\
    generate_daily_digest rt w date include_trending s
    = (Ok (answer (ExistingDigest targetDate (dd_summary existing)
                     (trendingClaims existing))),
       log (Selected "daily_digests" targetDate) s0).
Proof.
  intros Ht Hex.
  destruct (targetDateOf_spec w date s) as (t & s0' & Ht' & Hdb0 & _).
  rewrite Ht in Ht'. injection Ht' as <- <-.
  destruct (filter_key_cons digestDate targetDate _ Hex) as (existing & rest & Hf).
  destruct (filter_head_In _ _ _ _ Hf) as [Hin Hk]. apply String.eqb_eq in Hk.
  exists existing. repeat split; try assumption.
  unfold generate_daily_digest, try_catchM at 1, bindM at 1. rewrite Ht.
  unfold bindM at 1, selectDigestsByDate. cbv beta. rewrite Hdb0, Hf. reflexivity.
Qed.

(** What [generate_daily_digest] does when the date is not in the store. *)
Lemma generate_daily_digest_miss (w : World) (date : option string)
      (include_trending : bool) (s s0 : State) (targetDate : string) :
  targetDateOf w date s = (Ok targetDate, s0) ->
  (forall r, In r (dailyDigests (db s)) -> digestDate r <> targetDate) ->
  exists response s',
    generate_daily_digest rt w date include_trending s = (Ok response, s') /\
    ((isError response = true /\ db s' = db s) \/
     (exists row,
        response
        = answer (DigestGenerated targetDate (dd_summary row) (trendingClaims row)
                    (List.length (recentFactChecks targetDate (factChecks (db s))))
                    (List.length
                       (recentWebpageAnalyses targetDate (webpageAnalyses (db s))))) /\
        db s' = mkDatabase (factChecks (db s)) (webpageAnalyses (db s))
                           (dailyDigests (db s) ++ [row])%list /\
        digestDate row = targetDate /\
        (forall w' include_trending' c rest,
           targetDate = String c rest ->
           generate_daily_digest rt w' (Some targetDate) include_trending' s'
           = (Ok (answer (ExistingDigest targetDate (dd_summary row)
                            (trendingClaims row))),
              log (Selected "daily_digests" targetDate) s')))).
Proof.
  intros Ht Hmiss.
  destruct (targetDateOf_spec w date s) as (t & s0' & Ht' & Hdb0 & _).
  rewrite Ht in Ht'. injection Ht' as <- <-.
  pose proof (filter_key_nil digestDate targetDate _ Hmiss) as Hf.
  unfold generate_daily_digest, try_catchM at 1, bindM at 1. rewrite Ht.
  unfold bindM at 1, selectDigestsByDate. cbv beta. rewrite Hdb0, Hf.
  change (firstn 1 (@nil DailyDigestRow)) with (@nil DailyDigestRow). cbv iota beta.
  unfold bindM at 1, selectFactChecksSince. cbv beta. cbn [db log]. rewrite Hdb0.
  unfold bindM at 1, selectAnalysesSince. cbv beta. cbn [db log]. rewrite Hdb0.
  set (recentChecks := recentFactChecks targetDate (factChecks (db s))).
  set (recentAnalyses := recentWebpageAnalyses targetDate (webpageAnalyses (db s))).
  match goal with
  | |- context [bindM ?m ?k ?st] =>
      assert (Htr : exists trending s3, m st = (Ok trending, s3) /\ db s3 = db s)
  end.
  { destruct (include_trending && nonempty recentChecks).
    - unfold try_catchM, bindM.
      match goal with
      | |- context [callCohere w ?p ?st] =>
          destruct (callCohere w p st) as [[tr | e] s3] eqn:Hc;
          apply (f_equal snd) in Hc; cbn in Hc; subst s3
      end.
      + unfold lift. destruct (JSON_parse rt tr); eexists _, _; split;
          try reflexivity; cbn; exact Hdb0.
      + eexists _, _; split; [reflexivity | cbn; exact Hdb0].
    - eexists _, _; split; [reflexivity | cbn; exact Hdb0]. }
  destruct Htr as (trending & s3 & Htr & Hdb3).
  unfold bindM at 1. rewrite Htr.
  unfold bindM at 1.
  match goal with
  | |- context [callCohere w ?p s3] =>
      destruct (callCohere w p s3) as [[summary | e4] s4] eqn:Hc4;
      try rewrite Hc4
  end.
  2: { apply (f_equal snd) in Hc4. cbn in Hc4. subst s4.
       eexists _, _; split; [reflexivity|]; left; split;
         [reflexivity | cbn; congruence]. }
  assert (Hdb4 : db s4 = db s).
  { apply (f_equal snd) in Hc4. cbn in Hc4. subst s4. cbn. congruence. }
  clear Hc4.
  unfold bindM at 1, insertDigest. rewrite Hdb4.
  rewrite (existsb_filter_nil _ _ Hf).
  eexists _, _. split; [reflexivity|]. right.
  eexists (mkDailyDigestRow _ _ _ _ _).
  split; [reflexivity|]. split; [reflexivity|]. split; [reflexivity|].
  intros w' include_trending' c rest Hd.
  unfold generate_daily_digest, try_catchM at 1, bindM at 1.
  rewrite Hd. cbn [targetDateOf ret]. rewrite <- Hd.
  unfold bindM at 1, selectDigestsByDate.
  unfold log. cbn [db dailyDigests].
  rewrite filter_app, Hf. simpl. rewrite String.eqb_refl. reflexivity.
Qed.

End CacheFirst.

(** ** The pipelines of [analyze_webpage] and [generate_daily_digest] *)

Lemma model_calls_app (h1 h2 : list event) :
  model_calls (h1 ++ h2) = (model_calls h1 ++ model_calls h2)%list.
Proof. unfold model_calls. apply flat_map_app. Qed.

Section Pipeline.

Variable rt : Runtime.
Variable tx : TextOps.
Variable w : World.

Lemma targetDateOf_model_calls (date : option string) (s s0 : State)
      (targetDate : string) :
  targetDateOf w date s = (Ok targetDate, s0) ->
  model_calls (history s0) = model_calls (history s).
Proof.
  destruct date as [[|c rest]|]; cbn [targetDateOf]; unfold ret; intros H;
    injection H as _ <-; cbn [history log];
    try rewrite model_calls_app; cbn; try rewrite app_nil_r; reflexivity.
Qed.

(** What [generate_daily_digest] does for a date without digest when the
    model writes the summary. *)
Lemma generate_daily_digest_generates (date : option string)
      (include_trending : bool) (s s0 : State) (targetDate summary : string) :
  targetDateOf w date s = (Ok targetDate, s0) ->
  (forall r, In r (dailyDigests (db s)) -> digestDate r <> targetDate) ->
  let recentChecks := recentFactChecks targetDate (factChecks (db s)) in
  let recentAnalyses :=
    recentWebpageAnalyses targetDate (webpageAnalyses (db s)) in
  let s3 :=
    log (Selected "webpage_analyses" targetDate)
      (log (Selected "fact_checks" targetDate)
         (log (Selected "daily_digests" targetDate) s0)) in
  let asks := include_trending && nonempty recentChecks in
  let trending :=
    if asks
    then match cohere_reply w (history s3) (trendingPromptOf recentChecks) with
         | Ok trendingResponse =>
             match JSON_parse rt trendingResponse with
             | Ok v => v
             | Throw _ => analysisError
             end
         | Throw _ => analysisError
         end
    else VArr [] in
  let s4 := if asks then log (AskedModel (trendingPromptOf recentChecks)) s3 else s3 in
  cohere_reply w (history s4) (summaryPromptOf targetDate recentChecks recentAnalyses)
  = Ok summary ->
  exists s' row,
    generate_daily_digest rt w date include_trending s
    = (Ok (answer (DigestGenerated targetDate summary trending
                     (List.length recentChecks) (List.length recentAnalyses))), s') /\
    dailyDigests (db s') = (dailyDigests (db s) ++ [row])%list /\
    digestDate row = targetDate /\ dd_summary row = summary /\
    trendingClaims row = trending /\
    model_calls (history s')
    = (model_calls (history s)
       ++ (if asks then [trendingPromptOf recentChecks] else [])
       ++ [summaryPromptOf targetDate recentChecks recentAnalyses])%list.
Proof.
  intros Ht Hmiss recentChecks recentAnalyses s3 asks trending s4 Hsummary.
  destruct (targetDateOf_spec w date s) as (t & s0' & Ht' & Hdb0 & _).
  rewrite Ht in Ht'. injection Ht' as <- <-.
  pose proof (targetDateOf_model_calls date s s0 targetDate Ht) as Hcalls0.
  pose proof (filter_key_nil digestDate targetDate _ Hmiss) as Hf.
  unfold generate_daily_digest, try_catchM at 1, bindM at 1. rewrite Ht.
  unfold bindM at 1, selectDigestsByDate. cbv beta. rewrite Hdb0, Hf.
  change (firstn 1 (@nil DailyDigestRow)) with (@nil DailyDigestRow). cbv iota beta.
  unfold bindM at 1, selectFactChecksSince. cbv beta. cbn [db log]. rewrite Hdb0.
  unfold bindM at 1, selectAnalysesSince. cbv beta. cbn [db log]. rewrite Hdb0.
  fold recentChecks. fold recentAnalyses.
  fold s3.
  assert (Hcalls3 : model_calls (history s3) = model_calls (history s)).
  { unfold s3. cbn [history log]. rewrite !model_calls_app, Hcalls0. cbn.
    rewrite !app_nil_r. reflexivity. }
  assert (Htr : (if include_trending && nonempty recentChecks
                 then
                   try_catchM
                     (bindM (callCohere w
                               (TrendingPrompt
                                  (map (fun check =>
                                          (claimText check, verificationStatus check))
                                       recentChecks)))
                            (fun trendingResponse =>
                               lift (JSON_parse rt trendingResponse)))
                     (fun _ => ret analysisError)
                 else ret (VArr [])) s3
                = (Ok trending, s4)).
  { unfold trending, s4, asks.
    destruct (include_trending && nonempty recentChecks); [|reflexivity].
    unfold try_catchM, bindM, callCohere, lift, ret, trendingPromptOf.
    destruct (cohere_reply w (history s3) _) as [tr | e]; [|reflexivity].
    destruct (JSON_parse rt tr); reflexivity. }
  unfold bindM at 1. rewrite Htr.
  assert (Hdb4 : db s4 = db s).
  { unfold s4. destruct asks; cbn; exact Hdb0. }
  assert (Hcalls4 : model_calls (history s4)
                    = (model_calls (history s)
                       ++ (if asks then [trendingPromptOf recentChecks] else []))%list).
  { unfold s4. destruct asks.
    - cbn [history log]. rewrite model_calls_app, Hcalls3. reflexivity.
    - rewrite app_nil_r. exact Hcalls3. }
  unfold bindM at 1, callCohere.
  change (DigestSummaryPrompt targetDate (List.length recentChecks)
            (List.length recentAnalyses)
            (List.length (filter (statusIs "true") recentChecks))
            (List.length (filter (statusIs "false") recentChecks))
            (List.length
               (filter (fun c => statusIs "mixed" c || statusIs "unverified" c)
                       recentChecks)))
    with (summaryPromptOf targetDate recentChecks recentAnalyses).
  rewrite Hsummary.
  unfold bindM at 1, insertDigest. cbn [db log]. rewrite Hdb4.
  rewrite (existsb_filter_nil _ _ Hf).
  eexists _, (mkDailyDigestRow _ _ _ _ _).
  split; [reflexivity|]. cbn [db dailyDigests log history digestDate dd_summary
                              trendingClaims].
  split; [reflexivity|]. split; [reflexivity|]. split; [reflexivity|].
  split; [reflexivity|].
  rewrite !model_calls_app, Hcalls4. cbn. rewrite !app_nil_r, <- app_assoc.
  reflexivity.
Qed.


(** What it does when the model call for the summary throws. *)
Lemma generate_daily_digest_summary_fails (date : option string)
      (include_trending : bool) (s s0 : State) (targetDate : string) (error : thrown) :
  targetDateOf w date s = (Ok targetDate, s0) ->
  (forall r, In r (dailyDigests (db s)) -> digestDate r <> targetDate) ->
  let recentChecks := recentFactChecks targetDate (factChecks (db s)) in
  let recentAnalyses :=
    recentWebpageAnalyses targetDate (webpageAnalyses (db s)) in
  let s3 :=
    log (Selected "webpage_analyses" targetDate)
      (log (Selected "fact_checks" targetDate)
         (log (Selected "daily_digests" targetDate) s0)) in
  let asks := include_trending && nonempty recentChecks in
  let trending :=
    if asks
    then match cohere_reply w (history s3) (trendingPromptOf recentChecks) with
         | Ok trendingResponse =>
             match JSON_parse rt trendingResponse with
             | Ok v => v
             | Throw _ => analysisError
             end
         | Throw _ => analysisError
         end
    else VArr [] in
  let s4 := if asks then log (AskedModel (trendingPromptOf recentChecks)) s3 else s3 in
  cohere_reply w (history s4) (summaryPromptOf targetDate recentChecks recentAnalyses)
  = Throw error ->
  exists response s',
    generate_daily_digest rt w date include_trending s = (Ok response, s') /\
    isError response = true /\
    db s' = db s.
Proof.
  intros Ht Hmiss recentChecks recentAnalyses s3 asks trending s4 Hsummary.
  destruct (targetDateOf_spec w date s) as (t & s0' & Ht' & Hdb0 & _).
  rewrite Ht in Ht'. injection Ht' as <- <-.
  pose proof (targetDateOf_model_calls date s s0 targetDate Ht) as Hcalls0.
  pose proof (filter_key_nil digestDate targetDate _ Hmiss) as Hf.
  unfold generate_daily_digest, try_catchM at 1, bindM at 1. rewrite Ht.
  unfold bindM at 1, selectDigestsByDate. cbv beta. rewrite Hdb0, Hf.
  change (firstn 1 (@nil DailyDigestRow)) with (@nil DailyDigestRow). cbv iota beta.
  unfold bindM at 1, selectFactChecksSince. cbv beta. cbn [db log]. rewrite Hdb0.
  unfold bindM at 1, selectAnalysesSince. cbv beta. cbn [db log]. rewrite Hdb0.
  fold recentChecks. fold recentAnalyses.
  fold s3.
  assert (Hcalls3 : model_calls (history s3) = model_calls (history s)).
  { unfold s3. cbn [history log]. rewrite !model_calls_app, Hcalls0. cbn.
    rewrite !app_nil_r. reflexivity. }
  assert (Htr : (if include_trending && nonempty recentChecks
                 then
                   try_catchM
                     (bindM (callCohere w
                               (TrendingPrompt
                                  (map (fun check =>
                                          (claimText check, verificationStatus check))
                                       recentChecks)))
                            (fun trendingResponse =>
                               lift (JSON_parse rt trendingResponse)))
                     (fun _ => ret analysisError)
                 else ret (VArr [])) s3
                = (Ok trending, s4)).
  { unfold trending, s4, asks.
    destruct (include_trending && nonempty recentChecks); [|reflexivity].
    unfold try_catchM, bindM, callCohere, lift, ret, trendingPromptOf.
    destruct (cohere_reply w (history s3) _) as [tr | e]; [|reflexivity].
    destruct (JSON_parse rt tr); reflexivity. }
  unfold bindM at 1. rewrite Htr.
  assert (Hdb4 : db s4 = db s).
  { unfold s4. destruct asks; cbn; exact Hdb0. }
  assert (Hcalls4 : model_calls (history s4)
                    = (model_calls (history s)
                       ++ (if asks then [trendingPromptOf recentChecks] else []))%list).
  { unfold s4. destruct asks.
    - cbn [history log]. rewrite model_calls_app, Hcalls3. reflexivity.
    - rewrite app_nil_r. exact Hcalls3. }
  unfold bindM at 1, callCohere.
  change (DigestSummaryPrompt targetDate (List.length recentChecks)
            (List.length recentAnalyses)
            (List.length (filter (statusIs "true") recentChecks))
            (List.length (filter (statusIs "false") recentChecks))
            (List.length
               (filter (fun c => statusIs "mixed" c || statusIs "unverified" c)
                       recentChecks)))
    with (summaryPromptOf targetDate recentChecks recentAnalyses).
  rewrite Hsummary.
  eexists _, _. split; [reflexivity|]. split; [reflexivity|].
  cbn [snd errorAnswer ret db log]. exact Hdb4.
Qed.

(** An error answer of [verify_claim] for a claim that is not in the store
    comes from a throw of [verifyClaim]. *)
Lemma verify_claim_error_cause (claim : string) (context : option string)
      (s s' : State) (response : ToolResponse) :
  (forall r, In r (factChecks (db s)) -> claimText r <> claim) ->
  verify_claim rt tx w claim context s = (Ok response, s') ->
  isError response = true ->
  exists e,
    fst (verifyClaim rt tx w claim context (log (Selected "fact_checks" claim) s))
    = Throw e.
Proof.
  intros Hmiss Hrun Herr.
  pose proof (filter_key_nil claimText claim _ Hmiss) as Hf.
  unfold verify_claim, try_catchM, bindM, selectFactChecksByClaim in Hrun.
  rewrite Hf in Hrun.
  change (firstn 1 (orderByDesc createdAt (@nil FactCheckRow)))
    with (@nil FactCheckRow) in Hrun. cbv iota beta in Hrun.
  destruct (verifyClaim rt tx w claim context (log (Selected "fact_checks" claim) s))
    as [[result | e] s1].
  - cbn in Hrun. injection Hrun as <- _. discriminate Herr.
  - exists e. reflexivity.
Qed.

(** What [analyze_webpage] does when the address is not in the store: the
    page is scraped, the model lists the claims, the first three are
    verified, the model writes the summary, and the row made of these is
    inserted and answered; a failure of one of these steps ends the tool
    with an error answer and nothing stored. *)
Lemma analyze_webpage_pipeline (address : string)
      (focus_areas : option (list string)) (s : State) :
  (forall r, In r (webpageAnalyses (db s)) -> wa_url r <> address) ->
  exists response s',
    analyze_webpage rt tx w address focus_areas s = (Ok response, s') /\
    ((isError response = true /\ db s' = db s /\
      analysis_step_fails rt tx w address focus_areas
        (log (Selected "webpage_analyses" address) s)) \/
     (exists webContent s1 claimsResponse results s3 summary row,
        scrapeWebpage tx w address (log (Selected "webpage_analyses" address) s)
        = (Ok webContent, s1) /\
        cohere_reply w (history s1)
          (ExtractPrompt (wc_title webContent) (wc_content webContent) focus_areas)
        = Ok claimsResponse /\
        verifyEach rt tx w (firstn 3 (extractClaims rt claimsResponse))
          (wc_title webContent) []
          (log (AskedModel (ExtractPrompt (wc_title webContent)
                              (wc_content webContent) focus_areas)) s1)
        = (Ok results, s3) /\
        cohere_reply w (history s3)
          (PageSummaryPrompt (wc_title webContent)
             (List.length (extractClaims rt claimsResponse))
             (credibilityOf (averageConfidence results))
             (averageConfidence results))
        = Ok summary /\
        wa_url row = address /\
        wa_title row = wc_title webContent /\
        wa_summary row = summary /\
        claimsExtracted row = extractClaims rt claimsResponse /\
        overallCredibility row = credibilityOf (averageConfidence results) /\
        factCheckResults row = results /\
        response = answer (AnalysisComplete (wa_title row) (wa_summary row)
                             (overallCredibility row)
                             (List.length (claimsExtracted row))
                             (factCheckResults row)) /\
        db s' = mkDatabase (factChecks (db s))
                           (webpageAnalyses (db s) ++ [row])%list
                           (dailyDigests (db s)) /\
        (forall w' focus_areas',
           analyze_webpage rt tx w' address focus_areas' s'
           = (Ok (answer (CachedAnalysis (wa_title row) (wa_summary row)
                            (overallCredibility row) (claimsExtracted row))),
              log (Selected "webpage_analyses" address) s')))).
Proof.
  intros Hmiss.
  pose proof (filter_key_nil wa_url address _ Hmiss) as Hf.
  unfold analyze_webpage, try_catchM, bindM, selectAnalysesByUrl.
  rewrite Hf. change (firstn 1 (@nil WebpageAnalysisRow)) with (@nil WebpageAnalysisRow).
  cbv zeta.
  set (s0 := log (Selected "webpage_analyses" address) s).
  pose proof (scrapeWebpage_preserves_db tx w address s0) as Hdb1.
  destruct (scrapeWebpage tx w address s0) as [[webContent | e1] s1] eqn:Hs1;
    cbn [snd] in Hdb1; change (db s0) with (db s) in Hdb1; try rewrite Hs1.
  2: { eexists _, _; split; [reflexivity|]; left; split; [reflexivity|];
       split; [exact Hdb1|]. left. exists e1, s1. exact Hs1. }
  destruct (callCohere w (ExtractPrompt (wc_title webContent)
                            (wc_content webContent) focus_areas) s1)
    as [[claimsResponse | e2] s2] eqn:Hc2; try rewrite Hc2;
    unfold callCohere in Hc2; injection Hc2 as Hc2 <-.
  2: { eexists _, _; split; [reflexivity|]; left; split; [reflexivity|];
       split; [exact Hdb1|]. right. exists webContent, s1.
       split; [exact Hs1|]. left. exists e2. exact Hc2. }
  set (s2 := log (AskedModel (ExtractPrompt (wc_title webContent)
                                (wc_content webContent) focus_areas)) s1) in *.
  assert (Hdb2 : db s2 = db s) by exact Hdb1.
  destruct (verifyEach_spec rt tx w (firstn 3 (extractClaims rt claimsResponse))
              (wc_title webContent) [] s2)
    as [(results & s3 & Heq & Hdb3 & Hmap) | (e3 & s3 & Heq & Hdb3 & _)];
    rewrite Heq.
  2: { eexists _, _; split; [reflexivity|]; left; split; [reflexivity|];
       split; [cbn; congruence|]. right. exists webContent, s1.
       split; [exact Hs1|]. right. exists claimsResponse.
       split; [exact Hc2|]. left. exists e3, s3. exact Heq. }
  cbn [app] in *.
  match goal with
  | |- context [callCohere w ?p s3] =>
      destruct (callCohere w p s3) as [[summary | e4] s4] eqn:Hc4;
      try rewrite Hc4;
      unfold callCohere in Hc4; injection Hc4 as Hc4 <-
  end.
  2: { eexists _, _; split; [reflexivity|]; left; split; [reflexivity|];
       split; [cbn; congruence|]. right. exists webContent, s1.
       split; [exact Hs1|]. right. exists claimsResponse.
       split; [exact Hc2|]. right. exists results, s3.
       split; [exact Heq|]. exists e4. exact Hc4. }
  unfold insertAnalysis. cbn [db log]. rewrite Hdb3, Hdb2.
  rewrite (existsb_filter_nil _ _ Hf).
  eexists _, _. split; [reflexivity|]. right.
  eexists webContent, s1, claimsResponse, results, s3, summary,
    (mkWebpageAnalysisRow _ _ _ _ _ _ _ _).
  split; [reflexivity|]. split; [exact Hc2|]. split; [exact Heq|].
  split; [exact Hc4|].
  cbn [wa_url wa_title wa_summary claimsExtracted overallCredibility
       factCheckResults].
  do 6 (split; [reflexivity|]). split; [reflexivity|]. split; [reflexivity|].
  intros w' focus_areas'.
  unfold analyze_webpage, try_catchM, bindM, selectAnalysesByUrl.
  unfold log. cbn [db webpageAnalyses].
  rewrite filter_app, Hf. simpl. rewrite String.eqb_refl. reflexivity.
Qed.

End Pipeline.

(** C1: each of the three tools looks its key up first. When the store
    holds a record under the key (for a claim, a most recent one), the tool
    answers with the stored record's fields, leaves the store unchanged and
    does nothing but that lookup: the history grows by the lookup alone, so
    no adapter is queried, the model is not called, no page is fetched and
    nothing is inserted. When the store holds no record under the key, the
    tool runs its pipeline, inserts what the pipeline produced under the key
    and answers with it, and the same request on the new store is answered
    from the stored record, whatever the world does then:
    - [verify_claim] stores the verdict of [verifyClaim], and produces it
      whenever the evidence records are of their declared type;
    - [analyze_webpage] stores the scraped title, the claims the model
      listed, the verdicts of the first three, the credibility of their
      mean confidence and the model's summary, and produces them whenever
      the page is fetched, the model answers, the first three claims are
      strings and the evidence records are of their declared type;
    - [generate_daily_digest] stores the model's summary of the recent rows
      and the trending claims, and produces them exactly when the model
      call for the summary succeeds.
    A tool ends with an error answer, and then with an unchanged store,
    only when a step of its pipeline throws. *)
Theorem C1_cache_first (rt : Runtime) (tx : TextOps) (w : World) (s : State) :
  (forall claim context,
     (exists r, In r (factChecks (db s)) /\ claimText r = claim) ->
     exists existing,
       In existing (factChecks (db s)) /\ claimText existing = claim /\
       (forall r, In r (factChecks (db s)) -> claimText r = claim ->
                  String.leb (createdAt r) (createdAt existing) = true) /\
       verify_claim rt tx w claim context s
       = (Ok (answer (CachedResult (verificationStatus existing)
                        (confidenceScore existing) (sourcesColumn existing)
                        (reasoningColumn existing))),
          log (Selected "fact_checks" claim) s))
  /\
  (forall claim context,
     (forall r, In r (factChecks (db s)) -> claimText r <> claim) ->
     exists response s',
       verify_claim rt tx w claim context s = (Ok response, s') /\
       (records_well_typed rt tx w -> isError response = false) /\
       ((isError response = true /\ db s' = db s /\
         exists e,
           fst (verifyClaim rt tx w claim context
                  (log (Selected "fact_checks" claim) s))
           = Throw e) \/
        (exists result row,
           response
           = answer (VerificationComplete (fc_status result) (fc_confidence result)
                       (fc_sources result) (fc_reasoning result)) /\
           fst (verifyClaim rt tx w claim context
                  (log (Selected "fact_checks" claim) s))
           = Ok result /\
           db s' = mkDatabase (factChecks (db s) ++ [row])%list
                              (webpageAnalyses (db s)) (dailyDigests (db s)) /\
           claimText row = claim /\
           verificationStatus row = fc_status result /\
           confidenceScore row = fc_confidence result /\
           sourcesColumn row = fc_sources result /\
           reasoningColumn row = fc_reasoning result /\
           (forall w' context',
              verify_claim rt tx w' claim context' s'
              = (Ok (answer (CachedResult (fc_status result) (fc_confidence result)
                               (fc_sources result) (fc_reasoning result))),
                 log (Selected "fact_checks" claim) s')))))
  /\
  (forall address focus_areas,
     (exists r, In r (webpageAnalyses (db s)) /\ wa_url r = address) ->
     exists existing,
       In existing (webpageAnalyses (db s)) /\ wa_url existing = address /\
       analyze_webpage rt tx w address focus_areas s
       = (Ok (answer (CachedAnalysis (wa_title existing) (wa_summary existing)
                        (overallCredibility existing) (claimsExtracted existing))),
          log (Selected "webpage_analyses" address) s))
  /\
  (forall address focus_areas,
     (forall r, In r (webpageAnalyses (db s)) -> wa_url r <> address) ->
     exists response s',
       analyze_webpage rt tx w address focus_areas s = (Ok response, s') /\
       (records_well_typed rt tx w ->
        (forall h, exists r html,
            fetch_reply w h address = Ok r /\ ok r = true /\ text r = Ok html) ->
        (forall h p, exists t, cohere_reply w h p = Ok t) ->
        (forall h title body focus t,
            cohere_reply w h (ExtractPrompt title body focus) = Ok t ->
            forall c, In c (firstn 3 (extractClaims rt t)) ->
                      exists claim, c = VStr claim) ->
        isError response = false) /\
       ((isError response = true /\ db s' = db s /\
         analysis_step_fails rt tx w address focus_areas
           (log (Selected "webpage_analyses" address) s)) \/
        (exists webContent s1 claimsResponse results s3 summary row,
           scrapeWebpage tx w address (log (Selected "webpage_analyses" address) s)
           = (Ok webContent, s1) /\
           cohere_reply w (history s1)
             (ExtractPrompt (wc_title webContent) (wc_content webContent)
                focus_areas)
           = Ok claimsResponse /\
           verifyEach rt tx w (firstn 3 (extractClaims rt claimsResponse))
             (wc_title webContent) []
             (log (AskedModel (ExtractPrompt (wc_title webContent)
                                 (wc_content webContent) focus_areas)) s1)
           = (Ok results, s3) /\
           cohere_reply w (history s3)
             (PageSummaryPrompt (wc_title webContent)
                (List.length (extractClaims rt claimsResponse))
                (credibilityOf (averageConfidence results))
                (averageConfidence results))
           = Ok summary /\
           wa_url row = address /\
           wa_title row = wc_title webContent /\
           wa_summary row = summary /\
           claimsExtracted row = extractClaims rt claimsResponse /\
           overallCredibility row = credibilityOf (averageConfidence results) /\
           factCheckResults row = results /\
           response = answer (AnalysisComplete (wa_title row) (wa_summary row)
                                (overallCredibility row)
                                (List.length (claimsExtracted row))
                                (factCheckResults row)) /\
           db s' = mkDatabase (factChecks (db s))
                              (webpageAnalyses (db s) ++ [row])%list
                              (dailyDigests (db s)) /\
           (forall w' focus_areas',
              analyze_webpage rt tx w' address focus_areas' s'
              = (Ok (answer (CachedAnalysis (wa_title row) (wa_summary row)
                               (overallCredibility row) (claimsExtracted row))),
                 log (Selected "webpage_analyses" address) s')))))
  /\
  (forall date include_trending targetDate s0,
     targetDateOf w date s = (Ok targetDate, s0) ->
     (exists r, In r (dailyDigests (db s)) /\ digestDate r = targetDate) ->
     exists existing,
       In existing (dailyDigests (db s)) /\ digestDate existing = targetDate /\
       generate_daily_digest rt w date include_trending s
       = (Ok (answer (ExistingDigest targetDate (dd_summary existing)
                        (trendingClaims existing))),
          log (Selected "daily_digests" targetDate) s0))
  /\
  (forall date include_trending targetDate s0,
     targetDateOf w date s = (Ok targetDate, s0) ->
     (forall r, In r (dailyDigests (db s)) -> digestDate r <> targetDate) ->
     let recentChecks := recentFactChecks targetDate (factChecks (db s)) in
     let recentAnalyses :=
       recentWebpageAnalyses targetDate (webpageAnalyses (db s)) in
     let s3 :=
       log (Selected "webpage_analyses" targetDate)
         (log (Selected "fact_checks" targetDate)
            (log (Selected "daily_digests" targetDate) s0)) in
     let asks := include_trending && nonempty recentChecks in
     let trending :=
       if asks
       then match cohere_reply w (history s3) (trendingPromptOf recentChecks) with
            | Ok trendingResponse =>
                match JSON_parse rt trendingResponse with
                | Ok v => v
                | Throw _ => analysisError
                end
            | Throw _ => analysisError
            end
       else VArr [] in
     let s4 :=
       if asks then log (AskedModel (trendingPromptOf recentChecks)) s3 else s3 in
     exists response s',
       generate_daily_digest rt w date include_trending s = (Ok response, s') /\
       match cohere_reply w (history s4)
               (summaryPromptOf targetDate recentChecks recentAnalyses) with
       | Throw _ => isError response = true /\ db s' = db s
       | Ok summary =>
           exists row,
             response
             = answer (DigestGenerated targetDate summary trending
                         (List.length recentChecks) (List.length recentAnalyses)) /\
             db s' = mkDatabase (factChecks (db s)) (webpageAnalyses (db s))
                                (dailyDigests (db s) ++ [row])%list /\
             digestDate row = targetDate /\
             dd_summary row = summary /\
             trendingClaims row = trending /\
             (forall w' include_trending' c rest,
                targetDate = String c rest ->
                generate_daily_digest rt w' (Some targetDate) include_trending' s'
                = (Ok (answer (ExistingDigest targetDate summary trending)),
                   log (Selected "daily_digests" targetDate) s'))
       end).
Proof.
  split; [| split; [| split; [| split; [| split]]]].
  - intros claim context. apply verify_claim_hit.
  - intros claim context Hmiss.
    destruct (verify_claim_miss rt tx w claim context s Hmiss)
      as (response & s' & Heq & Hok & [[Herr Hdb] | Hresult]).
    + exists response, s'. split; [exact Heq|]. split; [exact Hok|]. left.
      split; [exact Herr|]. split; [exact Hdb|].
      exact (verify_claim_error_cause rt tx w claim context s s' response Hmiss
               Heq Herr).
    + exists response, s'. split; [exact Heq|]. split; [exact Hok|]. right.
      exact Hresult.
  - intros address focus_areas. apply analyze_webpage_hit.
  - intros address focus_areas Hmiss.
    destruct (analyze_webpage_pipeline rt tx w address focus_areas s Hmiss)
      as (response & s' & Heq & Hcases).
    exists response, s'. split; [exact Heq|]. split; [|exact Hcases].
    intros Hw Hfetch Hmodel Hstrings.
    destruct (analyze_webpage_completes rt tx w address focus_areas s Hmiss Hw
                Hfetch Hmodel Hstrings)
      as (title & summary & overall & n & results & s1 & Hrun).
    rewrite Hrun in Heq. injection Heq as <- _. reflexivity.
  - intros date include_trending targetDate s0. apply generate_daily_digest_hit.
  - intros date include_trending targetDate s0 Ht Hmiss
           recentChecks recentAnalyses s3 asks trending s4.
    destruct (cohere_reply w (history s4)
                (summaryPromptOf targetDate recentChecks recentAnalyses))
      as [summary | error] eqn:Hsummary.
    + destruct (generate_daily_digest_generates rt w date include_trending s s0
                  targetDate summary Ht Hmiss Hsummary)
        as (s' & row & Heq & Hrows & Hdate & Hsum & Htrending & _).
      destruct (generate_daily_digest_miss rt w date include_trending s s0
                  targetDate Ht Hmiss)
        as (response & s1 & Heq' & [[Herr _] | (row' & Hresp & Hdb & _ & Hcached)]);
        rewrite Heq in Heq'; injection Heq' as <- <-.
      { discriminate Herr. }
      injection Hresp as Hs Ht'.
      exists (answer (DigestGenerated targetDate summary trending
                        (List.length recentChecks) (List.length recentAnalyses))), s'.
      split; [exact Heq|].
      assert (Hrow : row' = row).
      { rewrite Hdb in Hrows. cbn [dailyDigests] in Hrows.
        apply app_inj_tail in Hrows. destruct Hrows as [_ Hr]. exact Hr. }
      subst row'. exists row.
      split; [reflexivity|]. split; [exact Hdb|]. split; [exact Hdate|].
      split; [exact Hsum|]. split; [exact Htrending|].
      intros w' include_trending' c rest Hd.
      rewrite (Hcached w' include_trending' c rest Hd), Hsum, Htrending.
      reflexivity.
    + destruct (generate_daily_digest_summary_fails rt w date include_trending s s0
                  targetDate error Ht Hmiss Hsummary)
        as (response & s' & Heq & Herr & Hdb).
      exists response, s'. split; [exact Heq|]. split; assumption.
Qed.

(** A first request in a world without network is answered with a degraded
    verdict, which is stored; the second request is answered from the store
    and the history grows by the lookup alone. *)
Example verify_twice_offline :
  let first :=
    verify_claim sample_runtime sample_text offline_world "The Sun" None initial_state in
  let second :=
    verify_claim sample_runtime sample_text offline_world "The Sun" None (snd first) in
  option_map content (match fst first with Ok r => Some r | Throw _ => None end)
  = Some (VerificationComplete (VStr "unverified") (Fin 0) []
            (VStr "Error during verification: fetch failed")) /\
  option_map content (match fst second with Ok r => Some r | Throw _ => None end)
  = Some (CachedResult (VStr "unverified") (Fin 0) []
            (VStr "Error during verification: fetch failed")) /\
  db (snd second) = db (snd first) /\
  history (snd second)
  = (history (snd first) ++ [Selected "fact_checks" "The Sun"])%list.
Proof. vm_compute. repeat split. Qed.

(** An evidence record that is not of its declared type: the encyclopedic
    source answers with a number where a text is expected, a second record
    is found, the conflict analysis throws on the number and the tool ends
    with an error answer; nothing is stored. *)
Example verify_claim_untyped_summary :
  let run :=
    verify_claim sample_runtime sample_text untyped_world "The Sun" None initial_state in
  option_map isError (match fst run with Ok r => Some r | Throw _ => None end)
  = Some true
  /\ db (snd run) = empty_db.
Proof. vm_compute. split; reflexivity. Qed.

(** ** The records a digest aggregates *)

Section RecentRecords.

Lemma prefix_leb (p ts : string) :
  prefix p ts = true -> String.leb p ts = true.
Proof.
  unfold String.leb. revert ts.
  induction p as [|c p IH]; intros [|c' ts]; simpl; try congruence.
  destruct (ascii_dec c c') as [<- | Hne]; [|discriminate].
  intros Hp. unfold Ascii.compare. rewrite N.compare_refl. apply IH. exact Hp.
Qed.

Lemma In_firstn {A : Type} (n : nat) (l : list A) (x : A) :
  In x (firstn n l) -> In x l.
Proof.
  intros Hin. rewrite <- (firstn_skipn n l). apply in_or_app. left. exact Hin.
Qed.

Lemma latestFirst_firstn_skipn {A : Type} (key : A -> string) (n : nat) (l : list A) :
  latestFirst key l ->
  forall x y, In x (firstn n l) -> In y (skipn n l) ->
              String.leb (key y) (key x) = true.
Proof.
  intros Hl. revert n. induction Hl as [|a l Ha Hl IH]; intros n x y.
  - rewrite firstn_nil. intros [].
  - destruct n as [|n]; simpl; [intros []|].
    intros [<- | Hx] Hy.
    + apply Ha. rewrite <- (firstn_skipn n l). apply in_or_app. right. exact Hy.
    + apply (IH n); assumption.
Qed.

Context {A : Type} (key : A -> string).

(** The query [where(gte(key, targetDate)).orderBy(desc(key)).limit(n)]. *)
Lemma recent_rows (n : nat) (targetDate : string) (rows : list A) :
  let since := filter (fun r => String.leb targetDate (key r)) rows in
  let recent := firstn n (orderByDesc key since) in
  (forall r, In r recent ->
             In r rows /\ String.leb targetDate (key r) = true) /\
  List.length recent = Nat.min n (List.length since) /\
  latestFirst key recent /\
  ((List.length since <= n)%nat ->
   forall r, In r rows -> String.leb targetDate (key r) = true -> In r recent) /\
  (forall r r', In r recent -> In r' rows ->
                String.leb targetDate (key r') = true -> ~ In r' recent ->
                String.leb (key r') (key r) = true).
Proof.
  intros since recent.
  assert (Hsorted : latestFirst key (orderByDesc key since))
    by apply orderByDesc_latestFirst.
  split; [| split; [| split; [| split]]].
  - intros r Hr. apply In_firstn, orderByDesc_In in Hr.
    apply filter_In in Hr. exact Hr.
  - unfold recent. rewrite length_firstn, orderByDesc_length. reflexivity.
  - unfold recent. clear -Hsorted. revert n.
    induction Hsorted as [|a l Ha Hl IH]; intros n.
    + rewrite firstn_nil. constructor.
    + destruct n as [|n]; simpl; constructor; [|apply IH].
      intros y Hy. apply Ha. eapply In_firstn. exact Hy.
  - intros Hlen r Hr Hle. unfold recent.
    rewrite firstn_all2 by (rewrite orderByDesc_length; exact Hlen).
    apply orderByDesc_In. apply filter_In. split; assumption.
  - intros r r' Hr Hr' Hle Hout.
    apply (latestFirst_firstn_skipn key n _ Hsorted r r' Hr).
    assert (Hin : In r' (orderByDesc key since))
      by (apply orderByDesc_In, filter_In; split; assumption).
    rewrite <- (firstn_skipn n (orderByDesc key since)) in Hin.
    apply in_app_or in Hin. destruct Hin as [Hin | Hin]; [|exact Hin].
    contradiction.
Qed.

End RecentRecords.

(** C9 (as stated, refuted): the store holds one verdict, created on the
    fifth of January; the digest for the first of January aggregates it
    (one fact-check counted), although it was not created on that day. *)
Lemma C9_later_record_aggregated :
  prefix "2024-01-01" (createdAt later_check) = false /\
  recentFactChecks "2024-01-01" (factChecks (db later_state)) = [later_check] /\
  option_map content
    (match fst (generate_daily_digest sample_runtime wiki_world
                  (Some "2024-01-01") true later_state) with
     | Ok r => Some r
     | Throw _ => None
     end)
  = Some (DigestGenerated "2024-01-01" text_confidence_05
            (payload_value (VNum (Fin 0.5)) []) 1 0).
Proof. vm_compute. repeat split. Qed.

(** C9 (amended): the verdicts a new digest aggregates are the stored
    verdicts whose creation timestamp is, as text, at or after the target
    date, latest first and at most 20 of them; the analyses likewise, at
    most 10. So no record created before the target day is included, every
    record created within the target day qualifies, records created on later
    days qualify too, all qualifying records are included when they are at
    most 20 (10), and otherwise the ones left out are no later than the
    ones included. The counts the digest reports are the sizes of these
    two lists. *)
Theorem C9_digest_aggregates_since
    (rt : Runtime) (w : World) (s s0 : State) (date : option string)
    (include_trending : bool) (targetDate : string) :
  let facts := factChecks (db s) in
  let pages := webpageAnalyses (db s) in
  let recentChecks := recentFactChecks targetDate facts in
  let recentAnalyses := recentWebpageAnalyses targetDate pages in
  (forall r, In r recentChecks ->
             In r facts /\ String.leb targetDate (createdAt r) = true) /\
  (forall r, In r recentAnalyses ->
             In r pages /\ String.leb targetDate (analyzedAt r) = true) /\
  (forall ts, prefix targetDate ts = true -> String.leb targetDate ts = true) /\
  List.length recentChecks
  = Nat.min 20 (List.length
                  (filter (fun r => String.leb targetDate (createdAt r)) facts)) /\
  List.length recentAnalyses
  = Nat.min 10 (List.length
                  (filter (fun r => String.leb targetDate (analyzedAt r)) pages)) /\
  latestFirst createdAt recentChecks /\
  latestFirst analyzedAt recentAnalyses /\
  ((List.length (filter (fun r => String.leb targetDate (createdAt r)) facts)
    <= 20)%nat ->
   forall r, In r facts -> String.leb targetDate (createdAt r) = true ->
             In r recentChecks) /\
  ((List.length (filter (fun r => String.leb targetDate (analyzedAt r)) pages)
    <= 10)%nat ->
   forall r, In r pages -> String.leb targetDate (analyzedAt r) = true ->
             In r recentAnalyses) /\
  (forall r r', In r recentChecks -> In r' facts ->
                String.leb targetDate (createdAt r') = true ->
                ~ In r' recentChecks ->
                String.leb (createdAt r') (createdAt r) = true) /\
  (forall r r', In r recentAnalyses -> In r' pages ->
                String.leb targetDate (analyzedAt r') = true ->
                ~ In r' recentAnalyses ->
                String.leb (analyzedAt r') (analyzedAt r) = true) /\
  (targetDateOf w date s = (Ok targetDate, s0) ->
   (forall r, In r (dailyDigests (db s)) -> digestDate r <> targetDate) ->
   forall response s',
     generate_daily_digest rt w date include_trending s = (Ok response, s') ->
     isError response = false ->
     exists summary trending,
       content response
       = DigestGenerated targetDate summary trending
           (List.length recentChecks) (List.length recentAnalyses)).
Proof.
  intros facts pages recentChecks recentAnalyses.
  destruct (recent_rows createdAt 20 targetDate facts) as (F1 & F2 & F3 & F4 & F5).
  destruct (recent_rows analyzedAt 10 targetDate pages) as (P1 & P2 & P3 & P4 & P5).
  repeat match goal with |- _ /\ _ => split end;
    try assumption.
  - apply prefix_leb.
  - intros Ht Hmiss response s' Hrun Hok.
    destruct (generate_daily_digest_miss rt w date include_trending s s0 targetDate
                Ht Hmiss)
      as (response' & s'' & Hrun' & [[Herr _] | (row & Hresp & _)]);
      rewrite Hrun in Hrun'; injection Hrun' as <- <-.
    + congruence.
    + rewrite Hresp. eexists _, _. reflexivity.
Qed.

Lemma C9_digest_aggregates_since_witness :
  In later_check (recentFactChecks "2024-01-01" (factChecks (db later_state))).
Proof.
  destruct (C9_digest_aggregates_since sample_runtime wiki_world later_state
              later_state (Some "2024-01-01") true "2024-01-01")
    as (_ & _ & _ & _ & _ & _ & _ & Hall & _).
  apply Hall.
  - vm_compute. lia.
  - left. reflexivity.
  - reflexivity.
Defined.

(** C10: when the address is not in the store and [analyze_webpage] ends
    with a result, the stored row holds all the extracted claims, the
    answer and the row hold the same fact-check results, one for each of
    the first three extracted claims in order, so their number is the
    minimum of 3 and the number of extracted claims; and the tool does end
    with a result when the page can be fetched, the model answers, the
    first three extracted claims are strings and the evidence records are
    of their declared type. *)
Theorem C10_first_three_claims_checked
    (rt : Runtime) (tx : TextOps) (w : World) (address : string)
    (focus_areas : option (list string)) (s : State) :
  (forall r, In r (webpageAnalyses (db s)) -> wa_url r <> address) ->
  (forall title summary overall n results s',
     analyze_webpage rt tx w address focus_areas s
     = (Ok (answer (AnalysisComplete title summary overall n results)), s') ->
     exists row,
       webpageAnalyses (db s') = (webpageAnalyses (db s) ++ [row])%list /\
       factCheckResults row = results /\
       List.length (claimsExtracted row) = n /\
       List.length results = Nat.min 3 n /\
       map (fun r => VStr (cr_claim r)) results = firstn 3 (claimsExtracted row))
  /\
  (records_well_typed rt tx w ->
   (forall h, exists r html,
       fetch_reply w h address = Ok r /\ ok r = true /\ text r = Ok html) ->
   (forall h p, exists t, cohere_reply w h p = Ok t) ->
   (forall h title body focus t,
       cohere_reply w h (ExtractPrompt title body focus) = Ok t ->
       forall c, In c (firstn 3 (extractClaims rt t)) -> exists claim, c = VStr claim) ->
   exists title summary overall n results s',
     analyze_webpage rt tx w address focus_areas s
     = (Ok (answer (AnalysisComplete title summary overall n results)), s')).
Proof.
  intros Hmiss. split.
  - intros title summary overall n results s' Hrun.
    destruct (analyze_webpage_miss rt tx w address focus_areas s Hmiss)
      as (response & s'' & Hrun' &
          [[Herr _] | (row & cr & Hresp & Hdb & _ & _ & Hmap & _)]);
      rewrite Hrun in Hrun'; injection Hrun' as <- <-.
    + discriminate Herr.
    + injection Hresp as -> -> -> -> ->.
      exists row. rewrite Hdb. cbn [webpageAnalyses].
      repeat split; try reflexivity; [| exact Hmap].
      rewrite <- (length_map (fun r => VStr (cr_claim r))), Hmap.
      apply length_firstn.
  - apply analyze_webpage_completes. exact Hmiss.
Qed.

(** In [page_world] no payload is JSON and no feed has items: no adapter
    finds a record. *)
Lemma page_world_well_typed :
  records_well_typed sample_runtime sample_text page_world.
Proof.
  intros a query s f s' Hrun. exfalso.
  destruct a; cbn [run_adapter] in Hrun;
    unfold searchWikipedia, searchDuckDuckGo, searchSnopes, queryWikidata,
      searchLiquipedia, searchESPN, searchWHO, searchFeed, searchSportsDB,
      searchPubMed, searchSEC, searchArXiv, try_catchM, bindM, lift, fetch, ret,
      no_match in Hrun;
    try (destruct (liquipediaGame query));
    cbn [encodeURIComponent cleanQuery matchItems matchEntries sample_text
         fetch_reply page_world ok json text negb first_some firstn] in Hrun;
    discriminate Hrun.
Qed.

Lemma C10_first_three_claims_checked_witness :
  exists title summary overall n results s',
    analyze_webpage sample_runtime sample_text page_world "https://p.example" None
      initial_state
    = (Ok (answer (AnalysisComplete title summary overall n results)), s').
Proof.
  apply (proj2 (C10_first_three_claims_checked sample_runtime sample_text page_world
                  "https://p.example" None initial_state (fun r H => match H with end))).
  - apply page_world_well_typed.
  - intros h. eexists _, _. repeat split.
  - intros h p. destruct p; eexists; reflexivity.
  - intros h title body focus t Ht c Hc.
    injection Ht as <-. vm_compute in Hc.
    destruct Hc as [<- | [<- | [<- | []]]]; eexists; reflexivity.
Defined.

(** Five claims are extracted, all five are stored, three are checked. *)
Example five_claims_three_checked :
  match analyze_webpage sample_runtime sample_text page_world "https://p.example" None
          initial_state with
  | (Ok (mkToolResponse (AnalysisComplete _ _ _ n results) false), s') =>
      n = 5%nat /\
      map cr_claim results = ["claim one"; "claim two"; "claim three"] /\
      map claimsExtracted (webpageAnalyses (db s')) = [five_claims] /\
      map (fun row => map cr_claim (factCheckResults row)) (webpageAnalyses (db s'))
      = [["claim one"; "claim two"; "claim three"]]
  | _ => False
  end.
Proof. vm_compute. repeat split. Qed.

(** ** The cache-first tools at work *)

(** A stored claim and a stored digest are answered from the store; a
    first request for a claim, for a page and for a digest ends with a
    result, which is stored, and the same request is then answered from the
    store in every world. *)
Lemma C1_cache_first_witness :
  (exists existing,
     In existing (factChecks (db stored_state)) /\
     claimText existing = "The Sun rises in the east" /\
     (forall r, In r (factChecks (db stored_state)) ->
                claimText r = "The Sun rises in the east" ->
                String.leb (createdAt r) (createdAt existing) = true) /\
     verify_claim sample_runtime sample_text offline_world
       "The Sun rises in the east" None stored_state
     = (Ok (answer (CachedResult (verificationStatus existing)
                      (confidenceScore existing) (sourcesColumn existing)
                      (reasoningColumn existing))),
        log (Selected "fact_checks" "The Sun rises in the east") stored_state)) /\
  (exists response s' row,
     verify_claim sample_runtime sample_text page_world "The Sun is hot" None
       initial_state
     = (Ok response, s') /\
     isError response = false /\
     factChecks (db s') = [row] /\
     forall w' context',
       verify_claim sample_runtime sample_text w' "The Sun is hot" context' s'
       = (Ok (answer (CachedResult (verificationStatus row) (confidenceScore row)
                        (sourcesColumn row) (reasoningColumn row))),
          log (Selected "fact_checks" "The Sun is hot") s')) /\
  (exists response s' row,
     analyze_webpage sample_runtime sample_text page_world "https://p.example" None
       initial_state
     = (Ok response, s') /\
     isError response = false /\
     webpageAnalyses (db s') = [row] /\
     forall w' focus_areas',
       analyze_webpage sample_runtime sample_text w' "https://p.example"
         focus_areas' s'
       = (Ok (answer (CachedAnalysis (wa_title row) (wa_summary row)
                        (overallCredibility row) (claimsExtracted row))),
          log (Selected "webpage_analyses" "https://p.example") s')) /\
  (exists existing,
     In existing (dailyDigests (db digest_state)) /\
     generate_daily_digest sample_runtime offline_world (Some "2024-01-02") true
       digest_state
     = (Ok (answer (ExistingDigest "2024-01-02" (dd_summary existing)
                      (trendingClaims existing))),
        log (Selected "daily_digests" "2024-01-02") digest_state)) /\
  (exists response s' row,
     generate_daily_digest sample_runtime wiki_world (Some "2024-01-01") true
       initial_state
     = (Ok response, s') /\
     response = answer (DigestGenerated "2024-01-01" text_confidence_05 (VArr []) 0 0) /\
     db s' = mkDatabase [] [] [row] /\
     digestDate row = "2024-01-01" /\
     dd_summary row = text_confidence_05 /\
     trendingClaims row = VArr [] /\
     forall w' include_trending',
       generate_daily_digest sample_runtime w' (Some "2024-01-01")
         include_trending' s'
       = (Ok (answer (ExistingDigest "2024-01-01" text_confidence_05 (VArr []))),
          log (Selected "daily_digests" "2024-01-01") s')).
Proof.
  split; [| split; [| split; [| split]]].
  - apply (proj1 (C1_cache_first sample_runtime sample_text offline_world stored_state)
             "The Sun rises in the east" None).
    exists stored_check. split; [left; reflexivity | reflexivity].
  - destruct (proj1 (proj2 (C1_cache_first sample_runtime sample_text page_world
                              initial_state))
                "The Sun is hot" None (fun r H => match H with end))
      as (response & s' & Heq & Hok &
          [(Herr & _) | (result & row & _ & _ & Hdb & _ & Hst & Hco & Hso & Hre
                         & Hcached)]).
    { rewrite (Hok page_world_well_typed) in Herr. discriminate Herr. }
    exists response, s', row. split; [exact Heq|].
    split; [apply Hok; apply page_world_well_typed|].
    split; [rewrite Hdb; reflexivity|].
    intros w' context'. rewrite Hst, Hco, Hso, Hre. apply Hcached.
  - destruct (proj1 (proj2 (proj2 (proj2 (C1_cache_first sample_runtime sample_text
                                            page_world initial_state))))
                "https://p.example" None (fun r H => match H with end))
      as (response & s' & Heq & Hcomplete & Hcases).
    assert (Hok : isError response = false).
    { apply Hcomplete.
      + apply page_world_well_typed.
      + intros h. eexists _, _. repeat split.
      + intros h p. destruct p; eexists; reflexivity.
      + intros h title body focus t Ht c Hc.
        injection Ht as <-. vm_compute in Hc.
        destruct Hc as [<- | [<- | [<- | []]]]; eexists; reflexivity. }
    destruct Hcases
      as [(Herr & _) | (webContent & s1 & claimsResponse & results & s3 & summary
                        & row & _ & _ & _ & _ & _ & _ & _ & _ & _ & _ & _ & Hdb
                        & Hcached)].
    { rewrite Hok in Herr. discriminate Herr. }
    exists response, s', row. split; [exact Heq|]. split; [exact Hok|].
    split; [rewrite Hdb; reflexivity | exact Hcached].
  - destruct (proj1 (proj2 (proj2 (proj2 (proj2
                (C1_cache_first sample_runtime sample_text offline_world
                   digest_state)))))
                (Some "2024-01-02") true "2024-01-02" digest_state eq_refl)
      as (existing & Hin & _ & Heq).
    { exists object_digest. split; [left; reflexivity | reflexivity]. }
    exists existing. split; [exact Hin | exact Heq].
  - destruct (proj2 (proj2 (proj2 (proj2 (proj2
                (C1_cache_first sample_runtime sample_text wiki_world
                   initial_state)))))
                (Some "2024-01-01") true "2024-01-01" initial_state eq_refl
                (fun r H => match H with end))
      as (response & s' & Heq & Hcase).
    cbn [cohere_reply wiki_world] in Hcase.
    destruct Hcase as (row & Hresp & Hdb & Hdate & Hsum & Htrending & Hcached).
    exists response, s', row.
    split; [exact Heq|]. split; [exact Hresp|]. split; [exact Hdb|].
    split; [exact Hdate|]. split; [exact Hsum|]. split; [exact Htrending|].
    intros w' include_trending'.
    exact (Hcached w' include_trending' "2"%char "024-01-01" eq_refl).
Defined.

(** * Further properties of the worker *)

(** ** Case analysis of computations *)

Ltac case_steps :=
  repeat (cbv beta in *;
          match goal with
          | H : context [match ?x with _ => _ end] |- _ => destruct x eqn:?
          | H : context [if ?b then _ else _] |- _ => destruct b eqn:?
          end; try discriminate).

Ltac same_results :=
  repeat (match goal with
          | H : (_, _) = (_, _) |- _ => injection H; clear H; intros
          | H : Ok _ = Ok _ |- _ => injection H; clear H; intros
          | H : Some _ = Some _ |- _ => injection H; clear H; intros
          end; subst; try discriminate).

Ltac unfold_adapters H :=
  unfold searchWikipedia, searchDuckDuckGo, searchSnopes, queryWikidata,
    searchLiquipedia, searchESPN, searchWHO, searchFeed, searchSportsDB,
    searchPubMed, searchSEC, searchArXiv, try_catchM, bindM, lift, ret,
    no_match in H.

(** ** Text lengths *)

Lemma string_length_append (a b : string) :
  String.length (a ++ b) = (String.length a + String.length b)%nat.
Proof.
  induction a as [|c a IH]; simpl; [reflexivity | rewrite IH; reflexivity].
Qed.

Lemma substring_length_le (n m : nat) (s : string) :
  (String.length (substring n m s) <= m)%nat.
Proof.
  revert n m. induction s as [|c s IH]; intros n m.
  - destruct n, m; simpl; lia.
  - destruct n as [|n]; simpl.
    + destruct m as [|m]; simpl; [lia|]. specialize (IH 0%nat m). lia.
    + apply IH.
Qed.

(** ** What the adapters write into their records *)

Section AdapterRecords.

Variable rt : Runtime.
Variable tx : TextOps.
Variable w : World.

Lemma liquipediaLoop_weight (game : string) (titles descriptions urls : value)
      (fuel i : nat) (f : EvidenceAtRuntime) :
  liquipediaLoop rt tx game titles descriptions urls fuel i = Ok (Some f) ->
  confidence (declared f) = 0.85.
Proof.
  revert i. induction fuel as [|fuel IH]; intros i; simpl; [discriminate|].
  unfold bind at 1.
  destruct (get_prop titles "length") as [len|]; [|discriminate].
  unfold bind at 1.
  destruct (ToNumber rt len) as [n|]; [|discriminate].
  destruct (JsMath.gtb n (inject_Z (Z.of_nat i))); [|discriminate].
  unfold bind at 1.
  destruct (liquipediaEntry tx game titles descriptions urls i)
    as [[found|]|] eqn:Hentry; try discriminate.
  - intros H. injection H as <-.
    unfold liquipediaEntry, bind in Hentry.
    case_steps. same_results. reflexivity.
  - apply IH.
Qed.

Lemma first_some_found {A B : Type} (g : A -> option B) (xs : list A) (b : B) :
  first_some g xs = Some b -> exists x, In x xs /\ g x = Some b.
Proof.
  induction xs as [|x rest IH]; simpl; [discriminate|].
  destruct (g x) as [b'|] eqn:Hgx.
  - intros H. injection H as <-. exists x. split; [left; reflexivity | exact Hgx].
  - intros H. destruct (IH H) as (y & Hy & Hgy). exists y. split; [right|]; assumption.
Qed.

(** X7: every record an adapter returns carries one of the confidence
    weights written in that adapter (0.8 for the encyclopedic source, 0.7
    or 0.6 for the instant answer, 0.9 for the fact-check feed, and so on),
    so the confidence of an evidence record always lies between 0.6 and
    0.95. *)
Theorem X7_adapter_weight (a : adapter) (query : string) (s s' : State)
      (f : EvidenceAtRuntime) :
  run_adapter rt tx w a query s = (Ok (Some f), s') ->
  In (confidence (declared f)) (adapter_weights a) /\
  0.6 <= confidence (declared f) /\ confidence (declared f) <= 0.95.
Proof.
  intros Hrun.
  assert (Hin : In (confidence (declared f)) (adapter_weights a)).
  { destruct a; cbn [run_adapter] in Hrun; unfold_adapters Hrun; cbv zeta in Hrun.
    - case_steps; same_results; simpl; tauto.
    - case_steps; same_results; simpl; tauto.
    - case_steps; same_results.
      match goal with
      | H : first_some _ _ = Some _ |- _ =>
          apply first_some_found in H; destruct H as (item & _ & Hitem)
      end.
      unfold snopesItem in Hitem. case_steps; same_results; simpl; tauto.
    - case_steps; same_results; simpl; tauto.
    - destruct (liquipediaGame query) as [|c game]; [discriminate Hrun|].
      case_steps; same_results.
      match goal with
      | Hd : destructure_opensearch _ = Ok (?t, ?d, ?u),
        H : _ = Ok (Some ?f0) |- In (confidence (declared ?f0)) _ =>
          rewrite (liquipediaLoop_weight _ t d u (S (index_bound t)) 0%nat f0 H)
      end.
      simpl. tauto.
    - case_steps; same_results.
      match goal with
      | H : first_some _ _ = Some _ |- _ =>
          apply first_some_found in H; destruct H as (item & _ & Hitem)
      end.
      unfold newsItem in Hitem. case_steps; same_results; simpl; tauto.
    - case_steps; same_results; simpl; tauto.
    - case_steps; same_results; simpl; tauto.
    - case_steps; same_results.
      match goal with
      | H : first_some _ _ = Some _ |- _ =>
          apply first_some_found in H; destruct H as (item & _ & Hitem)
      end.
      unfold newsItem in Hitem. case_steps; same_results; simpl; tauto.
    - case_steps; same_results.
      match goal with
      | H : secEntry _ _ = Some _ |- _ => unfold secEntry in H
      end.
      case_steps; same_results; simpl; tauto.
    - case_steps; same_results.
      match goal with
      | H : arxivEntry _ _ = Some _ |- _ => unfold arxivEntry in H
      end.
      case_steps; same_results; simpl; tauto. }
  split; [exact Hin|].
  destruct a; simpl in Hin;
    repeat match goal with
           | H : _ \/ _ |- _ => destruct H as [H | H]
           | H : False |- _ => destruct H
           end;
    rewrite <- Hin; split; discriminate.
Qed.

End AdapterRecords.

Lemma X7_adapter_weight_witness :
  In 0.8 (adapter_weights Wikipedia) /\ 0.6 <= 0.8 /\ 0.8 <= 0.95.
Proof.
  apply (X7_adapter_weight sample_runtime sample_text wiki_world Wikipedia "The Sun"
           initial_state
           (snd (run_adapter sample_runtime sample_text wiki_world Wikipedia
                   "The Sun" initial_state))
           (textEvidence "Wikipedia" None "The Sun is a star"
              "https://en.wikipedia.org/wiki/The%20Sun" 0.8)).
  reflexivity.
Defined.

(** ** What the adapters and [verifyClaim] do to the outside world *)

Section Requests.

Variable rt : Runtime.
Variable tx : TextOps.
Variable w : World.

Ltac trace_of_log :=
  first
    [ exists (@nil event); split;
      [ cbn [snd history log]; rewrite app_nil_r; reflexivity
      | split; [reflexivity | cbn; lia] ]
    | eexists [_]; split;
      [ cbn [snd history log]; reflexivity
      | split; [reflexivity | cbn; lia] ]
    | eexists [_; _]; split;
      [ cbn [snd history log]; rewrite <- app_assoc; reflexivity
      | split; [reflexivity | cbn; lia] ] ].

Lemma run_adapter_requests (a : adapter) (query : string) (s : State) :
  exists evs,
    history (snd (run_adapter rt tx w a query s)) = (history s ++ evs)%list /\
    forallb is_fetch evs = true /\
    (List.length evs <= adapter_requests a)%nat.
Proof.
  destruct (run_adapter rt tx w a query s) as [r s'] eqn:Hrun.
  destruct a; cbn [run_adapter] in Hrun; unfold_adapters Hrun; unfold fetch in Hrun;
    cbv zeta in Hrun;
    try (destruct (liquipediaGame query));
    case_steps; unfold ret in *; same_results; trace_of_log.
Qed.

(** X12: an adapter does nothing but send requests: at most one, and
    [searchPubMed] at most two; it never asks the model and never reads or
    writes the store. *)
Theorem X12_adapter_effects (a : adapter) (query : string) (s : State) :
  exists requests,
    history (snd (run_adapter rt tx w a query s)) = (history s ++ requests)%list /\
    forallb is_fetch requests = true /\
    (List.length requests <= adapter_requests a)%nat /\
    (List.length requests <= 2)%nat /\
    db (snd (run_adapter rt tx w a query s)) = db s.
Proof.
  destruct (run_adapter_requests a query s) as (evs & Hh & Hf & Hn).
  exists evs. split; [exact Hh|]. split; [exact Hf|]. split; [exact Hn|].
  split; [destruct a; cbn [adapter_requests] in Hn; lia|].
  apply run_adapter_preserves_db.
Qed.

Lemma collectFrom_requests (claim : string) (adapters : list adapter)
      (externalResults : list EvidenceAtRuntime) (s : State) :
  exists found s' evs,
    collectFrom rt tx w claim adapters externalResults s = (Ok found, s') /\
    history s' = (history s ++ evs)%list /\
    forallb is_fetch evs = true /\
    (List.length evs <= request_bound adapters)%nat /\
    (List.length found <= List.length externalResults + List.length adapters)%nat.
Proof.
  revert externalResults s.
  induction adapters as [|a rest IH]; intros externalResults s.
  - exists externalResults, s, []. cbn. rewrite app_nil_r.
    repeat split; lia.
  - destruct (run_adapter_requests a claim s) as (evs1 & Hh1 & Hf1 & Hn1).
    cbn [collectFrom].
    destruct (run_adapter rt tx w a claim s) as [[[r|] | e] s1] eqn:Hrun;
      cbn [snd] in Hh1.
    + destruct (IH (externalResults ++ [r])%list s1)
        as (found & s' & evs & Heq & Hh & Hf & Hn & Hlen).
      exists found, s', (evs1 ++ evs)%list.
      split; [exact Heq|]. split; [rewrite Hh, Hh1, app_assoc; reflexivity|].
      split; [rewrite forallb_app, Hf1, Hf; reflexivity|].
      rewrite !length_app in *. unfold request_bound, list_sum in *.
      cbn [map fold_right List.length] in *. split; lia.
    + destruct (IH externalResults s1)
        as (found & s' & evs & Heq & Hh & Hf & Hn & Hlen).
      exists found, s', (evs1 ++ evs)%list.
      split; [exact Heq|]. split; [rewrite Hh, Hh1, app_assoc; reflexivity|].
      split; [rewrite forallb_app, Hf1, Hf; reflexivity|].
      rewrite !length_app in *. unfold request_bound, list_sum in *.
      cbn [map fold_right List.length] in *. split; lia.
    + exists externalResults, s1, evs1.
      split; [reflexivity|]. split; [exact Hh1|]. split; [exact Hf1|].
      unfold request_bound, list_sum. cbn [map fold_right List.length]. split; lia.
Qed.

Lemma selectedAdapters_bounds (t : ClaimType) :
  (request_bound (selectedAdapters t) <= 12)%nat /\
  (List.length (selectedAdapters t) <= 11)%nat.
Proof.
  destruct t as [[] [] [] [] []]; cbn; lia.
Qed.

(** X1: one run of [verifyClaim] sends at most twelve requests to the
    evidence sources and nothing else before the model is asked; when it
    returns a verdict the model has been asked exactly once, after the last
    request, with a prompt that holds the claim, the context and at most
    eleven evidence records; when it throws the model has not been asked;
    the store is never written. *)
Theorem X1_verifyClaim_requests (claim : string) (context : option string)
      (s : State) :
  exists fetches,
    forallb is_fetch fetches = true /\
    (List.length fetches <= 12)%nat /\
    db (snd (verifyClaim rt tx w claim context s)) = db s /\
    match fst (verifyClaim rt tx w claim context s) with
    | Ok _ =>
        exists externalResults conflictAnalysis,
          (List.length externalResults <= 11)%nat /\
          history (snd (verifyClaim rt tx w claim context s))
          = (history s ++ fetches
             ++ [AskedModel (VerifyPrompt claim context externalResults
                               conflictAnalysis (classify claim))])%list
    | Throw _ =>
        history (snd (verifyClaim rt tx w claim context s))
        = (history s ++ fetches)%list
    end.
Proof.
  pose proof (verifyClaim_preserves_db rt tx w claim context s) as Hdb.
  destruct (collectFrom_requests claim (selectedAdapters (classify claim)) [] s)
    as (found & s1 & evs & Heq & Hh & Hf & Hn & Hlen).
  destruct (selectedAdapters_bounds (classify claim)) as [Hb1 Hb2].
  exists evs. split; [exact Hf|]. split; [lia|]. split; [exact Hdb|].
  unfold verifyClaim, bindM. rewrite Heq. unfold lift.
  destruct (analyzeAtRuntime found) as [conflictAnalysis|e]; [|exact Hh].
  destruct (renderRecords tx found) as [[]|e]; [|exact Hh].
  unfold attempt, callCohere, ret. cbn [fst snd history log].
  exists (map declared found), conflictAnalysis.
  split; [rewrite length_map; cbn [List.length] in Hlen; lia|].
  rewrite Hh, app_assoc. reflexivity.
Qed.

End Requests.

(** ** Single adapters *)

Ltac offline_steps Hoff :=
  repeat (cbv beta in *;
          match goal with
          | E : fetch_reply _ _ _ = Ok ?r, B : negb (ok ?r) = false |- _ =>
              rewrite (Hoff _ _ _ E) in B; discriminate B
          | H : context [match ?x with _ => _ end] |- _ => destruct x eqn:?
          | H : context [if ?b then _ else _] |- _ => destruct b eqn:?
          end; try discriminate).

Section SingleAdapters.

Variable rt : Runtime.
Variable tx : TextOps.
Variable w : World.

(** X2: when no request is answered with an OK response (each one is
    rejected or answered with an error status), every adapter reports no
    match, on every query. *)
Theorem X2_no_ok_response_no_record (a : adapter) (query : string) (s : State) :
  (forall h u r, fetch_reply w h u = Ok r -> ok r = false) ->
  fst (run_adapter rt tx w a query s) = Ok None.
Proof.
  intros Hoff.
  destruct (run_adapter rt tx w a query s) as [r s'] eqn:Hrun.
  destruct a; cbn [run_adapter] in Hrun; unfold_adapters Hrun; unfold fetch in Hrun;
    cbv zeta in Hrun;
    try (destruct (liquipediaGame query));
    offline_steps Hoff; unfold ret in *; same_results; reflexivity.
Qed.

(** X3: for a query of ASCII characters, [searchLiquipedia] sends no
    request and reports no match when the query names none of the games it
    knows, whatever else the query says: a claim routed to it by a word
    such as tournament, major, esports or gaming alone gets nothing from
    it. (A character outside ASCII can fold to a letter of a game's name:
    the Kelvin sign folds to k.) *)
Theorem X3_liquipedia_needs_game (query : string) (s : State) :
  is_ascii_text query = true ->
  any_keyword (toLowerCase query) game_keywords = false ->
  searchLiquipedia rt tx w query s = (Ok None, s).
Proof.
  intros _. unfold any_keyword, game_keywords. cbn [existsb]. intros H.
  repeat (apply orb_false_iff in H; destruct H as [? H]).
  unfold searchLiquipedia, liquipediaGame, try_catchM. cbv zeta.
  repeat match goal with
         | E : includes _ _ = false |- _ => rewrite E; clear E
         end.
  reflexivity.
Qed.

Lemma filter_none {A : Type} (f : A -> bool) (l : list A) :
  forallb (fun x => negb (f x)) l = true -> filter f l = [].
Proof.
  induction l as [|x rest IH]; simpl; [reflexivity|].
  intros H. apply andb_true_iff in H. destruct H as [Hx Hrest].
  apply negb_true_iff in Hx. rewrite Hx. apply IH. exact Hrest.
Qed.

(** X4: a query that has no word longer than three characters matches the
    first item of a feed whatever the item says: each of the three feed
    adapters then returns a record made of the feed's first item. *)
Theorem X4_short_query_takes_first_item (a : adapter) (query : string) (s : State)
      (response : Response) (rssText item : string) (rest : list string) :
  In a [Snopes; ESPN; WHO] ->
  forallb (fun word => negb (3 <? String.length word)%nat)
          (splitSpaces tx (toLowerCase query)) = true ->
  (forall u, fetch_reply w (history s) u = Ok response) ->
  ok response = true ->
  text response = Ok rssText ->
  matchItems tx rssText = item :: rest ->
  exists f,
    fst (run_adapter rt tx w a query s) = Ok (Some f) /\
    url (declared f) = captured (capture tx LinkTag item) EmptyString.
Proof.
  intros Ha Hshort Hfetch Hok Htext Hitems.
  assert (Hwords : queryWordsOf tx query = [])
    by (unfold queryWordsOf; apply filter_none; exact Hshort).
  simpl in Ha.
  destruct Ha as [<- | [<- | [<- | []]]]; cbn [run_adapter];
    unfold searchSnopes, searchESPN, searchWHO, searchFeed, try_catchM, bindM,
      fetch, lift, ret;
    rewrite Hfetch, Hok; cbn [negb]; rewrite Htext, Hwords, Hitems;
    cbn [firstn first_some]; unfold snopesItem, newsItem, feedItemMatches;
    cbn [filter List.length Nat.min Nat.leb];
    eexists; split; reflexivity.
Qed.

(** X5: a record of [searchSnopes] is named Snopes, holds strings, has a
    summary of at most 303 characters, and its verdict label is absent or
    one of False, True and Mixed; a label that is present is never empty,
    so a labelled record always counts as a fact-check verdict. *)
Theorem X5_snopes_record (query : string) (s s' : State) (f : EvidenceAtRuntime) :
  searchSnopes tx w query s = (Ok (Some f), s') ->
  source (declared f) = "Snopes" /\
  In (verdict (declared f)) [None; Some "False"; Some "True"; Some "Mixed"] /\
  (verdict (declared f) <> None -> verdict_truthy (declared f) = true) /\
  (String.length (summary (declared f)) <= 303)%nat /\
  summaryValue f = VStr (summary (declared f)) /\
  urlValue f = VStr (url (declared f)).
Proof.
  intros Hrun. unfold_adapters Hrun. unfold fetch in Hrun. cbv zeta in Hrun.
  case_steps; unfold ret in *; same_results.
  match goal with
  | H : first_some _ _ = Some _ |- _ =>
      apply first_some_found in H; destruct H as (item & _ & Hitem)
  end.
  unfold snopesItem in Hitem. cbv zeta in Hitem.
  destruct (feedItemMatches _ _ _); [|discriminate Hitem].
  injection Hitem as <-. cbn [declared textEvidence source verdict summary url
                              summaryValue urlValue].
  split; [reflexivity|].
  assert (Hlen : (String.length
                    (substring 0 300
                       (stripTags tx
                          (captured (capture tx CdataDescription item) EmptyString))
                     ++ "...") <= 303)%nat).
  { rewrite string_length_append.
    pose proof (substring_length_le 0 300
                  (stripTags tx
                     (captured (capture tx CdataDescription item) EmptyString))).
    change (String.length "...") with 3%nat. lia. }
  unfold snopesVerdict, verdict_truthy. cbn [verdict].
  cbv zeta.
  repeat match goal with
         | |- context [includes ?a ?b] => destruct (includes a b)
         end; cbn [orb]; cbv beta iota; cbn [In];
    (split; [tauto|]); (split; [intros; try reflexivity; congruence|]);
    (split; [exact Hlen | split; reflexivity]).
Qed.

Lemma opt_prop_total (v : value) (key : string) : exists x, opt_prop v key = Ok x.
Proof.
  destruct v; cbn [opt_prop]; eauto; apply get_prop_object; discriminate.
Qed.

(** X6: [searchWikipedia] returns a record for every OK response whose
    JSON body is neither [null] nor missing, whatever the body holds; a
    body without an extract gives the summary [No summary available], and
    a body without page address gives the address of the article named by
    the encoded query. *)
Theorem X6_wikipedia_any_body (query encoded : string) (s : State)
      (response : Response) (data : value) :
  encodeURIComponent tx (cleanQuery tx query) = Ok encoded ->
  fetch_reply w (history s)
    ("https://en.wikipedia.org/api/rest_v1/page/summary/" ++ encoded)
  = Ok response ->
  ok response = true ->
  json response = Ok data ->
  data <> VNull -> data <> VUndefined ->
  exists f,
    fst (searchWikipedia tx w query s) = Ok (Some f) /\
    source (declared f) = "Wikipedia" /\
    confidence (declared f) = 0.8 /\
    (get_prop data "extract" = Ok VUndefined ->
     summaryValue f = VStr "No summary available") /\
    (get_prop data "content_urls" = Ok VUndefined ->
     urlValue f = VStr ("https://en.wikipedia.org/wiki/" ++ encoded)).
Proof.
  intros Henc Hfetch Hok Hjson Hn Hu.
  destruct (get_prop_object data "extract" Hn Hu) as (extract & Hextract).
  destruct (get_prop_object data "content_urls" Hn Hu) as (urls & Hurls).
  destruct (opt_prop_total urls "desktop") as (desktop & Hdesktop).
  destruct (opt_prop_total desktop "page") as (page & Hpage).
  unfold searchWikipedia, try_catchM, bindM, fetch, lift, ret.
  rewrite Henc, Hfetch, Hok. cbn [negb].
  rewrite Hjson, Hextract, Hurls, Hdesktop, Hpage.
  eexists. split; [reflexivity|]. cbn [fst declared castEvidence source confidence
                                        summaryValue urlValue].
  split; [reflexivity|]. split; [reflexivity|]. split.
  - intros H. injection H as ->. reflexivity.
  - intros H. injection H as ->. cbn in Hdesktop. injection Hdesktop as <-.
    cbn in Hpage. injection Hpage as <-. reflexivity.
Qed.

End SingleAdapters.

Lemma X2_no_ok_response_no_record_witness :
  fst (run_adapter sample_runtime sample_text unavailable_world PubMed "aspirin"
         initial_state)
  = Ok None.
Proof.
  apply (X2_no_ok_response_no_record sample_runtime sample_text unavailable_world
           PubMed "aspirin" initial_state).
  intros h u r H. injection H as <-. reflexivity.
Defined.

Lemma X3_liquipedia_needs_game_witness :
  searchLiquipedia sample_runtime sample_text wiki_world
    "the esports tournament final" initial_state
  = (Ok None, initial_state).
Proof.
  apply (X3_liquipedia_needs_game sample_runtime sample_text wiki_world
           "the esports tournament final" initial_state); reflexivity.
Defined.

Lemma X4_short_query_takes_first_item_witness :
  exists f,
    fst (run_adapter sample_runtime feed_text feed_world Snopes "is it so"
           initial_state)
    = Ok (Some f) /\
    url (declared f) = "https://www.snopes.com/fact-check/moon".
Proof.
  exact (X4_short_query_takes_first_item sample_runtime feed_text feed_world Snopes
           "is it so" initial_state
           (mkResponse true "OK" (Throw (ErrorObj "SyntaxError")) (Ok moon_feed))
           moon_feed moon_item []
           (or_introl eq_refl) eq_refl (fun _ => eq_refl) eq_refl eq_refl eq_refl).
Defined.

Lemma X5_snopes_record_witness :
  let f := textEvidence "Snopes" (Some "False") "The claim is false..."
             "https://www.snopes.com/fact-check/moon" 0.9 in
  source (declared f) = "Snopes" /\
  In (verdict (declared f)) [None; Some "False"; Some "True"; Some "Mixed"] /\
  (verdict (declared f) <> None -> verdict_truthy (declared f) = true) /\
  (String.length (summary (declared f)) <= 303)%nat /\
  summaryValue f = VStr (summary (declared f)) /\
  urlValue f = VStr (url (declared f)).
Proof.
  intros f.
  apply (X5_snopes_record feed_text feed_world "moon landing" initial_state
           (snd (searchSnopes feed_text feed_world "moon landing" initial_state)) f).
  reflexivity.
Defined.

Lemma X6_wikipedia_any_body_witness :
  exists f,
    fst (searchWikipedia sample_text wiki_world "The Sun" initial_state)
    = Ok (Some f) /\
    source (declared f) = "Wikipedia" /\
    confidence (declared f) = 0.8 /\
    (get_prop (VObj [("extract", VStr "The Sun is a star")]) "extract"
     = Ok VUndefined ->
     summaryValue f = VStr "No summary available") /\
    (get_prop (VObj [("extract", VStr "The Sun is a star")]) "content_urls"
     = Ok VUndefined ->
     urlValue f = VStr ("https://en.wikipedia.org/wiki/" ++ "The%20Sun")).
Proof.
  apply (X6_wikipedia_any_body sample_text wiki_world "The Sun" "The%20Sun"
           initial_state
           (mkResponse true "OK" (Ok (VObj [("extract", VStr "The Sun is a star")]))
              (Ok EmptyString))
           (VObj [("extract", VStr "The Sun is a star")]));
    try reflexivity; discriminate.
Defined.

(** ** [scrapeWebpage] *)

(** X8: [scrapeWebpage] sends exactly one request, to the address it is
    given, and leaves the store alone. It returns a page only when that
    request was answered with an OK response; the page carries the address
    and at most 5000 characters of content. Every failure (a rejected
    request, an error status, an unreadable body) leaves it as an [Error]
    whose message starts with [Failed to scrape webpage: ]. *)
Theorem X8_scrapeWebpage_outcome (tx : TextOps) (w : World) (address : string)
      (s : State) :
  snd (scrapeWebpage tx w address s) = log (Fetched address) s /\
  match fst (scrapeWebpage tx w address s) with
  | Ok page =>
      wc_url page = address /\
      (String.length (wc_content page) <= 5000)%nat /\
      exists response,
        fetch_reply w (history s) address = Ok response /\ ok response = true
  | Throw error =>
      exists message, error = ErrorObj ("Failed to scrape webpage: " ++ message)
  end.
Proof.
  unfold scrapeWebpage, try_catchM, bindM, fetch, lift, ret, throw.
  destruct (fetch_reply w (history s) address) as [response | e].
  - destruct (ok response) eqn:Hok; cbn [negb].
    + destruct (text response) as [html | e]; cbn [fst snd].
      * split; [reflexivity|]. split; [reflexivity|].
        split; [apply substring_length_le|].
        exists response. split; [reflexivity | exact Hok].
      * split; [reflexivity|]. eexists. reflexivity.
    + cbn [fst snd]. split; [reflexivity|]. eexists. reflexivity.
  - cbn [fst snd]. split; [reflexivity|]. eexists. reflexivity.
Qed.

(** ** The verdict, whatever the model answers *)


Lemma push_evidence_urls_keeps (allSources : list value)
      (externalResults : list ExternalFactCheckResult) (v : value) :
  In v allSources -> In v (push_evidence_urls allSources externalResults).
Proof.
  revert allSources. induction externalResults as [|r rest IH]; intros allSources Hin;
    simpl; [exact Hin|].
  apply IH. destruct (includes_url allSources (url r)); [exact Hin|].
  apply in_or_app. left. exact Hin.
Qed.

Lemma push_evidence_urls_covers (allSources : list value)
      (externalResults : list ExternalFactCheckResult) (r : ExternalFactCheckResult) :
  In r externalResults ->
  In (VStr (url r)) (push_evidence_urls allSources externalResults).
Proof.
  revert allSources. induction externalResults as [|x rest IH]; intros allSources;
    simpl; [tauto|].
  intros [-> | Hin]; [|apply IH; exact Hin].
  apply push_evidence_urls_keeps.
  destruct (includes_url allSources (url r)) eqn:Hinc.
  - apply includes_url_In. exact Hinc.
  - apply in_or_app. right. left. reflexivity.
Qed.

Lemma js_or_truthy (a b : value) : truthy b = true -> truthy (js_or a b) = true.
Proof.
  intros Hb. unfold js_or. destruct (truthy a) eqn:Ha; assumption.
Qed.

(** X9: the verdict [verifyClaim] builds is complete whatever the model
    does (it throws, answers with text that is not JSON, answers with JSON
    of any shape): the status and the reasoning are never empty, absent or
    otherwise falsy, and the sources hold the URL of every evidence
    record. *)
Theorem X9_verdict_always_complete (rt : Runtime)
      (externalResults : list ExternalFactCheckResult)
      (conflictAnalysis : ConflictAnalysis) (model : result string) :
  let v := synthesize rt externalResults conflictAnalysis model in
  truthy (fc_status v) = true /\
  truthy (fc_reasoning v) = true /\
  forall r, In r externalResults -> In (VStr (url r)) (fc_sources v).
Proof.
  assert (Hfallback : forall response,
             let v := parseFallback response externalResults in
             truthy (fc_status v) = true /\
             truthy (fc_reasoning v) = true /\
             forall r, In r externalResults -> In (VStr (url r)) (fc_sources v)).
  { intros response. cbn [parseFallback fc_status fc_reasoning fc_sources].
    split; [reflexivity|]. split; [apply js_or_truthy; reflexivity|].
    intros r Hr. unfold evidenceUrls.
    apply (in_map (fun r => VStr (url r))). exact Hr. }
  unfold synthesize. destruct model as [response | error].
  - destruct (JSON_parse rt response) as [parsed | e]; cbn [bind];
      [|apply Hfallback].
    unfold verdictFromParsed.
    destruct (get_prop parsed "sources") as [parsedSources | e]; cbn [bind];
      [|apply Hfallback].
    destruct (reportedConfidence rt parsed) as [reported | e]; cbn [bind];
      [|apply Hfallback].
    destruct (get_prop parsed "status") as [parsedStatus | e]; cbn [bind];
      [|apply Hfallback].
    destruct (get_prop parsed "reasoning") as [parsedReasoning | e]; cbn [bind];
      [|apply Hfallback].
    cbn [fc_status fc_reasoning fc_sources].
    split; [apply js_or_truthy; reflexivity|].
    split; [apply js_or_truthy; reflexivity|].
    intros r Hr. apply push_evidence_urls_covers. exact Hr.
  - cbn [callFailure fc_status fc_reasoning fc_sources].
    split; [reflexivity|]. split; [reflexivity|].
    intros r Hr. unfold evidenceUrls.
    apply (in_map (fun r => VStr (url r))). exact Hr.
Qed.

(** *** Confidence under conflict *)

Lemma sum_confidence_le (externalResults : list ExternalFactCheckResult) :
  (forall r, In r externalResults -> confidence r <= 1) ->
  fold_right (fun r a => confidence r + a) 0 externalResults
  <= inject_Z (Z.of_nat (List.length externalResults)).
Proof.
  induction externalResults as [|r rest IH]; intros Hall.
  - simpl. apply Qle_refl.
  - cbn [fold_right List.length].
    assert (Hr : confidence r <= 1) by (apply Hall; left; reflexivity).
    assert (Hrest : fold_right (fun r a => confidence r + a) 0 rest
                    <= inject_Z (Z.of_nat (List.length rest)))
      by (apply IH; intros x Hx; apply Hall; right; exact Hx).
    rewrite Nat2Z.inj_succ. unfold Z.succ. rewrite inject_Z_plus.
    change (inject_Z 1) with 1. lra.
Qed.

Lemma avgExternalConfidence_le (externalResults : list ExternalFactCheckResult) :
  externalResults <> [] ->
  (forall r, In r externalResults -> confidence r <= 1) ->
  avgExternalConfidence externalResults <= 1.
Proof.
  intros Hne Hall. unfold avgExternalConfidence.
  rewrite fold_left_confidence.
  assert (Hpos : 0 < inject_Z (Z.of_nat (List.length externalResults))).
  { destruct externalResults as [|r rest]; [congruence|].
    change 0 with (inject_Z 0). rewrite <- Zlt_Qlt. cbn [List.length]. lia. }
  apply Qle_shift_div_r; [exact Hpos|].
  pose proof (sum_confidence_le externalResults Hall). lra.
Qed.

(** X10: when the sources conflict, the floors for specialized sources
    and for fact-check verdicts are not applied, and a verdict built from
    the model's JSON gets a confidence between 0.3 and 0.7, provided the
    model reports a number that is at most 1 and no evidence record
    weighs more than 1 (the adapters' weights are at most 0.95). *)
Theorem X10_conflict_confidence_band (rt : Runtime)
      (externalResults : list ExternalFactCheckResult)
      (conflictAnalysis : ConflictAnalysis)
      (response : string) (parsed : value) (reported : Q) :
  JSON_parse rt response = Ok parsed ->
  parsed <> VNull -> parsed <> VUndefined ->
  reportedConfidence rt parsed = Ok (Fin reported) ->
  reported <= 1 ->
  (forall r, In r externalResults -> confidence r <= 1) ->
  hasConflicts conflictAnalysis = true ->
  exists q,
    fc_confidence (synthesize rt externalResults conflictAnalysis (Ok response))
    = Fin q /\ 0.3 <= q /\ q <= 0.7.
Proof.
  intros Hparse Hn Hu Hrep Hle Hall Hconf.
  destruct (synthesize_success rt externalResults conflictAnalysis response parsed
              (Fin reported) Hparse Hn Hu Hrep) as (srcs & st & rs & _ & Hsyn).
  rewrite Hsyn, Hconf. cbn [fc_confidence]. unfold adjustConfidence.
  cbn [negb]. rewrite andb_false_r.
  assert (Hraised : exists x,
             (if nonempty externalResults
              then JsMath.max (Fin reported)
                     (Fin (avgExternalConfidence externalResults * 0.8))
              else Fin reported) = Fin x /\ x <= 1).
  { destruct externalResults as [|r rest].
    - exists reported. split; [reflexivity | exact Hle].
    - change (nonempty (r :: rest)) with true. cbv iota.
      pose proof (avgExternalConfidence_le (r :: rest) ltac:(discriminate) Hall)
        as Havg.
      unfold JsMath.max.
      destruct (Qle_bool reported (avgExternalConfidence (r :: rest) * 0.8));
        eexists; (split; [reflexivity|]); lra. }
  destruct Hraised as (x & -> & Hx).
  assert (Hdamp : exists y,
             JsMath.max (Fin 0.3) (JsMath.scale (Fin x) 0.7) = Fin y /\
             0.3 <= y /\ y <= 0.7).
  { cbn [JsMath.scale JsMath.max].
    destruct (Qle_bool 0.3 (x * 0.7)) eqn:Hb.
    - apply Qle_bool_iff in Hb. eexists. split; [reflexivity|]. split; lra.
    - eexists. split; [reflexivity|]. split; lra. }
  destruct Hdamp as (y & -> & Hy1 & Hy2).
  exists y.
  assert (Hclamp : JsMath.max (Fin 0) (JsMath.min (Fin 1) (Fin y)) = Fin y).
  { cbn [JsMath.min].
    destruct (Qle_bool 1 y) eqn:H1; [apply Qle_bool_iff in H1; lra|].
    cbn [JsMath.max].
    destruct (Qle_bool 0 y) eqn:H0; [reflexivity|].
    assert (Hge : 0 <= y) by lra. apply Qle_bool_iff in Hge. congruence. }
  destruct (snopesResult externalResults); rewrite Hclamp; repeat split; assumption.
Qed.

Lemma X10_conflict_confidence_band_witness :
  exists q,
    fc_confidence
      (synthesize sample_runtime [wikipedia_08; snopes_true]
         (mkConflict true conflicting_verdicts_text) (Ok text_confidence_05))
    = Fin q /\ 0.3 <= q /\ q <= 0.7.
Proof.
  apply (X10_conflict_confidence_band sample_runtime [wikipedia_08; snopes_true]
           (mkConflict true conflicting_verdicts_text) text_confidence_05
           (payload_value (VNum (Fin 0.5)) []) 0.5);
    try reflexivity; try discriminate.
  intros r [<- | [<- | []]]; discriminate.
Defined.

(** ** When [analyzeSourceConflicts] reports a conflict *)

(** X11: [analyzeSourceConflicts] reports a conflict exactly when there
    are at least two records and either one non-empty verdict label
    contains true and one contains false (after case folding), or some
    record comes before another one whose case-folded summary holds the
    opposite word (won before lost, true before false, yes before no). *)
Theorem X11_conflict_exactly_when (results : list ExternalFactCheckResult) :
  hasConflicts (analyzeSourceConflicts results) = true <->
  (2 <= List.length results)%nat /\
  ((exists r1 r2,
      In r1 results /\ In r2 results /\
      verdict_truthy r1 = true /\ verdict_truthy r2 = true /\
      includes (toLowerCase (verdict_text r1)) "true" = true /\
      includes (toLowerCase (verdict_text r2)) "false" = true)
   \/
   (exists before between after r1 r2,
      results = (before ++ r1 :: between ++ r2 :: after)%list /\
      opposite_statements (toLowerCase (summary r1)) (toLowerCase (summary r2))
      = true)).
Proof.
  unfold analyzeSourceConflicts. cbv zeta.
  destruct (List.length results <? 2)%nat eqn:Hlen.
  - apply Nat.ltb_lt in Hlen. cbn [hasConflicts]. split; [discriminate|].
    intros [H _]. lia.
  - apply Nat.ltb_ge in Hlen.
    set (verdicts := map (fun r => toLowerCase (verdict_text r))
                         (filter verdict_truthy results)).
    destruct (existsb (fun v => includes v "true") verdicts) eqn:HT;
      [destruct (existsb (fun v => includes v "false") verdicts) eqn:HF|];
      cbn [andb hasConflicts].
    + split; [|reflexivity]. intros _. split; [exact Hlen|]. left.
      apply existsb_exists in HT. destruct HT as (v1 & Hv1 & Ht).
      apply existsb_exists in HF. destruct HF as (v2 & Hv2 & Hf).
      apply in_map_iff in Hv1. destruct Hv1 as (r1 & <- & Hr1).
      apply in_map_iff in Hv2. destruct Hv2 as (r2 & <- & Hr2).
      apply filter_In in Hr1. apply filter_In in Hr2.
      exists r1, r2. tauto.
    + split.
      * intros Hpos. split; [exact Hlen|]. right.
        destruct (collect_conflicts results) as [|label rest] eqn:Hc;
          [discriminate Hpos|].
        destruct (collect_conflicts_sound results label) as
          (before & between & after & r1 & r2 & Hres & _ & Hopp);
          [rewrite Hc; left; reflexivity|].
        exists before, between, after, r1, r2. split; assumption.
      * intros [_ [(r1 & r2 & _ & Hin2 & _ & Ht2 & _ & Hf) | Hpair]].
        -- exfalso.
           assert (existsb (fun v => includes v "false") verdicts = true);
             [|congruence].
           apply existsb_exists. exists (toLowerCase (verdict_text r2)).
           split; [|exact Hf]. apply in_map_iff. exists r2.
           split; [reflexivity|]. apply filter_In. split; assumption.
        -- destruct Hpair as (before & between & after & r1 & r2 & -> & Hopp).
           pose proof (collect_conflicts_ordered before between after r1 r2 Hopp)
             as Hin.
           destruct (collect_conflicts (before ++ r1 :: between ++ r2 :: after)%list);
             [destruct Hin | reflexivity].
    + split.
      * intros Hpos. split; [exact Hlen|]. right.
        destruct (collect_conflicts results) as [|label rest] eqn:Hc;
          [discriminate Hpos|].
        destruct (collect_conflicts_sound results label) as
          (before & between & after & r1 & r2 & Hres & _ & Hopp);
          [rewrite Hc; left; reflexivity|].
        exists before, between, after, r1, r2. split; assumption.
      * intros [_ [(r1 & r2 & Hin1 & _ & Ht1 & _ & Ht & _) | Hpair]].
        -- exfalso.
           assert (existsb (fun v => includes v "true") verdicts = true);
             [|congruence].
           apply existsb_exists. exists (toLowerCase (verdict_text r1)).
           split; [|exact Ht]. apply in_map_iff. exists r1.
           split; [reflexivity|]. apply filter_In. split; assumption.
        -- destruct Hpair as (before & between & after & r1 & r2 & -> & Hopp).
           pose proof (collect_conflicts_ordered before between after r1 r2 Hopp)
             as Hin.
           destruct (collect_conflicts (before ++ r1 :: between ++ r2 :: after)%list);
             [destruct Hin | reflexivity].
Qed.

(** ** The store under the tools *)

Lemma key_present_or_not {A : Type} (key : A -> string) (k : string) (l : list A) :
  (exists r, In r l /\ key r = k) \/ (forall r, In r l -> key r <> k).
Proof.
  induction l as [|x rest IH].
  - right. intros r [].
  - destruct (string_dec (key x) k) as [Heq | Hne].
    + left. exists x. split; [left; reflexivity | exact Heq].
    + destruct IH as [(r & Hr & Hk) | Hnone].
      * left. exists r. split; [right; exact Hr | exact Hk].
      * right. intros r [<- | Hr]; [exact Hne | apply Hnone; exact Hr].
Qed.

Lemma NoDup_keys_snoc {A : Type} (key : A -> string) (l : list A) (x : A) :
  NoDup (map key l) ->
  (forall r, In r l -> key r <> key x) ->
  NoDup (map key (l ++ [x])%list).
Proof.
  intros Hnd Hfresh. induction l as [|y rest IH]; cbn [map app].
  - constructor; [intros [] | constructor].
  - inversion Hnd as [|k ks Hnotin Hnd']; subst.
    constructor.
    + rewrite map_app, in_app_iff. intros [Hin | [Heq | []]].
      * exact (Hnotin Hin).
      * apply (Hfresh y); [left; reflexivity | symmetry; exact Heq].
    + apply IH; [exact Hnd'|]. intros r Hr. apply Hfresh. right. exact Hr.
Qed.

Section StoreUnderTools.

Variable rt : Runtime.
Variable tx : TextOps.
Variable w : World.

(** What a tool call may do to the store: nothing, or add one row to one
    table under a key the table did not hold. *)
Lemma run_tool_store (c : tool_call) (s : State) :
  exists response s',
    run_tool rt tx w c s = (Ok response, s') /\
    ((db s' = db s) \/
     (isError response = false /\
      ((exists row,
          db s' = mkDatabase (factChecks (db s) ++ [row])%list
                             (webpageAnalyses (db s)) (dailyDigests (db s)) /\
          forall r, In r (factChecks (db s)) -> claimText r <> claimText row) \/
       (exists row,
          db s' = mkDatabase (factChecks (db s))
                             (webpageAnalyses (db s) ++ [row])%list
                             (dailyDigests (db s)) /\
          forall r, In r (webpageAnalyses (db s)) -> wa_url r <> wa_url row) \/
       (exists row,
          db s' = mkDatabase (factChecks (db s)) (webpageAnalyses (db s))
                             (dailyDigests (db s) ++ [row])%list /\
          forall r, In r (dailyDigests (db s)) -> digestDate r <> digestDate row)))).
Proof.
  destruct c as [claim context | address focus_areas | date include_trending];
    cbn [run_tool].
  - destruct (key_present_or_not claimText claim (factChecks (db s)))
      as [Hhit | Hmiss].
    + destruct (verify_claim_hit rt tx w claim context s Hhit)
        as (existing & _ & _ & _ & Heq).
      eexists _, _. split; [exact Heq|]. left. reflexivity.
    + destruct (verify_claim_miss rt tx w claim context s Hmiss)
        as (response & s' & Heq & _ &
            [[_ Hdb] | (result & row & -> & _ & Hdb & Hkey & _)]).
      * exists response, s'. split; [exact Heq|]. left. exact Hdb.
      * eexists _, s'. split; [exact Heq|]. right. split; [reflexivity|].
        left. exists row. split; [exact Hdb|]. rewrite Hkey. exact Hmiss.
  - destruct (key_present_or_not wa_url address (webpageAnalyses (db s)))
      as [Hhit | Hmiss].
    + destruct (analyze_webpage_hit rt tx w address focus_areas s Hhit)
        as (existing & _ & _ & Heq).
      eexists _, _. split; [exact Heq|]. left. reflexivity.
    + destruct (analyze_webpage_miss rt tx w address focus_areas s Hmiss)
        as (response & s' & Heq &
            [[_ Hdb] | (row & cr & -> & Hdb & Hkey & _)]).
      * exists response, s'. split; [exact Heq|]. left. exact Hdb.
      * eexists _, s'. split; [exact Heq|]. right. split; [reflexivity|].
        right. left. exists row. split; [exact Hdb|]. rewrite Hkey. exact Hmiss.
  - destruct (targetDateOf_spec w date s) as (targetDate & s0 & Ht & Hdb0 & _).
    destruct (key_present_or_not digestDate targetDate (dailyDigests (db s)))
      as [Hhit | Hmiss].
    + destruct (generate_daily_digest_hit rt w date include_trending s s0
                  targetDate Ht Hhit) as (existing & _ & _ & Heq).
      eexists _, _. split; [exact Heq|]. left. cbn. exact Hdb0.
    + destruct (generate_daily_digest_miss rt w date include_trending s s0
                  targetDate Ht Hmiss)
        as (response & s' & Heq & [[_ Hdb] | (row & -> & Hdb & Hkey & _)]).
      * exists response, s'. split; [exact Heq|]. left. exact Hdb.
      * eexists _, s'. split; [exact Heq|]. right. split; [reflexivity|].
        right. right. exists row. split; [exact Hdb|]. rewrite Hkey. exact Hmiss.
Qed.

(** A call that runs alone. *)
Lemma run_tool_alone (c : tool_call) (s : State) :
  exists response s' newChecks newAnalyses newDigests,
    run_tool rt tx w c s = (Ok response, s') /\
    factChecks (db s') = (factChecks (db s) ++ newChecks)%list /\
    webpageAnalyses (db s') = (webpageAnalyses (db s) ++ newAnalyses)%list /\
    dailyDigests (db s') = (dailyDigests (db s) ++ newDigests)%list /\
    (List.length newChecks + List.length newAnalyses + List.length newDigests
     <= 1)%nat /\
    (isError response = true -> db s' = db s) /\
    (one_row_per_key (db s) -> one_row_per_key (db s')).
Proof.
  destruct (run_tool_store c s) as (response & s' & Heq & Hstore).
  exists response, s'.
  destruct Hstore as [Hdb | [Hok [(row & Hdb & Hkey) | [(row & Hdb & Hkey)
                                                      | (row & Hdb & Hkey)]]]].
  - exists [], [], []. rewrite Hdb, !app_nil_r. cbn [List.length].
    split; [exact Heq|]. do 3 (split; [reflexivity|]). split; [lia|].
    split; [intros _; reflexivity | intros H; exact H].
  - exists [row], [], []. rewrite Hdb. cbn [factChecks webpageAnalyses dailyDigests].
    rewrite !app_nil_r. cbn [List.length].
    split; [exact Heq|]. do 3 (split; [reflexivity|]). split; [lia|].
    split; [intros He; congruence|].
    intros (H1 & H2 & H3). unfold one_row_per_key.
    cbn [factChecks webpageAnalyses dailyDigests].
    repeat split; try assumption; apply NoDup_keys_snoc; assumption.
  - exists [], [row], []. rewrite Hdb. cbn [factChecks webpageAnalyses dailyDigests].
    rewrite !app_nil_r. cbn [List.length].
    split; [exact Heq|]. do 3 (split; [reflexivity|]). split; [lia|].
    split; [intros He; congruence|].
    intros (H1 & H2 & H3). unfold one_row_per_key.
    cbn [factChecks webpageAnalyses dailyDigests].
    repeat split; try assumption; apply NoDup_keys_snoc; assumption.
  - exists [], [], [row]. rewrite Hdb. cbn [factChecks webpageAnalyses dailyDigests].
    rewrite !app_nil_r. cbn [List.length].
    split; [exact Heq|]. do 3 (split; [reflexivity|]). split; [lia|].
    split; [intros He; congruence|].
    intros (H1 & H2 & H3). unfold one_row_per_key.
    cbn [factChecks webpageAnalyses dailyDigests].
    repeat split; try assumption; apply NoDup_keys_snoc; assumption.
Qed.


(** *** Calls that interleave *)

Lemma keeps_of_preserves {A : Type} (P : Database -> Prop) (m : M A) :
  preserves_db m -> keeps P m.
Proof. intros Hm s HP. rewrite (Hm s). exact HP. Qed.

Lemma keeps_bind {A B : Type} (P : Database -> Prop) (m : M A) (k : A -> M B) :
  keeps P m -> (forall a, keeps P (k a)) -> keeps P (bindM m k).
Proof.
  intros Hm Hk s HP. unfold bindM. specialize (Hm s HP).
  destruct (m s) as [[a | e] s1]; cbn [snd] in *; [apply Hk; exact Hm | exact Hm].
Qed.

Lemma keeps_try {A : Type} (P : Database -> Prop) (body : M A)
      (handler : thrown -> M A) :
  keeps P body -> (forall e, keeps P (handler e)) -> keeps P (try_catchM body handler).
Proof.
  intros Hb Hh s HP. unfold try_catchM. specialize (Hb s HP).
  destruct (body s) as [[a | e] s1]; cbn [snd] in *; [exact Hb | apply Hh; exact Hb].
Qed.

Lemma keeps_select {A : Type} (P : Database -> Prop) (table key : string)
      (rows : State -> list A) :
  keeps P (fun s => (Ok (rows s), log (Selected table key) s)).
Proof. intros s HP. exact HP. Qed.

Lemma keeps_insertFactCheck (claim : string) (result : FactCheckResult) :
  keeps unique_columns (insertFactCheck w claim result).
Proof. intros s HP. exact HP. Qed.

Lemma existsb_key_false {A : Type} (key : A -> string) (k : string) (l : list A) :
  existsb (fun r => String.eqb (key r) k) l = false ->
  forall r, In r l -> key r <> k.
Proof.
  intros Hex r Hr Heq.
  assert (existsb (fun r => String.eqb (key r) k) l = true); [|congruence].
  apply existsb_exists. exists r. split; [exact Hr | apply String.eqb_eq; exact Heq].
Qed.

Lemma keeps_insertAnalysis (address title summary : string)
      (extractedClaims : list value) (overall : credibility)
      (results : list ClaimResult) :
  keeps unique_columns
        (insertAnalysis w address title summary extractedClaims overall results).
Proof.
  intros s [Hurls Hdates]. unfold insertAnalysis.
  destruct (existsb _ (webpageAnalyses (db s))) eqn:Hex; [split; assumption|].
  split; [|exact Hdates]. cbn [snd db log webpageAnalyses].
  apply NoDup_keys_snoc; [exact Hurls|].
  cbn [wa_url]. apply existsb_key_false. exact Hex.
Qed.

Lemma keeps_insertDigest (targetDate : string) (trending : value) (summary : string) :
  keeps unique_columns (insertDigest w targetDate trending summary).
Proof.
  intros s [Hurls Hdates]. unfold insertDigest.
  destruct (existsb _ (dailyDigests (db s))) eqn:Hex; [split; assumption|].
  split; [exact Hurls|]. cbn [snd db log dailyDigests].
  apply NoDup_keys_snoc; [exact Hdates|].
  cbn [digestDate]. apply existsb_key_false. exact Hex.
Qed.

Lemma verifyEach_preserves_db (claims : list value) (title : string)
      (factCheckResults : list ClaimResult) :
  preserves_db (verifyEach rt tx w claims title factCheckResults).
Proof.
  intros s.
  destruct (verifyEach_spec rt tx w claims title factCheckResults s)
    as [(new & s' & Heq & Hdb & _) | (e & s' & Heq & Hdb & _)];
    rewrite Heq; exact Hdb.
Qed.

Lemma errorAnswer_answers (what : string) (e : thrown) (s : State) :
  exists response, errorAnswer what e s = (Ok response, s).
Proof. eexists. reflexivity. Qed.

Lemma try_catch_answers (body : M ToolResponse) (what : string) (s : State) :
  exists response s', try_catchM body (errorAnswer what) s = (Ok response, s').
Proof.
  unfold try_catchM. destruct (body s) as [[r | e] s1]; [eauto|].
  destruct (errorAnswer_answers what e s1) as (response & ->). eauto.
Qed.

Ltac keeps_steps :=
  repeat (cbv zeta;
          first
            [ apply keeps_insertFactCheck | apply keeps_insertAnalysis
            | apply keeps_insertDigest
            | apply keeps_select
            | apply keeps_of_preserves;
              first [ apply preserves_ret | apply preserves_lift
                    | apply preserves_callCohere
                    | apply verifyClaim_preserves_db
                    | apply verifyEach_preserves_db
                    | apply scrapeWebpage_preserves_db ]
            | apply keeps_try; [|intros ?]
            | apply keeps_bind; [|intros ?]
            | match goal with
              | |- keeps _ (if ?b then _ else _) => destruct b
              | |- keeps _ (match ?x with _ => _ end) => destruct x
              end ]).

(** The lookup of a call leaves the store alone and always returns; the
    rest of the handler keeps the unique columns and always answers. *)
Lemma run_tool_lookup_spec (c : tool_call) (s : State) :
  exists rest s1,
    run_tool_lookup rt tx w c s = (Ok rest, s1) /\
    db s1 = db s /\
    keeps unique_columns rest /\
    (forall s2, exists response s3, rest s2 = (Ok response, s3)).
Proof.
  destruct c as [claim context | address focus_areas | date include_trending];
    cbn [run_tool_lookup].
  - eexists _, _. split; [reflexivity|]. split; [reflexivity|]. split.
    + unfold verify_claim_found. keeps_steps.
    + intros s2. apply try_catch_answers.
  - eexists _, _. split; [reflexivity|]. split; [reflexivity|]. split.
    + unfold analyze_webpage_found. keeps_steps.
    + intros s2. apply try_catch_answers.
  - destruct (targetDateOf_spec w date s) as (targetDate & s0 & Ht & Hdb0 & _).
    unfold bindM at 1. rewrite Ht.
    eexists _, _. split; [reflexivity|]. split; [exact Hdb0|]. split.
    + unfold generate_daily_digest_found, selectFactChecksSince, selectAnalysesSince.
      keeps_steps.
    + intros s2. apply try_catch_answers.
Qed.

Lemma NoDup_twice_at_end {A : Type} (l : list A) (x : A) :
  ~ NoDup (l ++ [x; x])%list.
Proof.
  induction l as [|y rest IH]; cbn [app]; intros Hnd.
  - inversion Hnd as [|? ? Hnotin _]. apply Hnotin. left. reflexivity.
  - inversion Hnd as [|? ? _ Hrest]. exact (IH Hrest).
Qed.


End StoreUnderTools.

(** ** [generate_daily_digest]: the trending analysis *)

Section DigestTrending.

Variable rt : Runtime.
Variable w : World.

(** X14: when trending topics are not asked for, or no fact-check is
    recent enough, [generate_daily_digest] asks the model once, for the
    summary alone, and the digest it stores and answers with has an empty
    list of trending claims. *)
Theorem X14_digest_without_trending (date : option string)
      (include_trending : bool) (s s0 : State) (targetDate : string) :
  targetDateOf w date s = (Ok targetDate, s0) ->
  (forall r, In r (dailyDigests (db s)) -> digestDate r <> targetDate) ->
  let recentChecks := recentFactChecks targetDate (factChecks (db s)) in
  let recentAnalyses :=
    recentWebpageAnalyses targetDate (webpageAnalyses (db s)) in
  include_trending = false \/ recentChecks = [] ->
  (forall h, exists summary,
      cohere_reply w h (summaryPromptOf targetDate recentChecks recentAnalyses)
      = Ok summary) ->
  exists summary s' row,
    generate_daily_digest rt w date include_trending s
    = (Ok (answer (DigestGenerated targetDate summary (VArr [])
                     (List.length recentChecks) (List.length recentAnalyses))), s') /\
    dailyDigests (db s') = (dailyDigests (db s) ++ [row])%list /\
    trendingClaims row = VArr [] /\
    model_calls (history s')
    = (model_calls (history s)
       ++ [summaryPromptOf targetDate recentChecks recentAnalyses])%list.
Proof.
  intros Ht Hmiss recentChecks recentAnalyses Hno Hsummary.
  assert (Hasks : include_trending && nonempty recentChecks = false).
  { destruct Hno as [-> | Hnil]; [reflexivity|].
    rewrite Hnil. apply andb_false_r. }
  pose proof (generate_daily_digest_generates rt w date include_trending s s0
                targetDate)
    as Hgen.
  cbv zeta in Hgen. fold recentChecks recentAnalyses in Hgen.
  rewrite Hasks in Hgen.
  destruct (Hsummary
              (history
                 (log (Selected "webpage_analyses" targetDate)
                    (log (Selected "fact_checks" targetDate)
                       (log (Selected "daily_digests" targetDate) s0)))))
    as (summary & Hs).
  destruct (Hgen summary Ht Hmiss Hs)
    as (s' & row & Heq & Hrows & _ & _ & Htrending & Hcalls).
  exists summary, s', row. repeat split; assumption.
Qed.


End DigestTrending.

Lemma X14_digest_without_trending_witness :
  exists summary s' row,
    generate_daily_digest sample_runtime wiki_world (Some "2024-01-01") true
      initial_state
    = (Ok (answer (DigestGenerated "2024-01-01" summary (VArr []) 0 0)), s') /\
    dailyDigests (db s') = [row] /\
    trendingClaims row = VArr [] /\
    model_calls (history s')
    = [summaryPromptOf "2024-01-01" [] []].
Proof.
  apply (X14_digest_without_trending sample_runtime wiki_world (Some "2024-01-01")
           true initial_state initial_state "2024-01-01").
  - reflexivity.
  - intros r [].
  - right. reflexivity.
  - intros h. eexists. reflexivity.
Defined.


(** ** The public digest endpoints *)

Lemma filter_unique_key {A : Type} (key : A -> string) (l : list A) (row : A) :
  NoDup (map key l) -> In row l ->
  filter (fun r => String.eqb (key r) (key row)) l = [row].
Proof.
  induction l as [|x rest IH]; intros Hnd Hin; [destruct Hin|].
  cbn [map] in Hnd. inversion Hnd as [|k ks Hnotin Hnd']; subst.
  cbn [filter]. destruct Hin as [-> | Hin].
  - rewrite String.eqb_refl. f_equal.
    apply filter_nil_iff. intros r Hr.
    apply String.eqb_neq. intros Heq. apply Hnotin. rewrite <- Heq.
    apply in_map. exact Hr.
  - destruct (String.eqb (key x) (key row)) eqn:Hx.
    + apply String.eqb_eq in Hx. exfalso. apply Hnotin. rewrite Hx.
      apply in_map. exact Hin.
    + apply IH; assumption.
Qed.

Lemma isDateFormat_length (date : string) :
  isDateFormat date = true -> String.length date = 10%nat.
Proof.
  unfold isDateFormat.
  do 11 (destruct date as [|? date]; cbn [list_ascii_of_string]; try discriminate);
    reflexivity.
Qed.

(** X16: [GET /daily-digest/:date] only reads the store. A date that is
    not ten characters of the form 4 digits, dash, 2 digits, dash, 2 digits
    is refused with status 400 before the store is consulted; for a date of
    that form the answer is 404 when no digest is stored for it, and 200
    with the fields of a digest stored for it otherwise. *)
Theorem X16_digest_by_date (date : string) (s : State) :
  db (snd (daily_digest_by_date date s)) = db s /\
  (isDateFormat date = true -> String.length date = 10%nat) /\
  (isDateFormat date = false ->
   daily_digest_by_date date s
   = (Ok (mkHttp 400 (ErrorJson "Invalid date format. Use YYYY-MM-DD" None)), s)) /\
  (isDateFormat date = true ->
   (forall r, In r (dailyDigests (db s)) -> digestDate r <> date) ->
   fst (daily_digest_by_date date s) = Ok notFound) /\
  (isDateFormat date = true ->
   (exists r, In r (dailyDigests (db s)) /\ digestDate r = date) ->
   exists row,
     In row (dailyDigests (db s)) /\ digestDate row = date /\
     fst (daily_digest_by_date date s) = Ok (mkHttp 200 (digestJson row))).
Proof.
  unfold daily_digest_by_date.
  split; [|split; [apply isDateFormat_length|split; [|split]]].
  - destruct (isDateFormat date); cbn [negb]; [|reflexivity].
    unfold try_catchM, bindM, selectDigestsByDate.
    destruct (firstn 1 _); reflexivity.
  - intros ->. reflexivity.
  - intros -> Hmiss. cbn [negb].
    unfold try_catchM, bindM, selectDigestsByDate.
    rewrite (filter_key_nil digestDate date _ Hmiss). reflexivity.
  - intros -> Hhit. cbn [negb].
    destruct (filter_key_cons digestDate date _ Hhit) as (row & rest & Hf).
    destruct (filter_head_In _ _ _ _ Hf) as [Hin Hk]. apply String.eqb_eq in Hk.
    exists row. split; [exact Hin|]. split; [exact Hk|].
    unfold try_catchM, bindM, selectDigestsByDate. rewrite Hf. reflexivity.
Qed.

Section DigestEndpoints.

Variable rt : Runtime.
Variable tx : TextOps.
Variable w : World.

(** X17: what [generate_daily_digest] answers with is what the endpoints
    serve afterwards: once the tool has generated the digest of a date (of
    the form the endpoints accept), both [GET /daily-digest/:date] and
    [GET /daily-digest?date=...] answer 200 with that date, that summary and
    those trending claims, in every world. *)
Theorem X17_digest_round_trip (date : option string) (include_trending : bool)
      (s s' : State) (targetDate summary : string) (trending : value)
      (factCheckCount analysisCount : nat) :
  generate_daily_digest rt w date include_trending s
  = (Ok (answer (DigestGenerated targetDate summary trending
                   factCheckCount analysisCount)), s') ->
  isDateFormat targetDate = true ->
  exists generated,
    fst (daily_digest_by_date targetDate s')
    = Ok (mkHttp 200 (DigestJson targetDate summary trending generated)) /\
    forall tx' w',
      fst (daily_digest tx' w' (Some targetDate) None s')
      = Ok (mkHttp 200 (DigestJson targetDate summary trending generated)).
Proof.
  intros Hrun Hformat.
  destruct (targetDateOf_spec w date s) as (t & s0 & Ht & Hdb0 & _).
  destruct (key_present_or_not digestDate t (dailyDigests (db s)))
    as [Hhit | Hmiss].
  { destruct (generate_daily_digest_hit rt w date include_trending s s0 t Ht Hhit)
      as (existing & _ & _ & Heq).
    rewrite Heq in Hrun. discriminate Hrun. }
  destruct (generate_daily_digest_miss rt w date include_trending s s0 t Ht Hmiss)
    as (response & s1 & Heq & [[Herr _] | (row & Hresp & Hdb & Hkey & _)]);
    rewrite Heq in Hrun; injection Hrun as -> <-.
  { discriminate Herr. }
  injection Hresp as -> -> -> _ _.
  pose proof (filter_key_nil digestDate (digestDate row) _
                ltac:(rewrite Hkey; exact Hmiss)) as Hf.
  assert (Hsel : firstn 1 (filter (fun r => String.eqb (digestDate r) (digestDate row))
                             (dailyDigests (db s1))) = [row]).
  { rewrite Hdb. cbn [dailyDigests]. rewrite filter_app, Hf. cbn [filter app].
    rewrite String.eqb_refl. reflexivity. }
  rewrite Hkey in Hsel.
  assert (Hjson : digestJson row
                  = DigestJson t (dd_summary row) (trendingClaims row)
                      (generatedAt row))
    by (unfold digestJson; rewrite Hkey; reflexivity).
  exists (generatedAt row). split.
  - unfold daily_digest_by_date. rewrite Hformat. cbn [negb].
    unfold try_catchM, bindM, selectDigestsByDate. rewrite Hsel, <- Hjson.
    reflexivity.
  - intros tx' w'.
    pose proof (isDateFormat_length _ Hformat) as Hlen.
    unfold daily_digest.
    destruct t as [|c rest]; [discriminate Hlen|].
    cbn [targetDateOf]. unfold bindM at 1, ret.
    unfold try_catchM, bindM, selectDigestsByDate. rewrite Hsel, <- Hjson.
    reflexivity.
Qed.

(** X18: the markdown form of [GET /daily-digest] needs the stored
    trending claims to be a list. When the stored value is anything else
    that is not null (a JSON object or a string, which
    [generate_daily_digest] stores as they come from the model), the
    markdown request fails with status 500 while the JSON request for the
    same digest answers 200; an empty list is rendered as
    [No trending claims identified]. *)
Theorem X18_markdown_needs_list (c : ascii) (rest : string) (s : State)
      (row : DailyDigestRow) :
  one_row_per_key (db s) ->
  In row (dailyDigests (db s)) ->
  digestDate row = String c rest ->
  fst (daily_digest tx w (Some (String c rest)) None s)
  = Ok (mkHttp 200 (digestJson row)) /\
  (mappable (trendingClaims row) = false ->
   exists details,
     fst (daily_digest tx w (Some (String c rest)) (Some "markdown") s)
     = Ok (mkHttp 500 (ErrorJson "Failed to retrieve daily digest" (Some details)))) /\
  (trendingClaims row = VArr [] ->
   fst (daily_digest tx w (Some (String c rest)) (Some "markdown") s)
   = Ok (mkHttp 200
           (MarkdownText (digestMarkdown (String c rest) row noTrendingClaims)))).
Proof.
  intros (_ & _ & Hnd) Hin Hdate.
  pose proof (filter_unique_key digestDate _ row Hnd Hin) as Hf.
  rewrite Hdate in Hf.
  unfold daily_digest. cbn [targetDateOf]. unfold bindM at 1, ret.
  unfold bindM at 2, ret.
  unfold try_catchM, bindM, selectDigestsByDate. rewrite Hf.
  cbn [firstn]. split; [reflexivity|]. split.
  - intros Hmap. change (String.eqb "markdown" "markdown") with true. cbv iota.
    unfold lift, trendingMarkdown.
    destruct (trendingClaims row); try discriminate Hmap;
      eexists; reflexivity.
  - intros ->. reflexivity.
Qed.

End DigestEndpoints.

Lemma X17_digest_round_trip_witness :
  exists generated,
    fst (daily_digest_by_date "2024-01-01"
           (snd (generate_daily_digest sample_runtime wiki_world (Some "2024-01-01")
                   false initial_state)))
    = Ok (mkHttp 200
            (DigestJson "2024-01-01" text_confidence_05 (VArr []) generated)) /\
    forall tx' w',
      fst (daily_digest tx' w' (Some "2024-01-01") None
             (snd (generate_daily_digest sample_runtime wiki_world
                     (Some "2024-01-01") false initial_state)))
      = Ok (mkHttp 200
              (DigestJson "2024-01-01" text_confidence_05 (VArr []) generated)).
Proof.
  apply (X17_digest_round_trip sample_runtime wiki_world (Some "2024-01-01") false
           initial_state
           (snd (generate_daily_digest sample_runtime wiki_world (Some "2024-01-01")
                   false initial_state))
           "2024-01-01" text_confidence_05 (VArr []) 0 0);
    reflexivity.
Defined.

Lemma X18_markdown_needs_list_witness :
  fst (daily_digest sample_text wiki_world (Some "2024-01-02") None digest_state)
  = Ok (mkHttp 200 (digestJson object_digest)) /\
  (mappable (trendingClaims object_digest) = false ->
   exists details,
     fst (daily_digest sample_text wiki_world (Some "2024-01-02") (Some "markdown")
            digest_state)
     = Ok (mkHttp 500 (ErrorJson "Failed to retrieve daily digest" (Some details)))) /\
  (trendingClaims object_digest = VArr [] ->
   fst (daily_digest sample_text wiki_world (Some "2024-01-02") (Some "markdown")
          digest_state)
   = Ok (mkHttp 200
           (MarkdownText (digestMarkdown "2024-01-02" object_digest
                            noTrendingClaims)))).
Proof.
  apply (X18_markdown_needs_list sample_text wiki_world "2" "024-01-02" digest_state
           object_digest).
  - unfold one_row_per_key. cbn.
    split; [constructor|]. split; [constructor|].
    constructor; [intros [] | constructor].
  - left. reflexivity.
  - reflexivity.
Defined.

(** ** The credibility of a page *)

Lemma confidence_sum_lower (results : list ClaimResult) (lo acc : Q) :
  (forall r, In r results ->
             exists q, fc_confidence (cr_result r) = Fin q /\ lo <= q) ->
  exists total,
    fold_left (fun sum r => JsMath.add sum (fc_confidence (cr_result r)))
              results (Fin acc)
    = Fin total /\
    acc + inject_Z (Z.of_nat (List.length results)) * lo <= total.
Proof.
  revert acc. induction results as [|r rest IH]; intros acc Hall.
  - exists acc. cbn [fold_left List.length].
    change (inject_Z (Z.of_nat 0)) with 0. split; [reflexivity | lra].
  - destruct (Hall r (or_introl eq_refl)) as (q & Hq & Hlo).
    cbn [fold_left]. rewrite Hq. cbn [JsMath.add].
    destruct (IH (acc + q) (fun x Hx => Hall x (or_intror Hx)))
      as (total & Heq & Hl).
    exists total. split; [exact Heq|].
    cbn [List.length]. rewrite Nat2Z.inj_succ. unfold Z.succ.
    rewrite inject_Z_plus. change (inject_Z 1) with 1.
    set (n := inject_Z (Z.of_nat (List.length rest))) in *.
    apply Qle_trans with (acc + q + n * lo); [|exact Hl].
    ring_simplify. lra.
Qed.

Lemma confidence_sum_below (results : list ClaimResult) (hi acc : Q) :
  results <> [] ->
  (forall r, In r results ->
             exists q, fc_confidence (cr_result r) = Fin q /\ q < hi) ->
  exists total,
    fold_left (fun sum r => JsMath.add sum (fc_confidence (cr_result r)))
              results (Fin acc)
    = Fin total /\
    total < acc + inject_Z (Z.of_nat (List.length results)) * hi.
Proof.
  revert acc. induction results as [|r rest IH]; intros acc Hne Hall; [congruence|].
  destruct (Hall r (or_introl eq_refl)) as (q & Hq & Hhi).
  cbn [fold_left]. rewrite Hq. cbn [JsMath.add].
  cbn [List.length]. rewrite Nat2Z.inj_succ. unfold Z.succ.
  rewrite inject_Z_plus. change (inject_Z 1) with 1.
  destruct rest as [|r' rest'].
  - exists (acc + q). cbn [fold_left List.length].
    change (inject_Z (Z.of_nat 0)) with 0. split; [reflexivity | lra].
  - destruct (IH (acc + q) ltac:(discriminate) (fun x Hx => Hall x (or_intror Hx)))
      as (total & Heq & Hl).
    exists total. split; [exact Heq|].
    set (n := inject_Z (Z.of_nat (List.length (r' :: rest')))) in *.
    apply Qlt_le_trans with (acc + q + n * hi); [exact Hl|].
    ring_simplify. lra.
Qed.

Lemma length_positive {A : Type} (l : list A) :
  l <> [] -> 0 < inject_Z (Z.of_nat (List.length l)).
Proof.
  intros Hne. destruct l as [|x rest]; [congruence|].
  change 0 with (inject_Z 0). rewrite <- Zlt_Qlt. cbn [List.length]. lia.
Qed.

Lemma mean_of_total (total : Q) (n : nat) :
  (0 < n)%nat ->
  JsMath.div_length (Fin total) n = Fin (total / inject_Z (Z.of_nat n)).
Proof. destruct n; [lia | reflexivity]. Qed.

(** The rating of a list of verdicts. *)
Lemma credibility_of_results (results : list ClaimResult) :
  (results = [] -> credibilityOf (averageConfidence results) = Unknown) /\
  (results <> [] ->
   (forall r, In r results ->
              exists q, fc_confidence (cr_result r) = Fin q /\ 0.8 <= q) ->
   credibilityOf (averageConfidence results) = High) /\
  (results <> [] ->
   (forall r, In r results ->
              exists q, fc_confidence (cr_result r) = Fin q /\ q < 0.3) ->
   credibilityOf (averageConfidence results) = Unknown).
Proof.
  split; [intros ->; reflexivity|].
  assert (Hlen : results <> [] -> (0 < List.length results)%nat)
    by (destruct results; [congruence | cbn; lia]).
  split; intros Hne Hall; pose proof (length_positive results Hne) as Hpos;
    unfold averageConfidence.
  - destruct (confidence_sum_lower results 0.8 0 Hall) as (total & -> & Hl).
    rewrite (mean_of_total total _ (Hlen Hne)).
    unfold credibilityOf. cbn [JsMath.geb].
    assert (H : 0.8 <= total / inject_Z (Z.of_nat (List.length results)))
      by (apply Qle_shift_div_l; [exact Hpos | lra]).
    apply Qle_bool_iff in H. rewrite H. reflexivity.
  - destruct (confidence_sum_below results 0.3 0 Hne Hall) as (total & -> & Hl).
    rewrite (mean_of_total total _ (Hlen Hne)).
    unfold credibilityOf. cbn [JsMath.geb].
    assert (Hmean : total / inject_Z (Z.of_nat (List.length results)) < 0.3)
      by (apply Qlt_shift_div_r; [exact Hpos | lra]).
    assert (Hnot : forall k, 0.3 <= k ->
                             Qle_bool k (total / inject_Z (Z.of_nat (List.length results)))
                             = false).
    { intros k Hk. destruct (Qle_bool k _) eqn:Hb; [|reflexivity].
      apply Qle_bool_iff in Hb. lra. }
    rewrite !Hnot by lra. reflexivity.
Qed.

(** X19: the credibility [analyze_webpage] answers with. The tool rates
    at most three verdicts. With no verdict (the model listed no claim) the
    mean confidence is not a number and the page is rated unknown; a page
    whose verdicts all have confidence 0.8 or more is rated high, and one
    whose verdicts all have confidence below 0.3 is rated unknown rather
    than low. *)
Theorem X19_page_credibility (rt : Runtime) (tx : TextOps) (w : World)
      (address : string) (focus_areas : option (list string)) (s s' : State)
      (title summary : string) (overall : credibility) (n : nat)
      (results : list ClaimResult) :
  analyze_webpage rt tx w address focus_areas s
  = (Ok (answer (AnalysisComplete title summary overall n results)), s') ->
  (List.length results <= 3)%nat /\
  (results = [] -> overall = Unknown) /\
  (results <> [] ->
   (forall r, In r results ->
              exists q, fc_confidence (cr_result r) = Fin q /\ 0.8 <= q) ->
   overall = High) /\
  (results <> [] ->
   (forall r, In r results ->
              exists q, fc_confidence (cr_result r) = Fin q /\ q < 0.3) ->
   overall = Unknown).
Proof.
  intros Hrun.
  destruct (key_present_or_not wa_url address (webpageAnalyses (db s)))
    as [Hhit | Hmiss].
  { destruct (analyze_webpage_hit rt tx w address focus_areas s Hhit)
      as (existing & _ & _ & Heq).
    rewrite Heq in Hrun. discriminate Hrun. }
  destruct (analyze_webpage_miss rt tx w address focus_areas s Hmiss)
    as (response & s1 & Heq &
        [[Herr _] | (row & cr & Hresp & _ & _ & _ & Hmap & Hcred & _)]);
    rewrite Heq in Hrun; injection Hrun as -> <-.
  { discriminate Herr. }
  injection Hresp as _ _ -> _ ->. rewrite Hcred.
  split.
  - rewrite <- (length_map (fun r => VStr (cr_claim r))), Hmap, length_firstn. lia.
  - apply credibility_of_results.
Qed.

(** Three claims, each verified with confidence 1: the page is rated
    high. *)
Lemma X19_page_credibility_witness :
  exists results,
    (List.length results <= 3)%nat /\
    results <> [] /\
    (forall r, In r results ->
               exists q, fc_confidence (cr_result r) = Fin q /\ 0.8 <= q) /\
    exists title summary n s',
      analyze_webpage sample_runtime sample_text sure_world "https://p.example" None
        initial_state
      = (Ok (answer (AnalysisComplete title summary High n results)), s').
Proof.
  destruct (analyze_webpage sample_runtime sample_text sure_world "https://p.example"
              None initial_state) as [outcome s'] eqn:Hrun.
  pose proof Hrun as Hvalue. vm_compute in Hvalue.
  injection Hvalue as Houtcome _.
  destruct outcome as [[[ | | | title summary overall n results | | | ] []] | e];
    try discriminate Houtcome.
  injection Houtcome as _ _ _ _ Hresults.
  destruct (X19_page_credibility sample_runtime sample_text sure_world
              "https://p.example" None initial_state s' title summary overall n
              results Hrun) as (Hlen & _ & Hhigh & _).
  assert (Hne : results <> []) by (rewrite <- Hresults; discriminate).
  assert (Hall : forall r, In r results ->
                           exists q, fc_confidence (cr_result r) = Fin q /\ 0.8 <= q).
  { rewrite <- Hresults. intros r [<- | [<- | [<- | []]]];
      eexists; (split; [reflexivity | discriminate]). }
  exists results. split; [exact Hlen|]. split; [exact Hne|]. split; [exact Hall|].
  exists title, summary, n, s'. rewrite <- (Hhigh Hne Hall). reflexivity.
Defined.

(** ** [callCohere] *)

(** X20: what [callCohere] makes of the service's response. A response
    that is not OK is thrown as an [Error] naming its status text. An OK
    response with an empty list of generations gives the empty text, and
    one whose first generation holds a text gives that text trimmed; a body
    without the list of generations makes [callCohere] throw. *)
Theorem X20_callCohere_response (tx : TextOps) (response : Response) :
  (ok response = false ->
   callCohereResponse tx response
   = Throw (ErrorObj ("Cohere API error: " ++ statusText response))) /\
  (forall data,
      ok response = true -> json response = Ok data ->
      (get_prop data "generations" = Ok (VArr []) ->
       callCohereResponse tx response = Ok EmptyString) /\
      (get_prop data "generations" = Ok VUndefined ->
       exists e, callCohereResponse tx response = Throw e) /\
      (forall fields more generated,
          get_prop data "generations" = Ok (VArr (VObj fields :: more)) ->
          lookup_field fields "text" = Some (VStr generated) ->
          callCohereResponse tx response = Ok (trim tx generated))).
Proof.
  unfold callCohereResponse. split.
  - intros ->. reflexivity.
  - intros data -> ->. cbn [negb bind]. split; [|split].
    + intros ->. reflexivity.
    + intros ->. eexists. reflexivity.
    + intros fields more generated -> Htext. cbn [bind get_index nth opt_prop get_prop].
      rewrite Htext. reflexivity.
Qed.

(** ** What a tool call costs *)

Lemma spends_refl (s : State) : spends 0 0 s s.
Proof. exists []. rewrite app_nil_r. cbn. repeat split; lia. Qed.

Lemma spends_trans (a b c d : nat) (s1 s2 s3 : State) :
  spends a b s1 s2 -> spends c d s2 s3 -> spends (a + c) (b + d) s1 s3.
Proof.
  intros (e1 & H1 & Hf1 & Hm1) (e2 & H2 & Hf2 & Hm2).
  exists (e1 ++ e2)%list. rewrite H2, H1, app_assoc.
  rewrite !filter_app, !length_app. repeat split; lia.
Qed.

Lemma spends_le (a b a' b' : nat) (s s' : State) :
  spends a b s s' -> (a <= a')%nat -> (b <= b')%nat -> spends a' b' s s'.
Proof.
  intros (evs & H & Hf & Hm) Ha Hb. exists evs. repeat split; try assumption; lia.
Qed.

Lemma spends_log (e : event) (s : State) :
  spends (if is_fetch e then 1 else 0) (if is_model_call e then 1 else 0)
         s (log e s).
Proof.
  exists [e]. split; [reflexivity|]. cbn [filter].
  destruct (is_fetch e), (is_model_call e); cbn; lia.
Qed.

Lemma spendsM_le {A : Type} (a b a' b' : nat) (m : M A) :
  spendsM a b m -> (a <= a')%nat -> (b <= b')%nat -> spendsM a' b' m.
Proof. intros H Ha Hb s. exact (spends_le _ _ _ _ _ _ (H s) Ha Hb). Qed.

Lemma spendsM_ret {A : Type} (x : A) : spendsM 0 0 (ret x).
Proof. intros s. apply spends_refl. Qed.

Lemma spendsM_throw {A : Type} (e : thrown) : spendsM 0 0 (@throw A e).
Proof. intros s. apply spends_refl. Qed.

Lemma spendsM_lift {A : Type} (r : result A) : spendsM 0 0 (lift r).
Proof. intros s. apply spends_refl. Qed.

Lemma spendsM_bind {A B : Type} (a b c d : nat) (m : M A) (k : A -> M B) :
  spendsM a b m -> (forall x, spendsM c d (k x)) ->
  spendsM (a + c) (b + d) (bindM m k).
Proof.
  intros Hm Hk s. unfold bindM. specialize (Hm s).
  destruct (m s) as [[x | e] s1]; cbn [snd] in Hm.
  - apply (spends_trans _ _ _ _ _ _ _ Hm (Hk x s1)).
  - apply (spends_le _ _ _ _ _ _ Hm); lia.
Qed.

Lemma spendsM_try {A : Type} (a b : nat) (body : M A) (handler : thrown -> M A) :
  spendsM a b body -> (forall e, spendsM 0 0 (handler e)) ->
  spendsM a b (try_catchM body handler).
Proof.
  intros Hb Hh s. unfold try_catchM. specialize (Hb s).
  destruct (body s) as [[x | e] s1]; cbn [snd] in Hb; [exact Hb|].
  apply (spends_le (a + 0) (b + 0)); [|lia|lia].
  apply (spends_trans _ _ _ _ _ _ _ Hb (Hh e s1)).
Qed.

Lemma only_fetches (evs : list event) :
  forallb is_fetch evs = true ->
  filter is_fetch evs = evs /\ filter is_model_call evs = [].
Proof.
  induction evs as [|e rest IH]; cbn [forallb filter]; [split; reflexivity|].
  intros H. apply andb_true_iff in H. destruct H as [He Hrest].
  destruct (IH Hrest) as [-> ->]. rewrite He.
  destruct e; try discriminate He. split; reflexivity.
Qed.

Section Budget.

Variable rt : Runtime.
Variable tx : TextOps.
Variable w : World.

Lemma spendsM_callCohere (p : prompt) : spendsM 0 1 (callCohere w p).
Proof. intros s. apply (spends_log (AskedModel p) s). Qed.

Lemma spendsM_scrapeWebpage (address : string) :
  spendsM 1 0 (scrapeWebpage tx w address).
Proof.
  intros s.
  assert (H : snd (scrapeWebpage tx w address s) = log (Fetched address) s).
  { unfold scrapeWebpage, try_catchM, bindM, fetch, lift, ret, throw.
    destruct (fetch_reply w (history s) address) as [response | e]; [|reflexivity].
    destruct (negb (ok response)); [reflexivity|].
    destruct (text response); reflexivity. }
  rewrite H. apply (spends_log (Fetched address) s).
Qed.

Lemma spendsM_verifyClaim (claim : string) (context : option string) :
  spendsM 12 1 (verifyClaim rt tx w claim context).
Proof.
  intros s.
  destruct (collectFrom_requests rt tx w claim (selectedAdapters (classify claim)) [] s)
    as (found & s1 & evs & Heq & Hh & Hf & Hn & _).
  destruct (selectedAdapters_bounds (classify claim)) as [Hb _].
  destruct (only_fetches evs Hf) as [Hfetch Hmodel].
  assert (H1 : spends 12 0 s s1).
  { exists evs. rewrite Hfetch, Hmodel. split; [exact Hh|]. cbn. split; lia. }
  unfold verifyClaim, bindM. rewrite Heq. unfold lift.
  destruct (analyzeAtRuntime found);
    [|apply (spends_le _ _ _ _ _ _ H1); lia].
  destruct (renderRecords tx found);
    [|apply (spends_le _ _ _ _ _ _ H1); lia].
  unfold attempt, callCohere, ret. cbn [snd].
  apply (spends_trans 12 0 0 1 _ _ _ H1). apply (spends_log (AskedModel _) s1).
Qed.

Lemma spendsM_verifyEach (claims : list value) (title : string)
      (factCheckResults : list ClaimResult) :
  spendsM (12 * List.length claims) (List.length claims)
          (verifyEach rt tx w claims title factCheckResults).
Proof.
  revert factCheckResults.
  induction claims as [|c rest IH]; intros factCheckResults.
  - apply spendsM_ret.
  - cbn [verifyEach List.length].
    destruct c; try (apply (spendsM_le 0 0); [apply spendsM_throw | lia | lia]).
    apply (spendsM_le (12 + 12 * List.length rest) (1 + List.length rest));
      [|lia|lia].
    apply spendsM_bind; [apply spendsM_verifyClaim|]. intros result. apply IH.
Qed.

Lemma spendsM_select {A : Type} (table key : string) (rows : State -> list A) :
  spendsM 0 0 (fun s => (Ok (rows s), log (Selected table key) s)).
Proof. intros s. apply (spends_log (Selected table key) s). Qed.

Lemma spendsM_errorAnswer (what : string) (e : thrown) :
  spendsM 0 0 (errorAnswer what e).
Proof. apply spendsM_ret. Qed.

Lemma spendsM_insertFactCheck (claim : string) (result : FactCheckResult) :
  spendsM 0 0 (insertFactCheck w claim result).
Proof. intros s. exists [Inserted "fact_checks" claim]. cbn. repeat split; lia. Qed.

Lemma spendsM_insertAnalysis (address title summary : string)
      (extractedClaims : list value) (overall : credibility)
      (results : list ClaimResult) :
  spendsM 0 0 (insertAnalysis w address title summary extractedClaims overall results).
Proof.
  intros s. unfold insertAnalysis.
  destruct (existsb _ _); [apply spends_refl|].
  exists [Inserted "webpage_analyses" address]. cbn. repeat split; lia.
Qed.

Lemma spendsM_insertDigest (targetDate : string) (trending : value)
      (summary : string) :
  spendsM 0 0 (insertDigest w targetDate trending summary).
Proof.
  intros s. unfold insertDigest.
  destruct (existsb _ _); [apply spends_refl|].
  exists [Inserted "daily_digests" targetDate]. cbn. repeat split; lia.
Qed.

Lemma spendsM_targetDateOf (date : option string) : spendsM 0 0 (targetDateOf w date).
Proof.
  destruct date as [[|c rest]|]; cbn [targetDateOf];
    try apply spendsM_ret; intros s; apply (spends_log ReadClock s).
Qed.

Lemma firstn_3_length {A : Type} (l : list A) : (List.length (firstn 3 l) <= 3)%nat.
Proof. rewrite length_firstn. lia. Qed.

(** X21: one call of a tool sends at most 12 requests and asks the
    model at most once when it is [verify_claim], sends at most 37
    requests and asks the model at most 5 times when it is
    [analyze_webpage], and sends no request and asks the model at most
    twice when it is [generate_daily_digest]; everything the call does is
    appended to the history. *)
Theorem X21_tool_budget (c : tool_call) (s : State) :
  spends (fst (tool_budget c)) (snd (tool_budget c)) s (snd (run_tool rt tx w c s)).
Proof.
  revert s. change (spendsM (fst (tool_budget c)) (snd (tool_budget c))
                      (run_tool rt tx w c)).
  destruct c as [claim context | address focus_areas | date include_trending];
    cbn [run_tool tool_budget fst snd].
  - unfold verify_claim.
    apply spendsM_try; [|intros e; apply spendsM_errorAnswer].
    apply (spendsM_bind 0 0 12 1); [apply spendsM_select|].
    intros [|existing others]; [|apply (spendsM_le 0 0); [apply spendsM_ret|lia|lia]].
    apply (spendsM_bind 12 1 0 0); [apply spendsM_verifyClaim|]. intros result.
    apply (spendsM_bind 0 0 0 0); [apply spendsM_insertFactCheck|]. intros _.
    apply spendsM_ret.
  - unfold analyze_webpage.
    apply spendsM_try; [|intros e; apply spendsM_errorAnswer].
    apply (spendsM_bind 0 0 37 5); [apply spendsM_select|].
    intros [|existing others]; [|apply (spendsM_le 0 0); [apply spendsM_ret|lia|lia]].
    apply (spendsM_bind 1 0 36 5); [apply spendsM_scrapeWebpage|]. intros webContent.
    apply (spendsM_bind 0 1 36 4); [apply spendsM_callCohere|]. intros claimsResponse.
    cbv zeta.
    apply (spendsM_bind 36 3 0 1).
    { pose proof (firstn_3_length (extractClaims rt claimsResponse)) as Hlen.
      eapply spendsM_le; [apply spendsM_verifyEach | lia | lia]. }
    intros factCheckResults.
    apply (spendsM_bind 0 1 0 0); [apply spendsM_callCohere|]. intros summary.
    apply (spendsM_bind 0 0 0 0); [apply spendsM_insertAnalysis|]. intros _.
    apply spendsM_ret.
  - unfold generate_daily_digest.
    apply spendsM_try; [|intros e; apply spendsM_errorAnswer].
    apply (spendsM_bind 0 0 0 2); [apply spendsM_targetDateOf|]. intros targetDate.
    apply (spendsM_bind 0 0 0 2); [apply spendsM_select|].
    intros [|existing others]; [|apply (spendsM_le 0 0); [apply spendsM_ret|lia|lia]].
    apply (spendsM_bind 0 0 0 2); [apply spendsM_select|]. intros recentChecks.
    apply (spendsM_bind 0 0 0 2); [apply spendsM_select|]. intros recentAnalyses.
    apply (spendsM_bind 0 1 0 1).
    { destruct (include_trending && nonempty recentChecks);
        [|apply (spendsM_le 0 0); [apply spendsM_ret|lia|lia]].
      apply spendsM_try; [|intros e; apply spendsM_ret].
      apply (spendsM_bind 0 1 0 0); [apply spendsM_callCohere|].
      intros trendingResponse. apply spendsM_lift. }
    intros trending.
    apply (spendsM_bind 0 1 0 0); [apply spendsM_callCohere|]. intros summary.
    apply (spendsM_bind 0 0 0 0); [apply spendsM_insertDigest|]. intros _.
    apply spendsM_ret.
Qed.

End Budget.

(** ** Verdicts that stay *)

Section StickyVerdicts.

Variable rt : Runtime.
Variable tx : TextOps.
Variable w : World.

(** [verifyClaim] when every model call throws. *)
Lemma verifyClaim_model_down (claim : string) (context : option string) (s : State) :
  records_well_typed rt tx w ->
  (forall h p, exists e, cohere_reply w h p = Throw e) ->
  exists e externalResults s',
    verifyClaim rt tx w claim context s
    = (Ok (callFailure e externalResults), s').
Proof.
  intros Hw Hdown. unfold verifyClaim, bindM.
  destruct (collectFrom_spec rt tx w claim (selectedAdapters (classify claim)) [] s)
    as (found & s1 & Heq & _ & Htyped).
  rewrite Heq.
  destruct (well_typed_usable tx found (Htyped Hw eq_refl)) as [Ha Hr].
  unfold lift. rewrite Ha, Hr. unfold attempt, callCohere, ret.
  match goal with
  | |- context [cohere_reply w ?h ?p] => destruct (Hdown h p) as (e & ->)
  end.
  eexists e, (map declared found), _. reflexivity.
Qed.


End StickyVerdicts.

(** In [offline_world] every request is rejected: no adapter finds a
    record. *)
Lemma offline_world_well_typed :
  records_well_typed sample_runtime sample_text offline_world.
Proof.
  intros a query s f s' Hrun. exfalso.
  destruct a; cbn [run_adapter] in Hrun;
    unfold searchWikipedia, searchDuckDuckGo, searchSnopes, queryWikidata,
      searchLiquipedia, searchESPN, searchWHO, searchFeed, searchSportsDB,
      searchPubMed, searchSEC, searchArXiv, try_catchM, bindM, lift, fetch, ret,
      no_match in Hrun;
    try (destruct (liquipediaGame query));
    cbn [encodeURIComponent sample_text fetch_reply offline_world] in Hrun;
    discriminate Hrun.
Qed.


(** ** The floors of the confidence *)

Lemma raised_not_NaN (reported : number)
      (externalResults : list ExternalFactCheckResult) :
  reported <> NaN ->
  (if nonempty externalResults
   then JsMath.max reported (Fin (avgExternalConfidence externalResults * 0.8))
   else reported) <> NaN.
Proof.
  intros Hr. destruct (nonempty externalResults); [|exact Hr].
  apply max_not_NaN; [exact Hr | discriminate].
Qed.

(** X23: without conflict, the evidence alone can fix a lower bound on
    the verdict's confidence, whatever number the model reports (also 0 or
    a negative number): at least 0.9 when a record named Snopes carries a
    verdict label, at least 0.85 when a specialized source is present. *)
Theorem X23_evidence_floors (rt : Runtime)
      (externalResults : list ExternalFactCheckResult)
      (conflictAnalysis : ConflictAnalysis)
      (response : string) (parsed : value) (reported : number) :
  JSON_parse rt response = Ok parsed ->
  parsed <> VNull -> parsed <> VUndefined ->
  reportedConfidence rt parsed = Ok reported ->
  reported <> NaN ->
  hasConflicts conflictAnalysis = false ->
  let final :=
    fc_confidence (synthesize rt externalResults conflictAnalysis (Ok response)) in
  ((exists r, In r externalResults /\ source r = "Snopes" /\ verdict_truthy r = true) ->
   number_ge final 0.9) /\
  (hasSpecializedSource externalResults = true -> number_ge final 0.85).
Proof.
  intros Hparse Hn Hu Hrep Hnum Hconf final.
  destruct (synthesize_success rt externalResults conflictAnalysis response parsed
              reported Hparse Hn Hu Hrep) as (srcs & st & rs & _ & Hsyn).
  unfold final. rewrite Hsyn, Hconf. cbn [fc_confidence]. unfold adjustConfidence.
  cbn [negb]. rewrite andb_true_r.
  pose proof (raised_not_NaN reported externalResults Hnum) as Hraised.
  set (raised := if nonempty externalResults
                 then JsMath.max reported
                        (Fin (avgExternalConfidence externalResults * 0.8))
                 else reported) in *.
  assert (Hspec : (if hasSpecializedSource externalResults
                   then JsMath.max raised (Fin 0.85) else raised) <> NaN).
  { destruct (hasSpecializedSource externalResults); [|exact Hraised].
    apply max_not_NaN; [exact Hraised | discriminate]. }
  split.
  - intros (r & Hin & Hsrc & Hlabel).
    assert (Hfind : exists found, snopesResult externalResults = Some found).
    { unfold snopesResult.
      destruct (find _ externalResults) as [found|] eqn:Hf; [eauto|].
      pose proof (find_none _ _ Hf r Hin) as Hr. cbv beta in Hr.
      rewrite Hsrc, Hlabel in Hr. discriminate Hr. }
    destruct Hfind as (found & ->).
    apply number_ge_clamp; [discriminate|].
    apply number_ge_max_r; [exact Hspec | apply Qle_refl].
  - intros Hs. rewrite Hs in *.
    assert (H085 : number_ge (JsMath.max raised (Fin 0.85)) 0.85)
      by (apply number_ge_max_r; [exact Hraised | apply Qle_refl]).
    apply number_ge_clamp; [discriminate|].
    destruct (snopesResult externalResults); [|exact H085].
    apply number_ge_max_l; [exact H085 | discriminate].
Qed.

Lemma X23_evidence_floors_witness :
  let final :=
    fc_confidence
      (synthesize sample_runtime [snopes_true] (analyzeSourceConflicts [snopes_true])
         (Ok text_confidence_05)) in
  ((exists r, In r [snopes_true] /\ source r = "Snopes" /\ verdict_truthy r = true) ->
   number_ge final 0.9) /\
  (hasSpecializedSource [snopes_true] = true -> number_ge final 0.85).
Proof.
  apply (X23_evidence_floors sample_runtime [snopes_true]
           (analyzeSourceConflicts [snopes_true]) text_confidence_05
           (payload_value (VNum (Fin 0.5)) []) (Fin 0.5));
    try reflexivity; discriminate.
Defined.


(** ** Extracted claims that are not strings *)

Section NonTextClaims.

Variable rt : Runtime.
Variable tx : TextOps.
Variable w : World.

(** X24: [analyze_webpage] expects the model to list the claims as
    strings. When one of the first three extracted claims is anything else
    (an object, a number, a nested list), the analysis of a page that is
    not in the store ends with an error answer and nothing is stored, also
    when the page was fetched and other claims were verified. *)
Theorem X24_non_text_claim_fails (address : string)
      (focus_areas : option (list string)) (s : State) :
  (forall r, In r (webpageAnalyses (db s)) -> wa_url r <> address) ->
  (forall h title body focus claimsResponse,
      cohere_reply w h (ExtractPrompt title body focus) = Ok claimsResponse ->
      exists c, In c (firstn 3 (extractClaims rt claimsResponse)) /\
                is_text c = false) ->
  exists response s',
    analyze_webpage rt tx w address focus_areas s = (Ok response, s') /\
    isError response = true /\
    db s' = db s.
Proof.
  intros Hmiss Hobjects.
  pose proof (filter_key_nil wa_url address _ Hmiss) as Hf.
  unfold analyze_webpage, try_catchM, bindM, selectAnalysesByUrl.
  rewrite Hf. change (firstn 1 (@nil WebpageAnalysisRow)) with (@nil WebpageAnalysisRow).
  cbv zeta.
  set (s0 := log (Selected "webpage_analyses" address) s).
  pose proof (scrapeWebpage_preserves_db tx w address s0) as Hdb1.
  destruct (scrapeWebpage tx w address s0) as [[webContent | e1] s1] eqn:Hs1;
    cbn [snd] in Hdb1; change (db s0) with (db s) in Hdb1; try rewrite Hs1.
  2: { eexists _, _. split; [reflexivity|]. split; [reflexivity | exact Hdb1]. }
  destruct (callCohere w (ExtractPrompt (wc_title webContent)
                            (wc_content webContent) focus_areas) s1)
    as [[claimsResponse | e2] s2] eqn:Hc2; try rewrite Hc2;
    unfold callCohere in Hc2; injection Hc2 as Hc2 <-.
  2: { eexists _, _. split; [reflexivity|]. split; [reflexivity | exact Hdb1]. }
  destruct (Hobjects _ _ _ _ _ Hc2) as (c & Hin & Hc).
  destruct (verifyEach_spec rt tx w (firstn 3 (extractClaims rt claimsResponse))
              (wc_title webContent) []
              (log (AskedModel (ExtractPrompt (wc_title webContent)
                                  (wc_content webContent) focus_areas)) s1))
    as [(results & s3 & Heq & Hdb3 & Hmap) | (e3 & s3 & Heq & Hdb3 & _)];
    rewrite Heq.
  - exfalso. rewrite <- Hmap in Hin. apply in_map_iff in Hin.
    destruct Hin as (r & <- & _). discriminate Hc.
  - eexists _, _. split; [reflexivity|]. split; [reflexivity|].
    cbn [snd errorAnswer ret]. rewrite Hdb3. exact Hdb1.
Qed.

End NonTextClaims.

Lemma X24_non_text_claim_fails_witness :
  exists response s',
    analyze_webpage object_claims_runtime sample_text object_claims_world
      "https://p.example" None initial_state
    = (Ok response, s') /\
    isError response = true /\
    db s' = db initial_state.
Proof.
  apply (X24_non_text_claim_fails object_claims_runtime sample_text
           object_claims_world "https://p.example" None initial_state).
  - intros r [].
  - intros h title body focus claimsResponse H. injection H as <-.
    exists (VObj [("claim", VStr "the Sun is hot")]).
    split; [left; reflexivity | reflexivity].
Defined.
